(** * Weenix: S5FS, VFS name resolution, syscalls and the address-space map

    A shallow embedding of kernel code of this repository, with the
    properties of it that are proved or refuted below:

    - [kernel/fs/s5fs/s5fs_subr.c]: [s5_free_block], [s5_alloc_inode],
      [s5_free_inode], [s5_read_file], [s5_write_file],
      [s5_file_block_to_disk_block], [s5_find_dirent], [s5_link],
      [s5_remove_dirent];
    - the S5FS vnode operations: [s5fs_get_pframe], [s5fs_mkdir],
      [s5fs_rmdir];
    - [kernel/fs/namev.c]: [namev_tokenize], [namev_lookup], [namev_dir],
      [namev_open];
    - [kernel/fs/vfs_syscall.c]: [do_read];
    - the address-space map: [vmmap_find_range].

    Parts IV and V add properties of code around these: the free lists of
    S5FS under [s5_free_inode], [s5_alloc_inode] and [s5_remove_blocks],
    [s5_check_super], the block branch of [s5fs_get_pframe] and
    [s5fs_mknod]; [vmmap_insert], [vmmap_lookup] and the ascending search of
    [vmmap_find_range]; [ldisc_read] and [ldisc_get_current_line_raw] of the
    terminal's line discipline; reference counts and locks in [namev_dir],
    [namev_open], [namev_get_parent] and [namev_is_descendant]; and the
    system calls [do_write], [do_close], [do_dup], [do_dup2], [do_lseek],
    [do_getdent], [do_mknod], [do_mkdir], [do_rmdir], [do_unlink] and
    [do_chdir].

    The sources hold two revisions of [s5fs_subr.c]; they differ in
    [s5_free_block], which the second one comments out.  The model follows
    the first, in which the function is implemented.

    C integers are [Z] with the wrap-around written out.  Kernel code runs in
    a state-and-failure monad: a [KASSERT] that fails or a call to [panic]
    ends the run with [Panic], an access through [NULL] or outside an object
    with [Fault]; [OutOfFuel] is the result of a loop model whose fuel ran
    out, and the theorems show that it does not occur.  [dbg] and
    [NOT_YET_IMPLEMENTED] only print on the debug console and leave the
    kernel state alone; printing is not modelled. *)

From Stdlib Require Import ZArith Lia Ascii.
From stdpp Require Import base gmap list strings.

Local Open Scope Z_scope.

(* ===================================================================== *)
(** * Part I: definitions                                                 *)
(* ===================================================================== *)

(** ** Outcomes and the kernel monad *)

Inductive outcome (A : Type) : Type :=
| Ret (a : A)
| Panic
| Fault
| OutOfFuel.
Arguments Ret {A} a.
Arguments Panic {A}.
Arguments Fault {A}.
Arguments OutOfFuel {A}.

Definition K (S A : Type) : Type := S → outcome (A * S).

Definition kret {S A} (a : A) : K S A := λ s, Ret (a, s).

Definition kbind {S A B} (m : K S A) (f : A → K S B) : K S B :=
  λ s, match m s with
       | Ret (a, s') => f a s'
       | Panic => Panic
       | Fault => Fault
       | OutOfFuel => OutOfFuel
       end.

#[global] Instance K_ret {S} : MRet (K S) := λ A, kret.
#[global] Instance K_bind {S} : MBind (K S) := λ A B f m, kbind m f.

Definition kget {S} : K S S := λ s, Ret (s, s).
Definition kgets {S A} (f : S → A) : K S A := λ s, Ret (f s, s).
Definition kmodify {S} (f : S → S) : K S unit := λ s, Ret (tt, f s).
Definition panic {S A} : K S A := λ _, Panic.
Definition fault {S A} : K S A := λ _, Fault.

(** [KASSERT(x)]: [panic("assertion failed")] when [x] is false. *)
Definition KASSERT {S} (b : bool) : K S unit :=
  if b then kret tt else panic.

(** A bounded [for] loop over the elements of an array. *)
Fixpoint for_each {S A} (l : list A) (body : A → K S unit) : K S unit :=
  match l with
  | [] => kret tt
  | x :: l' => kbind (body x) (λ _, for_each l' body)
  end.

(** ** Machine integers *)

Definition u16 (z : Z) : Z := z mod 2 ^ 16.
Definition u32 (z : Z) : Z := z mod 2 ^ 32.
Definition u64 (z : Z) : Z := z mod 2 ^ 64.
(** Conversion to a signed type of 32 and 64 bits ([int], [long],
    [ssize_t]). *)
Definition s32 (z : Z) : Z := (z + 2 ^ 31) mod 2 ^ 32 - 2 ^ 31.
Definition s64 (z : Z) : Z := (z + 2 ^ 63) mod 2 ^ 64 - 2 ^ 63.

(** ** [errno.h] and [fs/stat.h] *)

(** Modelled from the spec: [errno.h] is not among the sources; the error
    codes are the POSIX-compatible subset of section 6.2, returned
    negated. *)
Definition EPERM : Z := 1.
Definition ENOENT : Z := 2.
Definition EBADF : Z := 9.
Definition ENOMEM : Z := 12.
Definition EEXIST : Z := 17.
Definition ENOTDIR : Z := 20.
Definition EISDIR : Z := 21.
Definition EINVAL : Z := 22.
Definition EFBIG : Z := 27.
Definition ENOSPC : Z := 28.
Definition ENAMETOOLONG : Z := 36.
Definition ENOTEMPTY : Z := 39.

(** The file-type bits of a vnode mode, as the S5FS source quotes them from
    [fs/stat.h] next to [s5fs_read_vnode]. *)
Definition S_IFCHR : Z := 0x0100.
Definition S_IFDIR : Z := 0x0200.
Definition S_IFBLK : Z := 0x0400.
Definition S_IFREG : Z := 0x0800.
Definition _S_TYPE (m : Z) : Z := Z.land m 0xFF00.
Definition S_ISCHR (m : Z) : bool := _S_TYPE m =? S_IFCHR.
Definition S_ISDIR (m : Z) : bool := _S_TYPE m =? S_IFDIR.
Definition S_ISBLK (m : Z) : bool := _S_TYPE m =? S_IFBLK.
Definition S_ISREG (m : Z) : bool := _S_TYPE m =? S_IFREG.

(** ** S5FS on-disk structures ([fs/s5fs/s5fs.h])

    The header is not among the sources, so its constants are parameters.
    The inode type tags are pairwise distinct (they enumerate
    {free, data, directory, char, block}), the superblock's free-block array
    has at least one slot, and the counts fit the 32-bit fields that hold
    them. *)

Class S5Header := {
  S5_NBLKS_PER_FNODE : Z;
  S5_NDIRECT_BLOCKS : nat;
  S5_NIDIRECT_BLOCKS : nat;
  S5_BLOCK_SIZE : Z;
  PAGE_SIZE : Z;
  S5_INODES_PER_BLOCK : Z;
  S5_DIRENT_SIZE : Z;
  S5_TYPE_FREE : Z;
  S5_TYPE_DATA : Z;
  S5_TYPE_DIR : Z;
  S5_TYPE_CHR : Z;
  S5_TYPE_BLK : Z;
  S5_TYPE_distinct :
    NoDup [S5_TYPE_FREE; S5_TYPE_DATA; S5_TYPE_DIR; S5_TYPE_CHR; S5_TYPE_BLK];
  S5_NBLKS_PER_FNODE_range : 0 < S5_NBLKS_PER_FNODE < 2 ^ 31;
  PAGE_SIZE_pos : 0 < PAGE_SIZE
}.

(** The values of the Weenix headers. *)
Definition weenix_types_distinct : NoDup [0; 1; 2; 4; 8].
Proof. compute_done. Qed.

Definition weenix_nblks_range : 0 < 30 < 2 ^ 31.
Proof. lia. Qed.

Definition weenix_page_size_pos : 0 < 4096.
Proof. lia. Qed.

#[global] Instance weenix : S5Header := {|
  S5_NBLKS_PER_FNODE := 30;
  S5_NDIRECT_BLOCKS := 28;
  S5_NIDIRECT_BLOCKS := 1024;
  S5_BLOCK_SIZE := 4096;
  PAGE_SIZE := 4096;
  S5_INODES_PER_BLOCK := 32;
  S5_DIRENT_SIZE := 32;
  S5_TYPE_FREE := 0;
  S5_TYPE_DATA := 1;
  S5_TYPE_DIR := 2;
  S5_TYPE_CHR := 4;
  S5_TYPE_BLK := 8;
  S5_TYPE_distinct := weenix_types_distinct;
  S5_NBLKS_PER_FNODE_range := weenix_nblks_range;
  PAGE_SIZE_pos := weenix_page_size_pos
|}.

(** The inode: [s5_un] is the union of [s5_size] (inode in use) and
    [s5_next_free] (free inode). *)
Record s5_inode := mk_inode {
  s5_un : Z;
  s5_number : Z;
  s5_type : Z;
  s5_linkcount : Z;
  s5_direct_blocks : list Z;
  s5_indirect_block : Z
}.

Record s5_super := mk_super {
  s5s_magic : Z;
  s5s_version : Z;
  s5s_free_inode : Z;
  s5s_free_blocks : list Z;
  s5s_nfree : Z;
  s5s_root_inode : Z;
  s5s_num_inodes : Z
}.

(** The mounted file system.  The block device's memory object is seen
    through two typed views: the inode array ([s5f_inodes], by inode number)
    and the remaining blocks as arrays of 32-bit block numbers
    ([s5f_blocks], by disk block number).  [s5f_dirty] is the set of disk
    blocks whose page frame is marked dirty.  The page-frame and
    memory-object mutexes are taken and released inside
    [s5_get_disk_block]/[s5_release_disk_block] and are not modelled; the
    superblock mutex [s5f_mutex] is. *)
Record s5fs := mk_s5fs {
  s5f_super : s5_super;
  s5f_mutex : bool;
  s5f_inodes : gmap Z s5_inode;
  s5f_blocks : gmap Z (list Z);
  s5f_dirty : gset Z
}.

Definition set_super (f : s5_super → s5_super) (fs : s5fs) : s5fs :=
  mk_s5fs (f (s5f_super fs)) (s5f_mutex fs) (s5f_inodes fs) (s5f_blocks fs)
          (s5f_dirty fs).
Definition set_mutex (b : bool) (fs : s5fs) : s5fs :=
  mk_s5fs (s5f_super fs) b (s5f_inodes fs) (s5f_blocks fs) (s5f_dirty fs).
Definition set_inode (ino : Z) (i : s5_inode) (fs : s5fs) : s5fs :=
  mk_s5fs (s5f_super fs) (s5f_mutex fs) (<[ino := i]> (s5f_inodes fs))
          (s5f_blocks fs) (s5f_dirty fs).
Definition set_block (b : Z) (page : list Z) (fs : s5fs) : s5fs :=
  mk_s5fs (s5f_super fs) (s5f_mutex fs) (s5f_inodes fs)
          (<[b := page]> (s5f_blocks fs)) (s5f_dirty fs).
Definition set_dirty (f : gset Z → gset Z) (fs : s5fs) : s5fs :=
  mk_s5fs (s5f_super fs) (s5f_mutex fs) (s5f_inodes fs) (s5f_blocks fs)
          (f (s5f_dirty fs)).

Definition super_set_free_inode (v : Z) (s : s5_super) : s5_super :=
  mk_super (s5s_magic s) (s5s_version s) v (s5s_free_blocks s) (s5s_nfree s)
           (s5s_root_inode s) (s5s_num_inodes s).
Definition super_set_free_blocks (l : list Z) (s : s5_super) : s5_super :=
  mk_super (s5s_magic s) (s5s_version s) (s5s_free_inode s) l (s5s_nfree s)
           (s5s_root_inode s) (s5s_num_inodes s).
Definition super_set_nfree (n : Z) (s : s5_super) : s5_super :=
  mk_super (s5s_magic s) (s5s_version s) (s5s_free_inode s)
           (s5s_free_blocks s) n (s5s_root_inode s) (s5s_num_inodes s).

Section s5fs_subr.
Context {H : S5Header}.

Definition S5_MAX_FILE_BLOCKS : Z :=
  Z.of_nat S5_NIDIRECT_BLOCKS + Z.of_nat S5_NDIRECT_BLOCKS.
Definition S5_MAX_FILE_SIZE : Z := S5_MAX_FILE_BLOCKS * S5_BLOCK_SIZE.

(** Modelled from the spec: blocks 1..I hold the inode array,
    [S5_INODES_PER_BLOCK] inodes per block (section 6.1). *)
Definition S5_INODE_BLOCK (ino : Z) : Z := ino / S5_INODES_PER_BLOCK + 1.

(** Modelled from the spec: the mutex code is not among the sources.
    Locking a mutex the running thread already holds and unlocking one it
    does not hold are fatal (section 7). *)
Definition s5_lock_super : K s5fs unit :=
  fs ← kget;
  if s5f_mutex fs then panic else kmodify (set_mutex true).

(** Modelled from the spec: the mutex code is not among the sources; see
    [s5_lock_super]. *)
Definition s5_unlock_super : K s5fs unit :=
  fs ← kget;
  if s5f_mutex fs then kmodify (set_mutex false) else panic.

(** [s5_get_disk_block]: the page of disk block [blocknum] from the block
    device's memory object, marked dirty when [forwrite] is set; the
    function asserts that [mobj_get_pframe] succeeded. *)
Definition s5_get_disk_block (blocknum forwrite : Z) : K s5fs (list Z) :=
  fs ← kget;
  match s5f_blocks fs !! blocknum with
  | None => panic
  | Some page =>
      (if forwrite =? 0 then kret tt
       else kmodify (set_dirty (λ d, d ∪ {[blocknum]})));;
      kret page
  end.

Definition s5_release_disk_block : K s5fs unit := kret tt.

(** [s5_get_inode]: the inode lives in disk block [S5_INODE_BLOCK(ino)]. *)
Definition s5_get_inode (ino forwrite : Z) : K s5fs s5_inode :=
  fs ← kget;
  match s5f_inodes fs !! ino with
  | None => panic
  | Some inode =>
      (if forwrite =? 0 then kret tt
       else kmodify (set_dirty (λ d, d ∪ {[S5_INODE_BLOCK ino]})));;
      KASSERT (s5_number inode =? ino);;
      kret inode
  end.

(** [s5_release_inode] asserts that the inode still lies at its place in
    the page, which holds by the way the typed view is indexed. *)
Definition s5_release_inode : K s5fs unit := s5_release_disk_block.

Definition s5_free_block (blockno : Z) : K s5fs unit :=
  s5_lock_super;;
  s ← kgets s5f_super;
  KASSERT (negb (blockno =? 0));;
  KASSERT (s5s_nfree s <? S5_NBLKS_PER_FNODE);;
  pf ← s5_get_disk_block blockno 1;
  (if s5s_nfree s =? S5_NBLKS_PER_FNODE - 1 then
     (* memcpy(pf->pf_addr, s->s5s_free_blocks, sizeof(s->s5s_free_blocks)) *)
     kmodify (set_block blockno
                (s5s_free_blocks s
                 ++ drop (Z.to_nat S5_NBLKS_PER_FNODE) pf));;
     kmodify (set_super (super_set_nfree 0));;
     kmodify (set_super (λ s', super_set_free_blocks
                (<[Z.to_nat (S5_NBLKS_PER_FNODE - 1) := blockno]>
                   (s5s_free_blocks s')) s'))
   else
     kmodify (set_super (λ s', super_set_free_blocks
                (<[Z.to_nat (s5s_nfree s') := blockno]>
                   (s5s_free_blocks s')) s'));;
     kmodify (set_super (λ s', super_set_nfree (u32 (s5s_nfree s' + 1)) s'));;
     (* pf->pf_dirty = 0 *)
     kmodify (set_dirty (λ d, d ∖ {[blockno]})));;
  s5_release_disk_block;;
  s5_unlock_super.

(** The types that [s5_alloc_inode] asserts on entry. *)
Definition valid_inode_type (type : Z) : Prop :=
  type = S5_TYPE_DATA ∨ type = S5_TYPE_DIR
  ∨ type = S5_TYPE_CHR ∨ type = S5_TYPE_BLK.

(** The fields that [s5_alloc_inode] writes into the inode it pops. *)
Definition inode_init (type devid : Z) (inode : s5_inode) : s5_inode :=
  mk_inode 0 (s5_number inode) type 0 (replicate S5_NDIRECT_BLOCKS 0)
           (if (S5_TYPE_CHR =? type) || (S5_TYPE_BLK =? type)
            then devid else 0).

Definition s5_alloc_inode (type devid : Z) : K s5fs Z :=
  KASSERT ((S5_TYPE_DATA =? type) || (S5_TYPE_DIR =? type)
           || (S5_TYPE_CHR =? type) || (S5_TYPE_BLK =? type));;
  s5_lock_super;;
  new_ino ← kgets (λ fs, s5s_free_inode (s5f_super fs));
  if new_ino =? u32 (-1) then
    s5_unlock_super;;
    kret (- ENOSPC)
  else
    inode ← s5_get_inode new_ino 1;
    kmodify (set_super (super_set_free_inode (s5_un inode)));;
    KASSERT (negb (s5_un inode =? s5_number inode));;
    kmodify (set_inode new_ino (inode_init type devid inode));;
    s5_release_inode;;
    s5_unlock_super;;
    kret new_ino.

Definition free_if_set (b : Z) : K s5fs unit :=
  if b =? 0 then kret tt else s5_free_block b.

Definition s5_free_inode (ino : Z) : K s5fs unit :=
  s5_lock_super;;
  inode ← s5_get_inode ino 1;
  '(direct_blocks_to_free, indirect_block_to_free) ←
    (if (s5_type inode =? S5_TYPE_DATA) || (s5_type inode =? S5_TYPE_DIR)
     then kret (take S5_NDIRECT_BLOCKS (s5_direct_blocks inode),
                s5_indirect_block inode)
     else
       KASSERT ((s5_type inode =? S5_TYPE_BLK)
                || (s5_type inode =? S5_TYPE_CHR));;
       kret (replicate S5_NDIRECT_BLOCKS 0, 0));
  free_head ← kgets (λ fs, s5s_free_inode (s5f_super fs));
  kmodify (set_inode ino
             (mk_inode free_head (s5_number inode) S5_TYPE_FREE
                (s5_linkcount inode) (s5_direct_blocks inode)
                (s5_indirect_block inode)));;
  kmodify (set_super (super_set_free_inode (s5_number inode)));;
  s5_release_inode;;
  s5_unlock_super;;
  for_each direct_blocks_to_free free_if_set;;
  if indirect_block_to_free =? 0 then kret tt
  else
    pf ← s5_get_disk_block indirect_block_to_free 0;
    KASSERT (S5_BLOCK_SIZE =? PAGE_SIZE);;
    s5_release_disk_block;;
    for_each (take S5_NIDIRECT_BLOCKS pf) free_if_set;;
    s5_free_block indirect_block_to_free.

End s5fs_subr.

(** ** S5 nodes, vnodes and their memory objects

    A vnode pointer is the vnode's number in the vnode table ([NULL] is
    [None]); the S5 node embeds the vnode, its copy of the inode and the
    [dirtied_inode] flag.  [vn_frames] holds the page frames resident in the
    vnode's own memory object: contents and dirty bit by page index. *)

Inductive mobj_id : Type :=
| BlockDev
| VnodeObj (vno : Z).

(** A page frame handed to a caller: its owning memory object and index. *)
Record pframe := mk_pframe {
  pf_mobj : mobj_id;
  pf_pagenum : Z
}.

Record vnode := mk_vnode {
  vn_mode : Z;
  vn_len : Z;
  vn_devid : Z;
  vn_frames : gmap Z (list Z * bool);
  sn_inode : s5_inode;
  dirtied_inode : Z
}.

Record kernel := mk_kernel {
  k_s5fs : s5fs;
  k_vnodes : gmap Z vnode;
  k_free_pages : nat
}.

Definition set_vnode (vno : Z) (v : vnode) (k : kernel) : kernel :=
  mk_kernel (k_s5fs k) (<[vno := v]> (k_vnodes k)) (k_free_pages k).
Definition set_free_pages (n : nat) (k : kernel) : kernel :=
  mk_kernel (k_s5fs k) (k_vnodes k) n.
Definition vnode_set_frames (f : gmap Z (list Z * bool)) (v : vnode) : vnode :=
  mk_vnode (vn_mode v) (vn_len v) (vn_devid v) f (sn_inode v)
           (dirtied_inode v).

(** Run file-system code on the mounted file system of the kernel. *)
Definition on_fs {A} (m : K s5fs A) : K kernel A :=
  λ k, match m (k_s5fs k) with
       | Ret (a, fs') => Ret (a, mk_kernel fs' (k_vnodes k) (k_free_pages k))
       | Panic => Panic
       | Fault => Fault
       | OutOfFuel => OutOfFuel
       end.

(** Dereference a vnode pointer. *)
Definition vnode_deref (vn : Z) : K kernel vnode :=
  k ← kget;
  match k_vnodes k !! vn with
  | Some v => kret v
  | None => fault
  end.

Section s5_node.
Context {H : S5Header}.

(** [s5_file_block_to_disk_block]: the body is commented out and the
    function returns 0 whatever its arguments. *)
Definition s5_file_block_to_disk_block (sn : Z) (file_blocknum : Z)
    (alloc : Z) : K kernel Z :=
  kret 0.

(** [s5_read_file] and [s5_write_file]: the bodies are commented out; the
    functions report [NOT_YET_IMPLEMENTED] and return -1.  The read
    returns the caller's buffer as it was passed. *)
Definition s5_read_file (sn : Z) (pos : Z) (buf : list Z) (len : Z)
  : K kernel (Z * list Z) :=
  kret (-1, buf).

Definition s5_write_file (sn : Z) (pos : Z) (buf : list Z) (len : Z)
  : K kernel Z :=
  kret (-1).

(** The directory helpers are not implemented either: [s5_find_dirent] and
    [s5_link] return -1, [s5_remove_dirent] returns without doing
    anything. *)
Definition s5_find_dirent (sn : Z) (name : string) (namelen : Z)
  : K kernel Z := kret (-1).

Definition s5_link (dir : Z) (name : string) (namelen : Z) (child : Z)
  : K kernel Z := kret (-1).

Definition s5_remove_dirent (sn : Z) (name : string) (namelen : Z)
    (child : Z) : K kernel unit := kret tt.

(** *** Memory-object operations on a vnode's own object *)

(** Modelled from the spec: [mm/mobj.c] is not among the sources.  Section
    4.1: [mobj_find_pframe] returns the resident frame or null. *)
Definition mobj_find_pframe (vn pagenum : Z) : K kernel (option pframe) :=
  v ← vnode_deref vn;
  kret (match vn_frames v !! pagenum with
        | Some _ => Some (mk_pframe (VnodeObj vn) pagenum)
        | None => None
        end).

(** Modelled from the spec: [mm/mobj.c] is not among the sources.  Section
    4.1: [mobj_free_pframe] evicts and frees a page frame. *)
Definition mobj_free_pframe (vn pagenum : Z) : K kernel unit :=
  v ← vnode_deref vn;
  match vn_frames v !! pagenum with
  | Some _ =>
      kmodify (set_vnode vn (vnode_set_frames (delete pagenum (vn_frames v)) v));;
      kmodify (λ k, set_free_pages (S (k_free_pages k)) k)
  | None => kret tt
  end.

(** [s5fs_fill_pframe]: [memset(pf->pf_addr, 0, PAGE_SIZE)], returns 0. *)
Definition s5fs_fill_pframe : list Z := replicate (Z.to_nat (PAGE_SIZE / 4)) 0.

(** Modelled from the spec: [mm/mobj.c] is not among the sources.  Section
    4.1: the default [get_pframe] returns the resident frame or allocates
    one, fills it through the object's [fill_pframe] and installs it; it
    marks the frame dirty when [for_write] is set and fails with [ENOMEM]
    when no page can be allocated. *)
Definition mobj_default_get_pframe (vn pagenum forwrite : Z)
  : K kernel (Z * option pframe) :=
  v ← vnode_deref vn;
  match vn_frames v !! pagenum with
  | Some (data, dirty) =>
      kmodify (set_vnode vn (vnode_set_frames
        (<[pagenum := (data, dirty || negb (forwrite =? 0))]> (vn_frames v)) v));;
      kret (0, Some (mk_pframe (VnodeObj vn) pagenum))
  | None =>
      k ← kget;
      match k_free_pages k with
      | O => kret (- ENOMEM, None)
      | S n =>
          kmodify (set_free_pages n);;
          kmodify (set_vnode vn (vnode_set_frames
            (<[pagenum := (s5fs_fill_pframe, negb (forwrite =? 0))]>
               (vn_frames v)) v));;
          kret (0, Some (mk_pframe (VnodeObj vn) pagenum))
      end
  end.

(** *** [s5fs_get_pframe]

    The body of the function, over the file-block translation it calls. The
    [long forwrite] is passed as the [int alloc] of the translation. *)
Definition s5fs_get_pframe_with (translate : Z → Z → Z → K kernel Z)
    (vn pagenum forwrite : Z) : K kernel (Z * option pframe) :=
  v ← vnode_deref vn;
  if vn_len v <=? u64 (pagenum * PAGE_SIZE) then kret (- EINVAL, None)
  else
    loc ← translate vn pagenum (s32 forwrite);
    if loc <? 0 then kret (loc, None)
    else if negb (loc =? 0) then
      pf ← mobj_find_pframe vn pagenum;
      (match pf with
       | Some _ => mobj_free_pframe vn pagenum
       | None => kret tt
       end);;
      on_fs (s5_get_disk_block (u32 loc) forwrite);;
      kret (0, Some (mk_pframe BlockDev (u32 loc)))
    else
      KASSERT (forwrite =? 0);;
      mobj_default_get_pframe vn pagenum forwrite.

Definition s5fs_get_pframe : Z → Z → Z → K kernel (Z * option pframe) :=
  s5fs_get_pframe_with s5_file_block_to_disk_block.

(** [name_match(fname, name, namelen)], a macro of [fs/vfs.h]: [fname] has
    length [namelen] and [strncmp] finds it equal to the first [namelen]
    characters of [name]. *)
Definition name_match (fname name : string) (namelen : Z) : bool :=
  (Z.of_nat (String.length fname) =? namelen)
  && bool_decide (fname = String.substring 0 (Z.to_nat namelen) name).

(** *** [s5fs_mkdir] and [s5fs_rmdir]

    [vget_locked] and [vput_locked] belong to the vnode cache
    ([kernel/fs/vnode.c], not among the sources) and are parameters.  The
    new vnode is returned through [out] on success only. *)
Section vnode_cache.
Variable vget_locked : Z → K kernel (option Z).
Variable vput_locked : Z → K kernel unit.

Definition vnode_ptr (p : option Z) : K kernel Z :=
  match p with
  | Some vn => kret vn
  | None => fault
  end.

Definition s5fs_mkdir (dir : Z) (name : string) (namelen : Z)
  : K kernel (Z * option Z) :=
  d ← vnode_deref dir;
  KASSERT (S_ISDIR (vn_mode d));;
  alloc_inode ← on_fs (s5_alloc_inode (u16 S_IFDIR) 0);
  if alloc_inode <? 0 then kret (alloc_inode, None)
  else
    child_ptr ← vget_locked (u32 alloc_inode);
    child_vnode ← vnode_ptr child_ptr;
    status ← s5_link dir name namelen child_vnode;
    if negb (status =? 0) then
      vput_locked child_vnode;;
      on_fs (s5_free_inode (u32 alloc_inode));;
      kret (status, None)
    else
      status ← s5_link child_vnode "." 1 child_vnode;
      if negb (status =? 0) then
        s5_remove_dirent dir name namelen child_vnode;;
        vput_locked child_vnode;;
        on_fs (s5_free_inode (u32 alloc_inode));;
        kret (status, None)
      else
        status ← s5_link child_vnode ".." 2 dir;
        if negb (status =? 0) then
          s5_remove_dirent dir name namelen child_vnode;;
          s5_remove_dirent child_vnode "." 1 child_vnode;;
          vput_locked child_vnode;;
          on_fs (s5_free_inode (u32 alloc_inode));;
          kret (status, None)
        else kret (0, Some child_vnode).

(** In [s5fs_rmdir] the local [dirent] is [NULL] when its [s5d_inode] is
    read. *)
Definition s5fs_rmdir (parent : Z) (name : string) (namelen : Z)
  : K kernel Z :=
  if (namelen =? 1) && name_match "." name namelen then kret (- ENOTDIR)
  else if (namelen =? 2) && name_match ".." name namelen then kret (- ENOTDIR)
  else
    err ← s5_find_dirent parent name namelen;
    if err <? 0 then kret err
    else
      s5d_inode ← fault;
      child_ptr ← vget_locked s5d_inode;
      match child_ptr with
      | None => kret (-1)
      | Some child_vnode =>
          c ← vnode_deref child_vnode;
          if negb (S_ISDIR (vn_mode c)) then
            vput_locked child_vnode;;
            kret (- ENOTDIR)
          else if u64 (2 * S5_DIRENT_SIZE) <? vn_len c then
            vput_locked child_vnode;;
            kret (- ENOTEMPTY)
          else
            s5_remove_dirent parent name namelen child_vnode;;
            s5_remove_dirent child_vnode "." 1 child_vnode;;
            s5_remove_dirent child_vnode ".." 2 parent;;
            vput_locked child_vnode;;
            kret 0
      end.

End vnode_cache.
End s5_node.

(** ** More of the S5 layer: [s5_remove_blocks], [s5_check_super] *)

Definition inode_set_blocks (direct : list Z) (indirect : Z) (i : s5_inode)
  : s5_inode :=
  mk_inode (s5_un i) (s5_number i) (s5_type i) (s5_linkcount i) direct indirect.
Definition vnode_set_inode (i : s5_inode) (v : vnode) : vnode :=
  mk_vnode (vn_mode v) (vn_len v) (vn_devid v) (vn_frames v) i
           (dirtied_inode v).

(** Constants of [fs/s5fs/s5fs.h] that [s5_check_super] compares with. *)
Class S5SuperHeader := {
  S5_MAGIC : Z;
  S5_CURRENT_VERSION : Z
}.

#[global] Instance weenix_super : S5SuperHeader := {|
  S5_MAGIC := 29311;
  S5_CURRENT_VERSION := 3
|}.

(** [s5_check_super]: 0 for a superblock that can be mounted, -1
    otherwise. *)
Definition s5_check_super {M : S5SuperHeader} (super : s5_super) : Z :=
  if negb ((s5s_magic super =? S5_MAGIC)
           && ((s5s_free_inode super <? s5s_num_inodes super)
               || (s5s_free_inode super =? u32 (-1)))
           && (s5s_root_inode super <? s5s_num_inodes super))
  then -1
  else if negb (s5s_version super =? S5_CURRENT_VERSION) then -1
  else 0.

(** The fields of the superblock that [s5_check_super] reads. *)
Definition super_header (s : s5_super) : Z * Z * Z * Z * Z :=
  (s5s_magic s, s5s_version s, s5s_free_inode s, s5s_root_inode s,
   s5s_num_inodes s).

Section s5_blocks.
Context {H : S5Header}.

(** Write to the S5 node's copy of the inode. *)
Definition sn_update_inode (sn : Z) (f : s5_inode → s5_inode)
  : K kernel unit :=
  v ← vnode_deref sn;
  kmodify (set_vnode sn (vnode_set_inode (f (sn_inode v)) v)).

(** One turn of the loop of [s5_remove_blocks] over the indirect block:
    entry [i] is read from the page of the block as it is at that turn. *)
Definition free_indirect_entry (indirect : Z) (i : nat) : K s5fs unit :=
  fs ← kget;
  match s5f_blocks fs !! indirect with
  | None => fault
  | Some page =>
      match page !! i with
      | Some b => free_if_set b
      | None => fault
      end
  end.

(** [s5_remove_blocks]: [s5_free_block] leaves the S5 node alone, so the
    direct slots read in the first loop are those of the node on entry. *)
Definition s5_remove_blocks (sn : Z) : K kernel unit :=
  v ← vnode_deref sn;
  on_fs (for_each (take S5_NDIRECT_BLOCKS (s5_direct_blocks (sn_inode v)))
           free_if_set);;
  sn_update_inode sn (λ i, inode_set_blocks (replicate S5_NDIRECT_BLOCKS 0)
                              (s5_indirect_block i) i);;
  let indirect := s5_indirect_block (sn_inode v) in
  if indirect =? 0 then kret tt
  else
    on_fs (s5_get_disk_block indirect 0);;
    on_fs (for_each (seq 0 S5_NIDIRECT_BLOCKS) (free_indirect_entry indirect));;
    on_fs s5_release_disk_block;;
    on_fs (s5_free_block indirect);;
    sn_update_inode sn (λ i, inode_set_blocks (s5_direct_blocks i) 0 i).

(** The file system after the blocks [bs] were pushed, one after the other,
    on a free-block array with room for them. *)
Definition pushed (bs : list Z) (fs : s5fs) : s5fs :=
  let s := s5f_super fs in
  let n := Z.to_nat (s5s_nfree s) in
  mk_s5fs
    (super_set_nfree (s5s_nfree s + Z.of_nat (length bs))
       (super_set_free_blocks
          (take n (s5s_free_blocks s) ++ bs
           ++ drop (n + length bs) (s5s_free_blocks s)) s))
    (s5f_mutex fs) (s5f_inodes fs) (s5f_blocks fs)
    (s5f_dirty fs ∖ list_to_set bs).

(** The block pointers of an array that are set. *)
Definition set_blocks (l : list Z) : list Z :=
  filter (λ b, b ≠ 0) l.

(** The file system after inode [ino], which held [inode], was linked in
    at the head of the free-inode list. *)
Definition inode_freed (ino : Z) (inode : s5_inode) (fs : s5fs) : s5fs :=
  mk_s5fs
    (super_set_free_inode ino (s5f_super fs)) (s5f_mutex fs)
    (<[ino := mk_inode (s5s_free_inode (s5f_super fs)) ino S5_TYPE_FREE
                (s5_linkcount inode) (s5_direct_blocks inode)
                (s5_indirect_block inode)]> (s5f_inodes fs))
    (s5f_blocks fs)
    (s5f_dirty fs ∪ {[S5_INODE_BLOCK ino]}).

(** The direct blocks that an inode of a file or a directory holds; a
    device inode holds none. *)
Definition direct_blocks_of (inode : s5_inode) : list Z :=
  if (s5_type inode =? S5_TYPE_DATA) || (s5_type inode =? S5_TYPE_DIR)
  then set_blocks (take S5_NDIRECT_BLOCKS (s5_direct_blocks inode))
  else [].

(** An inode in use that has no indirect block: a device, or a file or
    directory of direct blocks only. *)
Definition direct_only (inode : s5_inode) : Prop :=
  s5_type inode = S5_TYPE_CHR ∨ s5_type inode = S5_TYPE_BLK
  ∨ ((s5_type inode = S5_TYPE_DATA ∨ s5_type inode = S5_TYPE_DIR)
     ∧ s5_indirect_block inode = 0).

End s5_blocks.

(** Modelled from the spec: [errno.h] is not among the sources; the code is
    that of section 7. *)
Definition ENOTSUP : Z := 95.

(** *** [s5fs_mknod]

    [vget] and [vput] belong to the vnode cache ([kernel/fs/vnode.c], not
    among the sources) and are parameters.  The local [type] is assigned
    from the mode and never read: the call of [s5_alloc_inode] is passed
    [mode], converted to its [uint16_t] parameter.  The new vnode is
    returned through [out] on success only. *)
Section s5_mknod.
Context {H : S5Header}.
Variable vget : Z → K kernel (option Z).
Variable vput : Z → K kernel unit.

Definition s5fs_mknod (dir : Z) (name : string) (namelen : Z)
    (mode devid : Z) : K kernel (Z * option Z) :=
  if negb (S_ISCHR mode || S_ISBLK mode || S_ISREG mode)
  then kret (- ENOTSUP, None)
  else
    alloc ← on_fs (s5_alloc_inode (u16 mode) devid);
    if alloc <? 0 then kret (alloc, None)
    else
      vnode ← vget alloc;
      link ← s5_link dir name namelen (default 0 vnode);
      if link <? 0 then
        v ← (match vnode with Some v => kret v | None => fault end);
        vput v;;
        kret (link, None)
      else kret (0, vnode).

End s5_mknod.

(** ** A small file system for the examples

    Inode 0 is the root directory, inode 1 a directory [d] that holds one
    file besides [.] and [..], inode 2 that file, one page long; inode 3 is
    a character device with device id 513.  The superblock's array holds
    three free blocks. *)

Definition ex_free_blocks : list Z := [70; 71; 72] ++ replicate 26 0 ++ [u32 (-1)].

Definition ex_super (free_inode : Z) : s5_super :=
  mk_super 29311 3 free_inode ex_free_blocks 3 0 4.

Definition ex_dir_inode (ino : Z) (size block : Z) : s5_inode :=
  mk_inode size ino 2 2 (block :: replicate 27 0) 0.

Definition ex_file_inode : s5_inode :=
  mk_inode 4096 2 1 1 (replicate 28 0) 0.

Definition ex_chr_inode : s5_inode :=
  mk_inode 0 3 4 1 (replicate 28 0) 513.

Definition ex_inodes : gmap Z s5_inode :=
  {[ 0 := ex_dir_inode 0 96 60; 1 := ex_dir_inode 1 96 61;
     2 := ex_file_inode; 3 := ex_chr_inode ]}.

Definition ex_blocks : gmap Z (list Z) :=
  {[ 60 := replicate 1024 0; 61 := replicate 1024 0;
     77 := replicate 1024 0 ]}.

(** No free inode is left. *)
Definition ex_fs : s5fs :=
  mk_s5fs (ex_super (u32 (-1))) false ex_inodes ex_blocks ∅.

Definition ex_vnode (mode len : Z) (inode : s5_inode) : vnode :=
  mk_vnode mode len 0 ∅ inode 0.

Definition ex_kernel : kernel :=
  mk_kernel ex_fs
    {[ 0 := ex_vnode S_IFDIR 96 (ex_dir_inode 0 96 60);
       1 := ex_vnode S_IFDIR 96 (ex_dir_inode 1 96 61);
       2 := ex_vnode S_IFREG 4096 ex_file_inode ]}
    8.

(** A vnode cache in which every inode has its vnode resident. *)
Definition ex_vget_locked (ino : Z) : K kernel (option Z) := kret (Some ino).
Definition ex_vput_locked (vn : Z) : K kernel unit := kret tt.

(** The same file system with the character device freed: inode 3 is the
    only free inode. *)
Definition ex_fs_one_free : s5fs :=
  mk_s5fs (ex_super 3) false
    (<[3 := mk_inode (u32 (-1)) 3 0 1 (replicate 28 0) 513]> ex_inodes)
    ex_blocks ∅.



(** ** The VFS layer: vnodes, files, name resolution, [do_read] *)

Module Vfs.

(** Constants of [fs/dirent.h], [fs/fcntl.h], [fs/file.h] and [config.h],
    which are not among the sources. *)
Class VfsHeader := {
  NAME_LEN : Z;
  O_CREAT : Z;
  FMODE_READ : Z;
  NFILES : Z;
  NAME_LEN_nonneg : 0 ≤ NAME_LEN
}.

Definition weenix_name_len_nonneg : 0 ≤ 28.
Proof. lia. Qed.

#[global] Instance weenix_vfs : VfsHeader := {|
  NAME_LEN := 28;
  O_CREAT := 0x100;
  FMODE_READ := 1;
  NFILES := 32;
  NAME_LEN_nonneg := weenix_name_len_nonneg
|}.

(** The operations of a vnode that this layer calls, already applied to the
    vnode itself.  [lookup name] and [mknod name mode devid] return an error
    code ([inl]) or the vnode found or made, with a reference added
    ([inr]); [read pos len] returns the [ssize_t] result and the bytes
    placed in the buffer.  A [None] is a [NULL] function pointer. *)
Record vnode_ops := mk_ops {
  lookup : option (string → Z + Z);
  mknod : option (string → Z → Z → Z + Z);
  read : option (Z → Z → Z * list Z)
}.

Record vnode := mk_vnode {
  vn_mode : Z;
  vn_len : Z;
  vn_ops : option vnode_ops
}.

Record file := mk_file {
  f_vnode : Z;
  f_mode : Z;
  f_pos : Z;
  f_refcount : Z
}.

(** Vnode and file pointers are keys of [vfs_vnodes] and [vfs_files].
    [vfs_refcount] and [vfs_locked] hold the reference count and the mutex
    of each vnode, [p_files] is the descriptor table of the current
    process, [vfs_root] is [vfs_root_fs.fs_root]. *)
Record vfs := mk_vfs {
  vfs_root : Z;
  vfs_vnodes : gmap Z vnode;
  vfs_refcount : gmap Z Z;
  vfs_locked : gset Z;
  vfs_files : gmap Z file;
  p_files : list (option Z)
}.

Definition set_refcount (f : gmap Z Z → gmap Z Z) (st : vfs) : vfs :=
  mk_vfs (vfs_root st) (vfs_vnodes st) (f (vfs_refcount st)) (vfs_locked st)
         (vfs_files st) (p_files st).
Definition set_locked (f : gset Z → gset Z) (st : vfs) : vfs :=
  mk_vfs (vfs_root st) (vfs_vnodes st) (vfs_refcount st) (f (vfs_locked st))
         (vfs_files st) (p_files st).
Definition set_file (fp : Z) (fl : file) (st : vfs) : vfs :=
  mk_vfs (vfs_root st) (vfs_vnodes st) (vfs_refcount st) (vfs_locked st)
         (<[fp := fl]> (vfs_files st)) (p_files st).

Definition deref (vn : Z) : K vfs vnode :=
  st ← kget;
  match vfs_vnodes st !! vn with
  | Some v => kret v
  | None => fault
  end.

Definition ptr {A} (p : option A) : K vfs A :=
  match p with
  | Some a => kret a
  | None => fault
  end.

(** *** Vnode references and mutexes *)

Definition refs (st : vfs) (vn : Z) : Z := default 0 (vfs_refcount st !! vn).

(** Modelled from the spec: [kernel/fs/vnode.c] is not among the sources.
    Section 4.3.1: [vref] adds a reference. *)
Definition vref (vn : Z) : K vfs unit :=
  kmodify (λ st, set_refcount <[vn := refs st vn + 1]> st).

(** Modelled from the spec: [kernel/fs/vnode.c] is not among the sources.
    Section 4.3.1: [vput] releases a reference; the destruction of the
    vnode on its last release is not modelled. *)
Definition vput (vn : Z) : K vfs unit :=
  kmodify (λ st, set_refcount <[vn := refs st vn - 1]> st).

(** Modelled from the spec: the mutex code is not among the sources.
    Locking a mutex the running thread already holds is fatal (section
    7). *)
Definition vlock (vn : Z) : K vfs unit :=
  st ← kget;
  if bool_decide (vn ∈ vfs_locked st) then panic
  else kmodify (set_locked (λ l, l ∪ {[vn]})).

(** Modelled from the spec: the mutex code is not among the sources.
    Unlocking a mutex the running thread does not hold is fatal (section
    7). *)
Definition vunlock (vn : Z) : K vfs unit :=
  st ← kget;
  if bool_decide (vn ∈ vfs_locked st)
  then kmodify (set_locked (λ l, l ∖ {[vn]}))
  else panic.

(** Modelled from the spec: [kernel/fs/vnode.c] is not among the sources.
    Section 4.3.1: [vput_locked] consumes a vnode whose mutex is held. *)
Definition vput_locked (vn : Z) : K vfs unit :=
  vunlock vn;; vput vn.

Section namev.
Context {V : VfsHeader}.

(** *** [namev_lookup] *)
Definition namev_lookup (dir : Z) (name : option string) (namelen : Z)
  : K vfs (Z * option Z) :=
  d ← deref dir;
  match vn_ops d with
  | None => kret (- ENOTDIR, None)
  | Some ops =>
      if negb (S_ISDIR (vn_mode d)) then kret (- ENOTDIR, None)
      else if namelen =? 0 then
        vref dir;;
        kret (0, Some dir)
      else
        f ← ptr (lookup ops);
        nm ← ptr name;
        match f (String.substring 0 (Z.to_nat namelen) nm) with
        | inl e => kret (e, None)
        | inr v => vref v;; kret (0, Some v)
        end
  end.

(** *** [namev_tokenize]

    [search] is the rest of the path or [NULL]; the result is the token's
    first character (a pointer into the path), its length and the new
    [search]. *)
Fixpoint skip_slashes (s : string) : string :=
  match s with
  | String c s' => if Ascii.eqb c "/"%char then skip_slashes s' else s
  | EmptyString => s
  end.

Fixpoint token_end (s : string) : nat * string :=
  match s with
  | EmptyString => (O, s)
  | String c s' =>
      if Ascii.eqb c "/"%char then (O, s)
      else let '(n, r) := token_end s' in (S n, r)
  end.

Definition namev_tokenize (search : option string)
  : option string * Z * option string :=
  match search with
  | None => (None, 0, None)
  | Some s =>
      let begin := skip_slashes s in
      let '(n, r) := token_end begin in
      (Some begin, Z.of_nat n,
       match r with EmptyString => None | _ => Some r end)
  end.

(** *** [namev_dir]

    The result is the return value and, on success, what is stored through
    [res_vnode], [name] and [namelen].  The loop runs once for each
    component but the last; its model takes the path's length as fuel. *)
Fixpoint namev_dir_loop (fuel : nat) (basenode : Z)
    (curname : option string) (cur_len : Z)
    (nextname : option string) (next_len : Z) (search : option string)
  : K vfs (Z * option (Z * option string * Z)) :=
  if next_len =? 0 then
    vunlock basenode;;
    kret (0, Some (basenode, curname, cur_len))
  else
    match fuel with
    | O => λ _, OutOfFuel
    | S fuel' =>
        '(err, revnode) ← namev_lookup basenode curname cur_len;
        if negb (s32 err =? 0) then
          vput_locked basenode;;
          kret (s32 err, None)
        else
          rev ← ptr revnode;
          basenode' ←
            (if basenode =? rev then vput rev;; kret basenode
             else vput_locked basenode;; vlock rev;; kret rev);
          let '(nextname', next_len', search') := namev_tokenize search in
          namev_dir_loop fuel' basenode' nextname next_len
                         nextname' next_len' search'
    end.

Definition namev_dir (base : Z) (path : option string)
  : K vfs (Z * option (Z * option string * Z)) :=
  match path with
  | None | Some EmptyString => kret (- EINVAL, None)
  | Some (String c _ as p) =>
      root ← kgets vfs_root;
      let basenode := if Ascii.eqb c "/"%char then root else base in
      let '(curname, cur_len, search) := namev_tokenize (Some p) in
      let '(nextname, next_len, search) := namev_tokenize search in
      vlock basenode;;
      vref basenode;;
      namev_dir_loop (String.length p) basenode curname cur_len
                     nextname next_len search
  end.

(** *** [namev_open] *)

Fixpoint last_char (s : string) : option ascii :=
  match s with
  | EmptyString => None
  | String c EmptyString => Some c
  | String _ s' => last_char s'
  end.

(** [path[strlen(path) - 1] == '/']; on the empty string the byte read lies
    before the string. *)
Definition ends_in_slash (path : option string) : K vfs bool :=
  p ← ptr path;
  c ← ptr (last_char p);
  kret (Ascii.eqb c "/"%char).

Definition namev_open (base : Z) (path : option string)
    (oflags mode devid : Z) : K vfs (Z * option Z) :=
  creat_dir ←
    (if Z.land oflags O_CREAT =? 0 then (kret false : K vfs bool)
     else ends_in_slash path);
  if (creat_dir : bool) then kret (- EINVAL, None)
  else
    '(res, out) ← namev_dir base path;
    if negb (res =? 0) then kret (res, None)
    else
      '(dirnode, nv_name, nv_namelen) ← ptr out;
      if NAME_LEN <? nv_namelen then
        vput dirnode;;
        kret (- ENAMETOOLONG, None)
      else
        vlock dirnode;;
        '(res, filenode) ← namev_lookup dirnode nv_name nv_namelen;
        if (res =? - ENOENT) && negb (Z.land oflags O_CREAT =? 0) then
          d ← deref dirnode;
          ops ← ptr (vn_ops d);
          mk ← ptr (mknod ops);
          nm ← ptr nv_name;
          match mk (String.substring 0 (Z.to_nat nv_namelen) nm) mode devid with
          | inl e =>
              if negb (e =? 0) then
                vunlock dirnode;;
                vput dirnode;;
                fn ← ptr filenode;
                vput fn;;
                kret (e, None)
              else
                vunlock dirnode;;
                fn ← ptr filenode;
                f ← deref fn;
                kret (0, None)
          | inr fn =>
              vref fn;;
              vunlock dirnode;;
              f ← deref fn;
              slash ← (if S_ISDIR (vn_mode f) then (kret false : K vfs bool)
                       else ends_in_slash path);
              if (slash : bool) then
                vput dirnode;;
                vput fn;;
                kret (- ENOTDIR, None)
              else
                vput dirnode;;
                kret (0, Some fn)
          end
        else if negb (res =? 0) then
          vunlock dirnode;;
          vput dirnode;;
          kret (res, None)
        else
          vunlock dirnode;;
          fn ← ptr filenode;
          f ← deref fn;
          slash ← (if S_ISDIR (vn_mode f) then (kret false : K vfs bool)
                   else ends_in_slash path);
          if (slash : bool) then
            vput dirnode;;
            vput fn;;
            kret (- ENOTDIR, None)
          else
            vput dirnode;;
            kret (0, Some fn).

(** *** [do_read] *)

Definition file_deref (fp : Z) : K vfs file :=
  st ← kget;
  match vfs_files st !! fp with
  | Some fl => kret fl
  | None => fault
  end.

Definition file_set_pos (pos : Z) (fl : file) : file :=
  mk_file (f_vnode fl) (f_mode fl) pos (f_refcount fl).
Definition file_add_ref (d : Z) (fl : file) : file :=
  mk_file (f_vnode fl) (f_mode fl) (f_pos fl) (f_refcount fl + d).

(** Modelled from the spec: [kernel/fs/file.c] is not among the sources.
    Section 4.3.3: [fget] returns the file of an open descriptor with a
    reference added, and [NULL] for a descriptor that is out of range or
    not open. *)
Definition fget (fd : Z) : K vfs (option Z) :=
  if (fd <? 0) || (NFILES <=? fd) then kret None
  else
    st ← kget;
    match p_files st !! Z.to_nat fd with
    | Some (Some fp) =>
        fl ← file_deref fp;
        kmodify (set_file fp (file_add_ref 1 fl));;
        kret (Some fp)
    | _ => kret None
    end.

(** Modelled from the spec: [kernel/fs/file.c] is not among the sources.
    Section 4.3.3: [fput] releases one reference; the release of the file
    on its last reference is not modelled. *)
Definition fput (fp : Z) : K vfs unit :=
  fl ← file_deref fp;
  kmodify (set_file fp (file_add_ref (-1) fl)).

Definition do_read (fd : Z) (buf : list Z) (len : Z) : K vfs (Z * list Z) :=
  file ← fget fd;
  match file with
  | None => kret (- EBADF, buf)
  | Some fp =>
      fl ← file_deref fp;
      if negb (Z.land (f_mode fl) FMODE_READ =? 0) then
        vn ← deref (f_vnode fl);
        if S_ISDIR (vn_mode vn) then
          fput fp;;
          kret (- EISDIR, buf)
        else
          vlock (f_vnode fl);;
          ops ← ptr (vn_ops vn);
          rd ← ptr (read ops);
          let '(r, buf') := rd (f_pos fl) len in
          (* int ret = ...->read(...) *)
          let ret := s32 r in
          if negb (ret =? 0) then
            vunlock (f_vnode fl);;
            fput fp;;
            kret (ret, buf')
          else
            fl' ← file_deref fp;
            kmodify (set_file fp (file_set_pos (u64 (f_pos fl' + ret)) fl'));;
            vunlock (f_vnode fl);;
            fput fp;;
            kret (ret, buf')
      else
        fput fp;;
        kret (- EBADF, buf)
  end.

End namev.

(** *** Paths as lists of components

    The components of a path are its maximal runs of characters other than
    [/]; the basename is the last one. *)
Definition starts_with_slash (s : string) : bool :=
  match s with
  | String c _ => Ascii.eqb c "/"%char
  | EmptyString => false
  end.

Fixpoint components (s : string) : list string :=
  match s with
  | EmptyString => []
  | String c s' =>
      if Ascii.eqb c "/"%char then components s'
      else if starts_with_slash s' then String c EmptyString :: components s'
      else match components s' with
           | [] => [String c EmptyString]
           | t :: ts => String c t :: ts
           end
  end.

Definition basename (s : string) : string := List.last (components s) EmptyString.

(** The components still to be read from the tokenizer's [search]. *)
Definition rest (search : option string) : list string :=
  match search with
  | None => []
  | Some r => components r
  end.

(** One step of name resolution as the file system answers it: [dir] is a
    directory with a lookup operation that finds [name]. *)
Definition lookup_step (st : vfs) (dir : Z) (name : string) : option Z :=
  match vfs_vnodes st !! dir with
  | Some d =>
      match vn_ops d with
      | Some ops =>
          if S_ISDIR (vn_mode d) then
            match lookup ops with
            | Some f => match f name with inr v => Some v | inl _ => None end
            | None => None
            end
          else None
      | None => None
      end
  | None => None
  end.

Fixpoint walk (st : vfs) (dir : Z) (names : list string) : option Z :=
  match names with
  | [] => Some dir
  | n :: ns =>
      match lookup_step st dir n with
      | Some v => walk st v ns
      | None => None
      end
  end.

(** Where resolution starts: the root for an absolute path, [base]
    otherwise. *)
Definition start_node (st : vfs) (base : Z) (p : string) : Z :=
  if starts_with_slash p then vfs_root st else base.

(** *** A small tree for the examples

    Vnode 0 is the root directory with one entry, [tmp] (vnode 1, an empty
    directory); vnode 2 is a regular file whose read operation returns the
    five bytes of [hello] at position 0.  Descriptor 0 is open on it for
    reading. *)
Definition ex_dir_ops (entries : string → Z + Z) : vnode_ops :=
  mk_ops (Some entries) (Some (λ _ _ _, inl (- ENOSPC))) None.

Definition ex_root_lookup (name : string) : Z + Z :=
  if bool_decide (name = "tmp") then inr 1
  else if bool_decide (name = ".") then inr 0
  else if bool_decide (name = "..") then inr 0
  else inl (- ENOENT).

Definition ex_tmp_lookup (name : string) : Z + Z :=
  if bool_decide (name = ".") then inr 1
  else if bool_decide (name = "..") then inr 0
  else inl (- ENOENT).

Definition ex_hello_read (pos len : Z) : Z * list Z :=
  if (pos =? 0) && (5 <=? len) then (5, [104; 101; 108; 108; 111])
  else (0, []).

Definition ex_vfs : vfs :=
  mk_vfs 0
    {[ 0 := mk_vnode S_IFDIR 0 (Some (ex_dir_ops ex_root_lookup));
       1 := mk_vnode S_IFDIR 0 (Some (ex_dir_ops ex_tmp_lookup));
       2 := mk_vnode S_IFREG 5 (Some (mk_ops None None (Some ex_hello_read))) ]}
    {[ 0 := 2; 1 := 1; 2 := 1 ]}
    ∅
    {[ 10 := mk_file 2 1 0 1 ]}
    [Some 10].

Definition ex_long_name : string := "aaaaaaaaaaaaaaaaaaaaaaaaaaaaa".

End Vfs.

(** ** The address-space map: [vmmap_find_range] *)

Module Vmmap.

(** Constants of [mm/mm.h], [mm/page.h] and [vm/vmmap.h], which are not
    among the sources.  [PAGE_SIZE] is [1 << PAGE_SHIFT]. *)
Class VmHeader := {
  USER_MEM_LOW : Z;
  USER_MEM_HIGH : Z;
  PAGE_SHIFT : Z;
  VMMAP_DIR_LOHI : Z;
  VMMAP_DIR_HILO : Z;
  PAGE_SHIFT_nonneg : 0 ≤ PAGE_SHIFT;
  USER_MEM_range : 0 ≤ USER_MEM_LOW ≤ USER_MEM_HIGH ∧ USER_MEM_HIGH < 2 ^ 63
}.

Definition weenix_page_shift_nonneg : 0 ≤ 12.
Proof. lia. Qed.

Definition weenix_user_mem_range :
  0 ≤ 0x00400000 ≤ 0xc0000000 ∧ 0xc0000000 < 2 ^ 63.
Proof. lia. Qed.

#[global] Instance weenix_vm : VmHeader := {|
  USER_MEM_LOW := 0x00400000;
  USER_MEM_HIGH := 0xc0000000;
  PAGE_SHIFT := 12;
  VMMAP_DIR_LOHI := 1;
  VMMAP_DIR_HILO := 2;
  PAGE_SHIFT_nonneg := weenix_page_shift_nonneg;
  USER_MEM_range := weenix_user_mem_range
|}.

(** A VM area: the page range [vma_start, vma_end), the offset into its
    memory object, protection and flags. *)
Record vmarea := mk_vmarea {
  vma_start : Z;
  vma_end : Z;
  vma_off : Z;
  vma_prot : Z;
  vma_flags : Z
}.

Section vmmap.
Context {M : VmHeader}.

Definition PAGE_SIZE : Z := Z.shiftl 1 PAGE_SHIFT.
Definition ADDR_TO_PN (x : Z) : Z := Z.shiftr x PAGE_SHIFT.

(** The body of [list_iterate_reverse] in the [VMMAP_DIR_HILO] branch, over
    the areas from the highest down. *)
Fixpoint hilo_scan (areas : list vmarea) (vfn : Z) : Z :=
  match areas with
  | [] => vfn
  | vma :: rest =>
      if vfn <? vma_start vma then vfn
      else hilo_scan rest (u64 (vma_end vma + 1))
  end.

(** The body of [list_iterate] in the [VMMAP_DIR_LOHI] branch, over the
    areas from the lowest up. *)
Fixpoint lohi_scan (npages : Z) (areas : list vmarea) (vfn : Z) : Z :=
  match areas with
  | [] => vfn
  | vma :: rest =>
      if npages <=? u64 (vma_start vma - vfn) then vfn
      else lohi_scan npages rest (vma_end vma)
  end.

(** [vmm_list] is the list of areas in ascending order; the map itself is
    only read.  The result is the [ssize_t] returned. *)
Definition vmmap_find_range (vmm_list : list vmarea) (npages : Z) (dir : Z)
  : Z :=
  if (USER_MEM_HIGH - USER_MEM_LOW) / PAGE_SIZE <? npages then -1
  else if dir =? VMMAP_DIR_HILO then
    s64 (hilo_scan (rev vmm_list) (u64 (ADDR_TO_PN USER_MEM_HIGH - npages)))
  else if dir =? VMMAP_DIR_LOHI then
    s64 (lohi_scan npages vmm_list (ADDR_TO_PN USER_MEM_LOW))
  else -1.

End vmmap.

(** Page [vfn] lies in the area. *)
Definition in_area (vfn : Z) (vma : vmarea) : Prop :=
  vma_start vma ≤ vfn < vma_end vma.

(** Page [vfn] is mapped by some area of the map. *)
Definition mapped (vmm_list : list vmarea) (vfn : Z) : Prop :=
  ∃ vma, vma ∈ vmm_list ∧ in_area vfn vma.

(** The areas are non-empty, sorted and pairwise disjoint. *)
Fixpoint sorted_areas (vmm_list : list vmarea) : Prop :=
  match vmm_list with
  | [] => True
  | a :: rest =>
      vma_start a < vma_end a
      ∧ match rest with
        | [] => True
        | b :: _ => vma_end a ≤ vma_start b
        end
      ∧ sorted_areas rest
  end.

(** What the claim asks of the result [r] of a [VMMAP_DIR_HILO] request for
    [npages] pages between the page numbers [lo] and [hi]: a gap of
    unmapped user pages. *)
Definition free_gap (vmm_list : list vmarea) (lo hi r npages : Z) : Prop :=
  lo ≤ r ∧ r + npages ≤ hi
  ∧ ∀ vfn, r ≤ vfn < r + npages → ¬ mapped vmm_list vfn.

(** The top page of user memory mapped, and nothing else. *)
Definition ex_top_page : list vmarea :=
  [mk_vmarea 786431 786432 0 3 2].

(** All of user memory mapped by one area. *)
Definition ex_all_mapped : list vmarea :=
  [mk_vmarea 1024 786432 0 3 2].

End Vmmap.

(** ** The address-space map: [vmmap_insert], [vmmap_lookup] *)

Module VmmapOps.
Import Vmmap.

Section ops.
Context {M : VmHeader}.

(** [vmmap_insert]: the new area goes before the first area that starts
    above it, at the tail when there is none.  The result is the list of the
    map after the call. *)
Fixpoint vmmap_insert (vmm_list : list vmarea) (new_vma : vmarea)
  : list vmarea :=
  match vmm_list with
  | [] => [new_vma]
  | vma :: rest =>
      if vma_start new_vma <? vma_start vma then new_vma :: vma :: rest
      else vma :: vmmap_insert rest new_vma
  end.

(** The body of [list_iterate] in [vmmap_lookup]. *)
Fixpoint lookup_scan (vmm_list : list vmarea) (vfn : Z) : option vmarea :=
  match vmm_list with
  | [] => None
  | vma :: rest =>
      if (vma_start vma <=? vfn) && (vfn <=? vma_end vma) then Some vma
      else lookup_scan rest vfn
  end.

(** [vmmap_lookup]; [None] is [NULL]. *)
Definition vmmap_lookup (vmm_list : list vmarea) (vfn : Z) : option vmarea :=
  if (vfn <? ADDR_TO_PN USER_MEM_LOW) || (ADDR_TO_PN USER_MEM_HIGH <? vfn)
  then None
  else lookup_scan vmm_list vfn.

End ops.

(** What the lowest directed scan starts from: a page number at or below the
    first area. *)
Definition below_first (vfn : Z) (vmm_list : list vmarea) : Prop :=
  match vmm_list with
  | [] => True
  | a :: _ => vfn ≤ vma_start a
  end.

(** Three areas with a gap of two pages between the first two. *)
Definition ex_three_areas : list vmarea :=
  [mk_vmarea 1024 1030 0 3 2; mk_vmarea 1032 1040 0 3 2;
   mk_vmarea 1040 1050 0 3 2].

End VmmapOps.

(** ** The line discipline of a terminal: [ldisc_read],
       [ldisc_get_current_line_raw] *)

Module Ldisc.

(** Constants of [drivers/tty/ldisc.h] and [drivers/keyboard.h], which are
    not among the sources. *)
Class LdiscHeader := {
  LDISC_BUFFER_SIZE : Z;
  EOT : Z;
  LDISC_BUFFER_SIZE_pos : 0 < LDISC_BUFFER_SIZE
}.

Definition weenix_ldisc_size_pos : 0 < 128.
Proof. lia. Qed.

#[global] Instance weenix_ldisc : LdiscHeader := {|
  LDISC_BUFFER_SIZE := 128;
  EOT := 4;
  LDISC_BUFFER_SIZE_pos := weenix_ldisc_size_pos
|}.

(** The circular buffer and its three indices; the queue of sleeping
    readers is not modelled. *)
Record ldisc := mk_ldisc {
  ldisc_cooked : Z;
  ldisc_tail : Z;
  ldisc_head : Z;
  ldisc_full : Z;
  ldisc_buffer : list Z
}.

Definition set_cooked (c : Z) (l : ldisc) : ldisc :=
  mk_ldisc c (ldisc_tail l) (ldisc_head l) (ldisc_full l) (ldisc_buffer l).
Definition set_tail (t : Z) (l : ldisc) : ldisc :=
  mk_ldisc (ldisc_cooked l) t (ldisc_head l) (ldisc_full l) (ldisc_buffer l).

Section ldisc.
Context {L : LdiscHeader}.

(** [ldisc->ldisc_buffer[i]] *)
Definition buffer_at (i : Z) : K ldisc Z :=
  l ← kget;
  if i <? 0 then fault
  else match ldisc_buffer l !! Z.to_nat i with
       | Some c => kret c
       | None => fault
       end.

(** [buf[i] = c] in the caller's array. *)
Definition store {S} (buf : list Z) (i : nat) (c : Z) : K S (list Z) :=
  if bool_decide (i < length buf)%nat then kret (<[i := c]> buf) else fault.

(** The loop of [ldisc_read] with [left] = [count - i]: every turn that
    does not leave the loop adds one to [i]. *)
Fixpoint ldisc_read_loop (left : nat) (buf : list Z) (i : nat)
  : K ldisc (nat * list Z) :=
  match left with
  | O => kret (i, buf)
  | S left' =>
      l ← kget;
      if ldisc_cooked l =? ldisc_tail l then kret (i, buf)
      else
        c ← buffer_at (ldisc_cooked l);
        if c =? 10 then kret (i, buf)
        else if c =? EOT then kret (i, buf)
        else
          buf' ← store buf i c;
          kmodify (set_cooked ((ldisc_cooked l + 1) mod LDISC_BUFFER_SIZE));;
          ldisc_read_loop left' buf' (S i)
  end.

(** [ldisc_read]: the number of bytes read and the caller's buffer. *)
Definition ldisc_read (buf : list Z) (count : Z) : K ldisc (Z * list Z) :=
  '(i, buf') ← ldisc_read_loop (Z.to_nat count) buf 0;
  kret (Z.of_nat i, buf').

(** The loop of [ldisc_get_current_line_raw]. *)
Fixpoint raw_loop (fuel : nat) (s : list Z) (i : nat)
  : K ldisc (nat * list Z) :=
  l ← kget;
  if ldisc_tail l =? ldisc_head l then kret (i, s)
  else
    match fuel with
    | O => λ _, OutOfFuel
    | S fuel' =>
        c ← buffer_at (ldisc_tail l);
        s' ← store s i c;
        kmodify (set_tail ((ldisc_tail l + 1) mod LDISC_BUFFER_SIZE));;
        raw_loop fuel' s' (S i)
    end.

(** [ldisc_get_current_line_raw]: after the loop the function reports
    [NOT_YET_IMPLEMENTED] and returns 0.  The loop ends within
    [LDISC_BUFFER_SIZE] turns when the indices lie in the buffer. *)
Definition ldisc_get_current_line_raw (s : list Z) : K ldisc (Z * list Z) :=
  '(_, s') ← raw_loop (Z.to_nat LDISC_BUFFER_SIZE) s 0;
  kret (0, s').

End ldisc.

(** The [n] characters of the buffer from index [from] on, around the
    end. *)
Fixpoint ring {L : LdiscHeader} (l : ldisc) (from : Z) (n : nat) : list Z :=
  match n with
  | O => []
  | S n' =>
      default 0 (ldisc_buffer l !! Z.to_nat from)
      :: ring l ((from + 1) mod LDISC_BUFFER_SIZE) n'
  end.

(** The indices lie in the buffer. *)
Definition ldisc_wf {L : LdiscHeader} (l : ldisc) : Prop :=
  length (ldisc_buffer l) = Z.to_nat LDISC_BUFFER_SIZE
  ∧ 0 ≤ ldisc_cooked l < LDISC_BUFFER_SIZE
  ∧ 0 ≤ ldisc_tail l < LDISC_BUFFER_SIZE
  ∧ 0 ≤ ldisc_head l < LDISC_BUFFER_SIZE.

(** Where [ldisc_read] stops before [count]: at the tail, or on a newline
    or [EOT], which it does not step over. *)
Definition read_stop {L : LdiscHeader} (l : ldisc) : Prop :=
  ldisc_cooked l = ldisc_tail l
  ∨ ldisc_buffer l !! Z.to_nat (ldisc_cooked l) = Some 10
  ∨ ldisc_buffer l !! Z.to_nat (ldisc_cooked l) = Some EOT.

(** The line [hi] and a newline typed into an empty buffer, with the cooked
    index at the start of the line and the tail behind it. *)
Definition ex_ldisc : ldisc :=
  mk_ldisc 0 3 3 0 ([104; 105; 10] ++ replicate 125 0).

(** The same characters as the raw part: the tail at the start, the head
    behind them. *)
Definition ex_ldisc_raw : ldisc :=
  mk_ldisc 0 0 3 0 ([104; 105; 10] ++ replicate 125 0).

End Ldisc.

(** ** The system calls on descriptors and directories
       ([kernel/fs/vfs_syscall.c]) *)

Module Syscall.
Import Vfs.

(** Constants of [fs/file.h], [fs/lseek.h], [fs/fcntl.h] and
    [fs/dirent.h], which are not among the sources; [DIRENT_SIZE] is
    [sizeof(dirent_t)]. *)
Class SysHeader := {
  FMODE_WRITE : Z;
  FMODE_APPEND : Z;
  SEEK_SET : Z;
  SEEK_CUR : Z;
  SEEK_END : Z;
  O_RDONLY : Z;
  DIRENT_SIZE : Z
}.

#[global] Instance weenix_sys : SysHeader := {|
  FMODE_WRITE := 2;
  FMODE_APPEND := 4;
  SEEK_SET := 0;
  SEEK_CUR := 1;
  SEEK_END := 2;
  O_RDONLY := 0;
  DIRENT_SIZE := 48
|}.

(** Modelled from the spec: [errno.h] is not among the sources; the code is
    that of section 7. *)
Definition EMFILE : Z := 24.

Definition set_p_files (f : list (option Z) → list (option Z)) (st : vfs)
  : vfs :=
  mk_vfs (vfs_root st) (vfs_vnodes st) (vfs_refcount st) (vfs_locked st)
         (vfs_files st) (f (p_files st)).

(** The reference count of a file. *)
Definition frefs (st : vfs) (fp : Z) : Z :=
  match vfs_files st !! fp with
  | Some fl => f_refcount fl
  | None => 0
  end.

(** Descriptor [fd] is open on file [f]. *)
Definition slot_holds (st : vfs) (fd f : Z) : bool :=
  bool_decide (p_files st !! Z.to_nat fd = Some (Some f)).

(** The lowest index of a table slot that is [NULL]. *)
Fixpoint first_free (table : list (option Z)) (i : nat) : option nat :=
  match table with
  | [] => None
  | None :: _ => Some i
  | Some _ :: t => first_free t (S i)
  end.

(** The tokens that repeated calls of [namev_tokenize] return, up to the
    first of length 0. *)
Fixpoint tokens (fuel : nat) (search : option string) : list string :=
  match fuel with
  | O => []
  | S fuel' =>
      let '(b, n, search') := namev_tokenize search in
      if n =? 0 then []
      else match b with
           | Some s => String.substring 0 (Z.to_nat n) s :: tokens fuel' search'
           | None => []
           end
  end.

(** The climb from [v] through the parents [l], none of the vnodes left
    behind being [b] or the root. *)
Fixpoint climbs (st : vfs) (b : Z) (v : Z) (l : list Z) : Prop :=
  match l with
  | [] => True
  | p :: l' =>
      v ≠ b ∧ v ≠ vfs_root st ∧ lookup_step st v ".." = Some p
      ∧ climbs st b p l'
  end.

(** The error with which [namev_lookup] of [name] in [dir] fails, as the
    file system answers it. *)
Definition lookup_fail (st : vfs) (dir : Z) (name : string) : option Z :=
  match vfs_vnodes st !! dir with
  | Some d =>
      match vn_ops d with
      | Some ops =>
          if S_ISDIR (vn_mode d) then
            match lookup ops with
            | Some f => match f name with inl e => Some e | inr _ => None end
            | None => None
            end
          else Some (- ENOTDIR)
      | None => Some (- ENOTDIR)
      end
  | None => None
  end.

Section syscalls.
Context {V : VfsHeader} {Y : SysHeader}.

(** The operations of a vnode that [vnode_ops] above does not list, by
    vnode and already applied to it; [None] is a [NULL] function pointer.
    [vn_write v pos buf len], [vn_rmdir v name] and [vn_unlink v name]
    return the operation's result, [vn_readdir v pos] the result and the entry stored through
    [dirp], [vn_mkdir v name] an error code ([inl]) or the directory made,
    with a reference added ([inr]).  [p_cwd] is [curproc->p_cwd]. *)
Variable vn_write : Z → option (Z → list Z → Z → Z).
Variable vn_readdir : Z → option (Z → Z * (Z * string)).
Variable vn_mkdir : Z → option (string → Z + Z).
Variable vn_rmdir : Z → option (string → Z).
Variable vn_unlink : Z → option (string → Z).
Variable p_cwd : Z.

(** [namev_resolve] *)
Definition namev_resolve (base : Z) (path : option string)
  : K vfs (Z * option Z) :=
  namev_open base path O_RDONLY 0 0.

(** [namev_get_parent]: the result is the return value and what is stored
    through [out], if anything. *)
Definition namev_get_parent (dir : Z) : K vfs (Z * option Z) :=
  vlock dir;;
  r ← namev_lookup dir (Some "..") 2;
  vunlock dir;;
  kret r.

(** [namev_is_descendant].  A vnode's number [vn_vno] identifies it in the
    vnode table, which holds the vnodes of one file system with root
    [vfs_root].  The value of [namev_get_parent] is not looked at: when the
    lookup fails [next] keeps the value it had.  The loop ends when the
    climb reaches [b] or the root; its model takes fuel. *)
Fixpoint namev_is_descendant_loop (fuel : nat) (cur next : option Z) (b : Z)
  : K vfs Z :=
  match cur with
  | None => kret 0
  | Some c =>
      _ ← deref c;
      _ ← deref b;
      root ← kgets vfs_root;
      if c =? b then
        vput c;;
        kret 1
      else if c =? root then
        vput c;;
        kret 0
      else
        match fuel with
        | O => λ _, OutOfFuel
        | S fuel' =>
            '(_, out) ← namev_get_parent c;
            let next' := match out with Some v => Some v | None => next end in
            vput c;;
            namev_is_descendant_loop fuel' next' next' b
        end
  end.

Definition namev_is_descendant (fuel : nat) (a b : Z) : K vfs Z :=
  vref a;;
  namev_is_descendant_loop fuel (Some a) None b.

(** [do_mknod] *)
Definition do_mknod (path : option string) (mode devid : Z) : K vfs Z :=
  if negb (mode =? S_IFCHR) && negb (mode =? S_IFBLK)
     && negb (mode =? S_IFREG)
  then kret (- EINVAL)
  else
    '(r, res_vnode) ← namev_open p_cwd path O_CREAT mode devid;
    (* int ret = namev_open(...) *)
    let ret := s32 r in
    if negb (ret =? 0) then kret ret
    else
      rv ← ptr res_vnode;
      vput rv;;
      kret 0.

(** [do_unlink] *)
Definition do_unlink (path : option string) : K vfs Z :=
  '(ret, out) ← namev_dir p_cwd path;
  if negb (ret =? 0) then kret ret
  else
    '(parent_vnode, name, namelen) ← ptr out;
    pv ← deref parent_vnode;
    if negb (S_ISDIR (vn_mode pv)) then
      vput parent_vnode;;
      kret (- ENOTDIR)
    else if NAME_LEN <=? namelen then
      vput parent_vnode;;
      kret (- ENAMETOOLONG)
    else
      vlock parent_vnode;;
      '(res, res_vnode) ← namev_lookup parent_vnode name namelen;
      if negb (res =? 0) then
        vput_locked parent_vnode;;
        kret res
      else
        rv ← ptr res_vnode;
        r ← deref rv;
        if S_ISDIR (vn_mode r) then
          vput_locked parent_vnode;;
          vput rv;;
          kret (- EPERM)
        else
          vput rv;;
          ops ← ptr (vn_ops pv);
          ul ← ptr (vn_unlink parent_vnode);
          nm ← ptr name;
          let res := ul (String.substring 0 (Z.to_nat namelen) nm) in
          vput_locked parent_vnode;;
          kret res.

(** [do_write] *)
Definition do_write (fd : Z) (buf : list Z) (len : Z) : K vfs Z :=
  file ← fget fd;
  match file with
  | None => kret (- EBADF)
  | Some fp =>
      fl ← file_deref fp;
      if negb (Z.land (f_mode fl) FMODE_WRITE =? 0) then
        vlock (f_vnode fl);;
        vn ← deref (f_vnode fl);
        (if negb (Z.land (f_mode fl) FMODE_APPEND =? 0) then
           kmodify (set_file fp (file_set_pos (vn_len vn) fl))
         else kret tt);;
        fl1 ← file_deref fp;
        ops ← ptr (vn_ops vn);
        wr ← ptr (vn_write (f_vnode fl));
        (* int ret = ...->write(...) *)
        let ret := s32 (wr (f_pos fl1) buf len) in
        if negb (ret =? 0) then
          vunlock (f_vnode fl);;
          fput fp;;
          kret ret
        else
          kmodify (set_file fp (file_set_pos (u64 (f_pos fl1 + ret)) fl1));;
          vunlock (f_vnode fl);;
          fput fp;;
          kret ret
      else
        fput fp;;
        kret (- EBADF)
  end.

(** [do_close]; a slot beyond the table of the model is [NULL]. *)
Definition do_close (fd : Z) : K vfs Z :=
  if (fd <? 0) || (NFILES <=? fd) then kret (- EBADF)
  else
    st ← kget;
    match p_files st !! Z.to_nat fd with
    | Some (Some fp) =>
        fput fp;;
        kmodify (set_p_files <[Z.to_nat fd := None]>);;
        kret 0
    | _ => kret (- EBADF)
    end.

(** Modelled from the spec: [kernel/fs/file.c] is not among the sources.
    Section 4.3.3: [get_empty_fd] returns the lowest free index or
    [EMFILE]; the result is the return value and what is stored through
    [fd]. *)
Definition get_empty_fd : K vfs (Z * Z) :=
  st ← kget;
  match first_free (take (Z.to_nat NFILES) (p_files st)) 0 with
  | Some i => kret (0, Z.of_nat i)
  | None => kret (- EMFILE, -1)
  end.

(** Modelled from the spec: [kernel/fs/file.c] is not among the sources.
    Section 4.3.3: a file handle is reference counted; [fref] adds a
    reference. *)
Definition fref (fp : Z) : K vfs unit :=
  fl ← file_deref fp;
  kmodify (set_file fp (file_add_ref 1 fl)).

(** [do_dup] *)
Definition do_dup (fd : Z) : K vfs Z :=
  if (fd <? 0) || (NFILES <=? fd) then kret (- EBADF)
  else
    st ← kget;
    match p_files st !! Z.to_nat fd with
    | Some (Some _) =>
        file ← fget fd;
        '(ret_fd, new_fd) ← get_empty_fd;
        if negb (ret_fd =? 0) then kret ret_fd
        else
          kmodify (set_p_files <[Z.to_nat new_fd := file]>);;
          kret new_fd
    | _ => kret (- EBADF)
    end.

(** [do_dup2] *)
Definition do_dup2 (ofd nfd : Z) : K vfs Z :=
  if (ofd <? 0) || (NFILES <=? ofd) || (nfd <? 0) || (NFILES <=? nfd)
  then kret (- EBADF)
  else
    st ← kget;
    match p_files st !! Z.to_nat ofd with
    | Some (Some fp) =>
        if ofd =? nfd then kret nfd
        else
          ret ← (match p_files st !! Z.to_nat nfd with
                 | Some (Some _) => do_close nfd
                 | _ => kret 0
                 end);
          if negb (ret =? 0) then kret ret
          else
            kmodify (set_p_files <[Z.to_nat nfd := Some fp]>);;
            fref fp;;
            kret nfd
    | _ => kret (- EBADF)
    end.

(** [do_mkdir] *)
Definition do_mkdir (path : option string) : K vfs Z :=
  '(ret, out) ← namev_dir p_cwd path;
  if negb (ret =? 0) then kret ret
  else
    '(parent_vnode, name, namelen) ← ptr out;
    pv ← deref parent_vnode;
    if negb (S_ISDIR (vn_mode pv)) then
      vput parent_vnode;;
      kret (- ENOTDIR)
    else if NAME_LEN <=? namelen then
      vput parent_vnode;;
      kret (- ENAMETOOLONG)
    else
      vlock parent_vnode;;
      '(res, res_vnode) ← namev_lookup parent_vnode name namelen;
      if res =? 0 then
        vput_locked parent_vnode;;
        rv ← ptr res_vnode;
        vput rv;;
        kret (- EEXIST)
      else if res =? - ENOENT then
        ops ← ptr (vn_ops pv);
        mk ← ptr (vn_mkdir parent_vnode);
        nm ← ptr name;
        match mk (String.substring 0 (Z.to_nat namelen) nm) with
        | inl e =>
            if e <? 0 then
              vput_locked parent_vnode;;
              kret e
            else
              rv ← ptr res_vnode;
              vput rv;;
              vput_locked parent_vnode;;
              kret e
        | inr v =>
            vref v;;
            vput v;;
            vput_locked parent_vnode;;
            kret 0
        end
      else
        vput_locked parent_vnode;;
        kret res.

(** [do_rmdir]: [strcmp] compares [name], the rest of the path from the
    start of its last component, with [.] and [..]. *)
Definition do_rmdir (path : option string) : K vfs Z :=
  '(ret, out) ← namev_dir p_cwd path;
  if negb (ret =? 0) then kret ret
  else
    '(parent_vnode, name, namelen) ← ptr out;
    nm ← ptr name;
    if bool_decide (nm = ".") then
      vput parent_vnode;;
      kret (- EINVAL)
    else if bool_decide (nm = "..") then
      vput parent_vnode;;
      kret (- ENOTEMPTY)
    else
      pv ← deref parent_vnode;
      if negb (S_ISDIR (vn_mode pv)) then
        vput parent_vnode;;
        kret (- ENOTDIR)
      else if NAME_LEN <? namelen then
        vput parent_vnode;;
        kret (- ENAMETOOLONG)
      else
        vlock parent_vnode;;
        ops ← ptr (vn_ops pv);
        rm ← ptr (vn_rmdir parent_vnode);
        let ret := rm (String.substring 0 (Z.to_nat namelen) nm) in
        vunlock parent_vnode;;
        vput parent_vnode;;
        kret ret.

(** [do_chdir]: the result is the return value and [curproc->p_cwd] after
    the call. *)
Definition do_chdir (path : option string) : K vfs (Z * Z) :=
  '(ret, res_vnode) ← namev_resolve p_cwd path;
  if negb (ret =? 0) then kret (ret, p_cwd)
  else
    rv ← ptr res_vnode;
    v ← deref rv;
    if negb (S_ISDIR (vn_mode v)) then
      vput rv;;
      kret (- ENOTDIR, p_cwd)
    else
      vput p_cwd;;
      kret (0, rv).

(** [do_getdent]: the result is the return value and the entry stored
    through [dirp], if any. *)
Definition do_getdent (fd : Z) : K vfs (Z * option (Z * string)) :=
  file ← fget fd;
  match file with
  | None => kret (- EBADF, None)
  | Some fp =>
      fl ← file_deref fp;
      vn ← deref (f_vnode fl);
      if negb (S_ISDIR (vn_mode vn)) then
        fput fp;;
        kret (- ENOTDIR, None)
      else
        vlock (f_vnode fl);;
        ops ← ptr (vn_ops vn);
        rd ← ptr (vn_readdir (f_vnode fl));
        let '(r, dirent) := rd (f_pos fl) in
        (* int ret = ...->readdir(...) *)
        let ret := s32 r in
        if ret <=? 0 then
          vunlock (f_vnode fl);;
          fput fp;;
          kret (ret, Some dirent)
        else
          kmodify (set_file fp (file_set_pos (u64 (f_pos fl + ret)) fl));;
          vunlock (f_vnode fl);;
          fput fp;;
          kret (DIRENT_SIZE, Some dirent)
  end.

(** [do_lseek]: [pos] is an [int]; the value returned on success is read
    through [file] after the [fput]. *)
Definition do_lseek (fd offset whence : Z) : K vfs Z :=
  file ← fget fd;
  match file with
  | None => kret (- EBADF)
  | Some fp =>
      if negb (whence =? SEEK_SET) && negb (whence =? SEEK_CUR)
         && negb (whence =? SEEK_END) then
        fput fp;;
        kret (- EINVAL)
      else
        fl ← file_deref fp;
        pos ← (if whence =? SEEK_SET then kret (s32 offset)
               else if whence =? SEEK_CUR then kret (s32 (f_pos fl + offset))
               else
                 vlock (f_vnode fl);;
                 vn ← deref (f_vnode fl);
                 vunlock (f_vnode fl);;
                 kret (s32 (vn_len vn + offset)));
        if pos <? 0 then
          fput fp;;
          kret (- EINVAL)
        else
          kmodify (set_file fp (file_set_pos pos fl));;
          fput fp;;
          fl' ← file_deref fp;
          kret (f_pos fl')
  end.

End syscalls.

(** *** Examples: a directory that can be written to and listed *)
Definition ex_vn_write (v : Z) : option (Z → list Z → Z → Z) :=
  if v =? 2 then Some (λ pos buf len, len) else None.

Definition ex_vn_readdir (v : Z) : option (Z → Z * (Z * string)) :=
  if v =? 0 then Some (λ pos, if pos =? 0 then (32, (1, "tmp"))
                              else (0, (0, EmptyString)))
  else None.

Definition ex_vn_mkdir (v : Z) : option (string → Z + Z) :=
  Some (λ _, inl (- ENOSPC)).

Definition ex_vn_rmdir (v : Z) : option (string → Z) :=
  Some (λ name, if bool_decide (name = ".") then - ENOTDIR else -1).

Definition ex_vn_unlink (v : Z) : option (string → Z) :=
  Some (λ name, 0).

(** Descriptor 0 is open on the file [hello] for reading, descriptor 1 on
    the same vnode for appending, descriptor 3 on the root directory. *)
Definition ex_sys : vfs :=
  mk_vfs 0
    {[ 0 := mk_vnode S_IFDIR 0 (Some (ex_dir_ops ex_root_lookup));
       1 := mk_vnode S_IFDIR 0 (Some (ex_dir_ops ex_tmp_lookup));
       2 := mk_vnode S_IFREG 5 (Some (mk_ops None None (Some ex_hello_read))) ]}
    {[ 0 := 3; 1 := 1; 2 := 2 ]}
    ∅
    {[ 10 := mk_file 2 1 0 1; 11 := mk_file 2 6 0 1; 12 := mk_file 0 1 0 1 ]}
    ([Some 10; Some 11; None; Some 12] ++ replicate 28 None).

(** The same tree with the file linked in the root directory as
    [hello]. *)
Definition ex_linked_lookup (name : string) : Z + Z :=
  if bool_decide (name = "hello") then inr 2 else ex_root_lookup name.

Definition ex_sys_linked : vfs :=
  mk_vfs 0
    {[ 0 := mk_vnode S_IFDIR 0 (Some (ex_dir_ops ex_linked_lookup));
       1 := mk_vnode S_IFDIR 0 (Some (ex_dir_ops ex_tmp_lookup));
       2 := mk_vnode S_IFREG 5 (Some (mk_ops None None (Some ex_hello_read))) ]}
    {[ 0 := 3; 1 := 1; 2 := 2 ]}
    ∅
    (vfs_files ex_sys)
    (p_files ex_sys).

End Syscall.

(* ===================================================================== *)
(** * Part II: theorems                                                   *)
(* ===================================================================== *)

(** ** Stepping through monadic code *)

(** Closed comparisons of integers, by computation. *)
Ltac zdecide :=
  repeat split; vm_compute;
  first [reflexivity | discriminate | intros ?; discriminate].

Ltac kunfold :=
  unfold mbind, K_bind, mret, K_ret, kbind, kret, kget, kgets, kmodify,
    KASSERT, panic, fault in *.

Section s5fs_subr_facts.
Context {H : S5Header}.

Lemma u32_small z : 0 ≤ z < 2 ^ 32 → u32 z = z.
Proof. intros. unfold u32. by apply Z.mod_small. Qed.

(** C6. [s5_free_block] on a block number other than 0, with the superblock
    unlocked and a count below the array size: when the inline array is not
    full (count below its last slot) the block number is stored in slot
    [s5s_nfree] and the count grows by one, nothing else in the array or on
    the disk changes; when it is full (the count is at the last slot, which
    is the link to the next node) the whole array is copied to the start of
    the freed block, the count restarts at 0 and the link slot holds the
    freed block, the array's only live entry. *)
Theorem s5_free_block_push_or_flush (fs : s5fs) (blockno : Z) (page : list Z) :
  s5f_mutex fs = false →
  blockno ≠ 0 →
  0 ≤ s5s_nfree (s5f_super fs) < S5_NBLKS_PER_FNODE →
  length (s5s_free_blocks (s5f_super fs)) = Z.to_nat S5_NBLKS_PER_FNODE →
  s5f_blocks fs !! blockno = Some page →
  ∃ fs', s5_free_block blockno fs = Ret (tt, fs')
    ∧ s5f_mutex fs' = false
    ∧ s5f_inodes fs' = s5f_inodes fs
    ∧ (s5s_nfree (s5f_super fs) < S5_NBLKS_PER_FNODE - 1 →
         s5s_free_blocks (s5f_super fs')
           = <[Z.to_nat (s5s_nfree (s5f_super fs)) := blockno]>
               (s5s_free_blocks (s5f_super fs))
         ∧ s5s_free_blocks (s5f_super fs')
             !! Z.to_nat (s5s_nfree (s5f_super fs)) = Some blockno
         ∧ s5s_nfree (s5f_super fs') = s5s_nfree (s5f_super fs) + 1
         ∧ s5f_blocks fs' = s5f_blocks fs
         ∧ s5f_dirty fs' = s5f_dirty fs ∖ {[blockno]})
    ∧ (s5s_nfree (s5f_super fs) = S5_NBLKS_PER_FNODE - 1 →
         s5f_blocks fs'
           = <[blockno := s5s_free_blocks (s5f_super fs)
                          ++ drop (Z.to_nat S5_NBLKS_PER_FNODE) page]>
               (s5f_blocks fs)
         ∧ take (Z.to_nat S5_NBLKS_PER_FNODE)
                (s5s_free_blocks (s5f_super fs)
                 ++ drop (Z.to_nat S5_NBLKS_PER_FNODE) page)
             = s5s_free_blocks (s5f_super fs)
         ∧ s5s_nfree (s5f_super fs') = 0
         ∧ s5s_free_blocks (s5f_super fs')
             = <[Z.to_nat (S5_NBLKS_PER_FNODE - 1) := blockno]>
                 (s5s_free_blocks (s5f_super fs))
         ∧ s5s_free_blocks (s5f_super fs')
             !! Z.to_nat (S5_NBLKS_PER_FNODE - 1) = Some blockno
         ∧ s5f_dirty fs' = s5f_dirty fs ∪ {[blockno]}).
Proof.
  intros Hmx Hb Hn Hlen Hpg.
  pose proof S5_NBLKS_PER_FNODE_range as HN.
  unfold s5_free_block, s5_lock_super, s5_unlock_super, s5_get_disk_block,
    s5_release_disk_block.
  kunfold. cbn. rewrite Hmx. cbn.
  destruct (Z.eqb_spec blockno 0) as [|_]; [done|]. cbn.
  destruct (Z.ltb_spec (s5s_nfree (s5f_super fs)) S5_NBLKS_PER_FNODE);
    [|lia]. cbn.
  rewrite Hpg. cbn.
  destruct (Z.eqb_spec (s5s_nfree (s5f_super fs)) (S5_NBLKS_PER_FNODE - 1))
    as [Hfull|Hnot]; cbn.
  - eexists. split; [reflexivity|]. cbn.
    repeat split; try lia; try done.
    + by rewrite take_app_length'.
    + apply list_lookup_insert_eq. lia.
  - eexists. split; [reflexivity|]. cbn.
    repeat split; try lia; try done.
    + apply list_lookup_insert_eq. lia.
    + apply u32_small. lia.
    + apply set_eq. intros x.
      rewrite !elem_of_difference, elem_of_union. tauto.
Qed.

(** The type tags that carry block pointers differ from the device tags. *)
Lemma S5_TYPE_device_tags :
  S5_TYPE_CHR ≠ S5_TYPE_DATA ∧ S5_TYPE_CHR ≠ S5_TYPE_DIR
  ∧ S5_TYPE_BLK ≠ S5_TYPE_DATA ∧ S5_TYPE_BLK ≠ S5_TYPE_DIR.
Proof.
  pose proof S5_TYPE_distinct as Hd.
  rewrite !NoDup_cons in Hd. rewrite !elem_of_cons in Hd.
  intuition congruence.
Qed.

(** Freeing an array of zeroes frees nothing. *)
Lemma for_each_free_zeroes (n : nat) (fs : s5fs) :
  for_each (replicate n 0) free_if_set fs = Ret (tt, fs).
Proof.
  induction n as [|n IH]; cbn; [reflexivity|].
  unfold kbind, free_if_set at 1. cbn. exact IH.
Qed.

(** C10. Freeing an inode whose type is char-device or block-device pushes
    the inode on the free-inode list (it becomes the head, its next-free
    link is the old head, its type is free) and leaves the free-block list
    and every disk block as they were, whatever the inode's
    [s5_indirect_block] (the device id) and direct slots hold. *)
Theorem s5_free_inode_device_frees_no_block
    (fs : s5fs) (ino : Z) (inode : s5_inode) :
  s5f_mutex fs = false →
  s5f_inodes fs !! ino = Some inode →
  s5_number inode = ino →
  s5_type inode = S5_TYPE_CHR ∨ s5_type inode = S5_TYPE_BLK →
  ∃ fs', s5_free_inode ino fs = Ret (tt, fs')
    ∧ s5s_free_inode (s5f_super fs') = ino
    ∧ s5f_inodes fs'
        = <[ino := mk_inode (s5s_free_inode (s5f_super fs)) ino S5_TYPE_FREE
                     (s5_linkcount inode) (s5_direct_blocks inode)
                     (s5_indirect_block inode)]> (s5f_inodes fs)
    ∧ s5s_free_blocks (s5f_super fs') = s5s_free_blocks (s5f_super fs)
    ∧ s5s_nfree (s5f_super fs') = s5s_nfree (s5f_super fs)
    ∧ s5f_blocks fs' = s5f_blocks fs
    ∧ s5f_mutex fs' = false.
Proof.
  intros Hmx Hino Hnum Hty.
  destruct S5_TYPE_device_tags as (Hcd & Hcr & Hbd & Hbr).
  unfold s5_free_inode, s5_lock_super, s5_unlock_super, s5_get_inode,
    s5_release_inode, s5_release_disk_block.
  kunfold. cbn. rewrite Hmx. cbn. rewrite Hino. cbn.
  rewrite Hnum, Z.eqb_refl. cbn.
  assert (Hbranch :
    (s5_type inode =? S5_TYPE_DATA) || (s5_type inode =? S5_TYPE_DIR) = false).
  { apply orb_false_intro; apply Z.eqb_neq; destruct Hty as [-> | ->];
      assumption. }
  rewrite Hbranch. cbn.
  assert (Hassert :
    (s5_type inode =? S5_TYPE_BLK) || (s5_type inode =? S5_TYPE_CHR) = true).
  { destruct Hty as [-> | ->]; rewrite Z.eqb_refl;
      [apply orb_true_r | reflexivity]. }
  rewrite Hassert. cbn.
  rewrite for_each_free_zeroes. cbn.
  eexists. split; [reflexivity|]. cbn. by rewrite Hnum.
Qed.

(** *** [s5_alloc_inode] *)

Lemma valid_inode_type_assert (type : Z) :
  valid_inode_type type ↔
  (S5_TYPE_DATA =? type) || (S5_TYPE_DIR =? type)
  || (S5_TYPE_CHR =? type) || (S5_TYPE_BLK =? type) = true.
Proof.
  unfold valid_inode_type.
  rewrite !orb_true_iff, !Z.eqb_eq. intuition congruence.
Qed.

(** A type that is not an S5 type tag trips the opening assertion. *)
Lemma s5_alloc_inode_bad_type (type devid : Z) (fs : s5fs) :
  ¬ valid_inode_type type → s5_alloc_inode type devid fs = Panic.
Proof.
  intros Hbad. unfold s5_alloc_inode. kunfold.
  destruct ((S5_TYPE_DATA =? type) || (S5_TYPE_DIR =? type)
            || (S5_TYPE_CHR =? type) || (S5_TYPE_BLK =? type)) eqn:E;
    [|reflexivity].
  exfalso. apply Hbad. by apply valid_inode_type_assert.
Qed.

(** No free inode: [-ENOSPC], and the file system is as it was. *)
Lemma s5_alloc_inode_enospc (type devid : Z) (fs : s5fs) :
  valid_inode_type type →
  s5f_mutex fs = false →
  s5s_free_inode (s5f_super fs) = u32 (-1) →
  s5_alloc_inode type devid fs = Ret (- ENOSPC, fs).
Proof.
  intros Hty Hmx Hhead. apply valid_inode_type_assert in Hty.
  unfold s5_alloc_inode, s5_lock_super, s5_unlock_super.
  kunfold. rewrite Hty. cbn. rewrite Hmx. cbn. rewrite Hhead. cbn.
  destruct fs; cbn in *. by subst.
Qed.

(** A free inode at the head: it is popped, the head becomes its next-free
    link, and its number is returned. *)
Lemma s5_alloc_inode_pop (type devid : Z) (fs : s5fs) (inode : s5_inode) :
  valid_inode_type type →
  s5f_mutex fs = false →
  s5s_free_inode (s5f_super fs) ≠ u32 (-1) →
  s5f_inodes fs !! s5s_free_inode (s5f_super fs) = Some inode →
  s5_number inode = s5s_free_inode (s5f_super fs) →
  s5_un inode ≠ s5_number inode →
  ∃ fs', s5_alloc_inode type devid fs
           = Ret (s5s_free_inode (s5f_super fs), fs')
    ∧ s5s_free_inode (s5f_super fs') = s5_un inode
    ∧ s5f_inodes fs'
        = <[s5s_free_inode (s5f_super fs) := inode_init type devid inode]>
            (s5f_inodes fs)
    ∧ s5s_free_blocks (s5f_super fs') = s5s_free_blocks (s5f_super fs)
    ∧ s5s_nfree (s5f_super fs') = s5s_nfree (s5f_super fs)
    ∧ s5f_blocks fs' = s5f_blocks fs
    ∧ s5f_mutex fs' = false.
Proof.
  intros Hty Hmx Hhead Hino Hnum Hnext. apply valid_inode_type_assert in Hty.
  unfold s5_alloc_inode, s5_lock_super, s5_unlock_super, s5_get_inode,
    s5_release_inode, s5_release_disk_block.
  kunfold. rewrite Hty. cbn. rewrite Hmx. cbn.
  destruct (Z.eqb_spec (s5s_free_inode (s5f_super fs)) (u32 (-1)));
    [done|]. cbn.
  rewrite Hino. cbn. rewrite Hnum, Z.eqb_refl. cbn.
  destruct (Z.eqb_spec (s5_un inode) (s5_number inode)); [done|]. cbn.
  eexists. split; [reflexivity|]. done.
Qed.

(** [-ENOSPC] is returned exactly when the head of the free-inode list is
    the sentinel: on a well-formed head (an inode number, the inode there
    carries that number and does not link to itself) the result is the
    number popped, which is not negative. *)
Lemma s5_alloc_inode_enospc_iff (type devid : Z) (fs : s5fs) :
  valid_inode_type type →
  s5f_mutex fs = false →
  0 ≤ s5s_free_inode (s5f_super fs) →
  (s5s_free_inode (s5f_super fs) ≠ u32 (-1) →
   ∃ inode, s5f_inodes fs !! s5s_free_inode (s5f_super fs) = Some inode
     ∧ s5_number inode = s5s_free_inode (s5f_super fs)
     ∧ s5_un inode ≠ s5_number inode) →
  (∃ fs', s5_alloc_inode type devid fs = Ret (- ENOSPC, fs'))
  ↔ s5s_free_inode (s5f_super fs) = u32 (-1).
Proof.
  intros Hty Hmx Hpos Hwf. split.
  - intros (fs' & Hrun).
    destruct (Z.eq_dec (s5s_free_inode (s5f_super fs)) (u32 (-1)))
      as [|Hne]; [assumption|].
    destruct (Hwf Hne) as (inode & Hino & Hnum & Hnext).
    destruct (s5_alloc_inode_pop type devid fs inode Hty Hmx Hne Hino Hnum
                Hnext) as (fs'' & Hrun' & _).
    rewrite Hrun' in Hrun. injection Hrun as Hr _.
    unfold ENOSPC in Hr. lia.
  - intros Hhead. exists fs. by apply s5_alloc_inode_enospc.
Qed.

End s5fs_subr_facts.

(** ** The S5 node layer *)

Section s5_node_facts.
Context {H : S5Header}.

(** Whatever the translation returns, the assertion of the sparse branch
    makes a successful [s5fs_get_pframe] for writing return a frame of the
    block device. *)
Lemma s5fs_get_pframe_with_write_blockdev
    (translate : Z → Z → Z → K kernel Z) (vn pagenum forwrite : Z)
    (k k' : kernel) (r : Z) (pf : pframe) :
  forwrite ≠ 0 →
  s5fs_get_pframe_with translate vn pagenum forwrite k = Ret ((r, Some pf), k') →
  pf_mobj pf = BlockDev.
Proof.
  intros Hw. unfold s5fs_get_pframe_with, vnode_deref. kunfold.
  destruct (k_vnodes k !! vn) as [v|]; [|done].
  destruct (vn_len v <=? u64 (pagenum * PAGE_SIZE)); [done|].
  destruct (translate vn pagenum (s32 forwrite) k) as [[loc k1]| | |] eqn:Et;
    [|done|done|done].
  destruct (loc <? 0); [done|].
  destruct (Z.eqb_spec loc 0) as [->|Hloc]; cbn.
  - destruct (Z.eqb_spec forwrite 0); done.
  - destruct (mobj_find_pframe vn pagenum k1) as [[o k2]| | |]; [|done|done|done].
    destruct o as [p|].
    + destruct (mobj_free_pframe vn pagenum k2) as [[[] k3]| | |];
        [|done|done|done].
      destruct (on_fs _ k3) as [[pg k4]| | |]; [|done|done|done].
      intros [= _ <- _]. reflexivity.
    + destruct (on_fs _ k2) as [[pg k4]| | |]; [|done|done|done].
      intros [= _ <- _]. reflexivity.
Qed.

(** C1. In this code [s5_file_block_to_disk_block] returns 0 also when
    allocation is requested, so a call of [s5fs_get_pframe] for writing on a
    page inside the file takes the sparse-block branch and fails its
    assertion [KASSERT(!forwrite)]. *)
Theorem s5fs_get_pframe_write_trips_assertion
    (k : kernel) (vn : Z) (v : vnode) (pagenum forwrite : Z) :
  k_vnodes k !! vn = Some v →
  u64 (pagenum * PAGE_SIZE) < vn_len v →
  forwrite ≠ 0 →
  s5fs_get_pframe vn pagenum forwrite k = Panic.
Proof.
  intros Hv Hlen Hw.
  unfold s5fs_get_pframe, s5fs_get_pframe_with, s5_file_block_to_disk_block,
    vnode_deref.
  kunfold. rewrite Hv.
  destruct (Z.leb_spec (vn_len v) (u64 (pagenum * PAGE_SIZE))); [lia|].
  cbn. destruct (Z.eqb_spec forwrite 0); done.
Qed.

(** No call for writing succeeds: it faults on a dangling vnode, returns
    [-EINVAL] beyond the length, and panics otherwise. *)
Lemma s5fs_get_pframe_write_never_succeeds
    (k k' : kernel) (vn pagenum forwrite : Z) (pf : option pframe) :
  forwrite ≠ 0 →
  s5fs_get_pframe vn pagenum forwrite k ≠ Ret ((0, pf), k').
Proof.
  intros Hw.
  unfold s5fs_get_pframe, s5fs_get_pframe_with, s5_file_block_to_disk_block,
    vnode_deref.
  kunfold.
  destruct (k_vnodes k !! vn) as [v|]; [|done].
  destruct (vn_len v <=? u64 (pagenum * PAGE_SIZE)); [by cbv|].
  cbn. destruct (Z.eqb_spec forwrite 0); done.
Qed.

(** C2. [s5_write_file] returns -1 at every position and writes nothing:
    not [-EFBIG] beyond the maximal file size, not a byte count inside
    it. *)
Theorem s5_write_file_returns_minus_one
    (k : kernel) (sn pos : Z) (buf : list Z) (len : Z) :
  s5_write_file sn pos buf len k = Ret (-1, k)
  ∧ s5_write_file sn pos buf len k ≠ Ret (- EFBIG, k).
Proof. split; [reflexivity|]. cbv. discriminate. Qed.

(** C3. [s5_read_file] returns -1 at every position, at or past the end of
    the file too, and leaves the buffer as it was. *)
Theorem s5_read_file_returns_minus_one
    (k : kernel) (sn pos : Z) (buf : list Z) (len : Z) :
  s5_read_file sn pos buf len k = Ret ((-1, buf), k)
  ∧ s5_read_file sn pos buf len k ≠ Ret ((0, buf), k).
Proof. split; [reflexivity|]. cbv. discriminate. Qed.

Section vnode_cache_facts.
Variable vget_locked : Z → K kernel (option Z).
Variable vput_locked : Z → K kernel unit.

(** C5. [s5fs_mkdir] passes the vnode mode [S_IFDIR] where
    [s5_alloc_inode] expects an S5 type tag; when that value is not one of
    the four tags the opening assertion of [s5_alloc_inode] fails before the
    free-inode list is looked at. *)
Theorem s5fs_mkdir_trips_type_assertion
    (k : kernel) (dir : Z) (d : vnode) (name : string) (namelen : Z) :
  k_vnodes k !! dir = Some d →
  S_ISDIR (vn_mode d) = true →
  ¬ valid_inode_type (u16 S_IFDIR) →
  s5fs_mkdir vget_locked vput_locked dir name namelen k = Panic.
Proof.
  intros Hd Hmode Hty. unfold s5fs_mkdir, vnode_deref, on_fs. kunfold.
  rewrite Hd. cbn. rewrite Hmode. cbn.
  by rewrite s5_alloc_inode_bad_type.
Qed.

(** C7. [s5fs_rmdir] never reaches its emptiness test: [s5_find_dirent]
    returns -1, which is returned as the error.  The result is [-ENOTDIR]
    for [.] and [..] and -1 for every other name, and nothing changes. *)
Theorem s5fs_rmdir_never_enotempty
    (k : kernel) (parent : Z) (name : string) (namelen : Z) :
  ∃ r, s5fs_rmdir vget_locked vput_locked parent name namelen k = Ret (r, k)
       ∧ (r = - ENOTDIR ∨ r = -1) ∧ r ≠ - ENOTEMPTY.
Proof.
  unfold s5fs_rmdir, s5_find_dirent. kunfold.
  destruct ((namelen =? 1) && name_match "." name namelen).
  { eexists. split; [reflexivity|]. split; [by left | by cbv]. }
  destruct ((namelen =? 2) && name_match ".." name namelen).
  { eexists. split; [reflexivity|]. split; [by left | by cbv]. }
  cbn. eexists. split; [reflexivity|]. split; [by right | by cbv].
Qed.

End vnode_cache_facts.
End s5_node_facts.

(** ** The address-space map *)

Section vmmap_facts.
Import Vmmap.
Context {M : VmHeader}.

Lemma ADDR_TO_PN_HIGH_bounds :
  0 ≤ (USER_MEM_HIGH - USER_MEM_LOW) / PAGE_SIZE ≤ ADDR_TO_PN USER_MEM_HIGH
  ∧ ADDR_TO_PN USER_MEM_HIGH < 2 ^ 63.
Proof.
  pose proof USER_MEM_range as (Hlow & Hhigh).
  pose proof PAGE_SHIFT_nonneg as Hs.
  unfold PAGE_SIZE, ADDR_TO_PN.
  rewrite Z.shiftl_1_l, Z.shiftr_div_pow2 by assumption.
  assert (0 < 2 ^ PAGE_SHIFT) by (apply Z.pow_pos_nonneg; lia).
  repeat split.
  - apply Z.div_pos; lia.
  - apply Z.div_le_mono; lia.
  - apply Z.le_lt_trans with USER_MEM_HIGH; [|lia].
    apply Z.div_le_upper_bound; [lia|]. nia.
Qed.

(** C9. When the highest area of the map starts inside the top [npages]
    pages of user memory, [vmmap_find_range] with [VMMAP_DIR_HILO] returns
    the start of those top pages all the same: the range it names contains
    a mapped page, so it is not a gap of unmapped pages. *)
Theorem vmmap_find_range_hilo_returns_mapped_range
    (vmm_list : list vmarea) (top : vmarea) (npages : Z) :
  last vmm_list = Some top →
  vma_start top < vma_end top →
  0 < npages ≤ (USER_MEM_HIGH - USER_MEM_LOW) / PAGE_SIZE →
  ADDR_TO_PN USER_MEM_HIGH - npages < vma_start top
    < ADDR_TO_PN USER_MEM_HIGH →
  vmmap_find_range vmm_list npages VMMAP_DIR_HILO
    = ADDR_TO_PN USER_MEM_HIGH - npages
  ∧ ¬ free_gap vmm_list (ADDR_TO_PN USER_MEM_LOW) (ADDR_TO_PN USER_MEM_HIGH)
        (vmmap_find_range vmm_list npages VMMAP_DIR_HILO) npages.
Proof.
  intros Hlast Hne Hn Htop.
  pose proof ADDR_TO_PN_HIGH_bounds as (Hb1 & Hb2).
  assert (Hret : vmmap_find_range vmm_list npages VMMAP_DIR_HILO
                 = ADDR_TO_PN USER_MEM_HIGH - npages).
  { unfold vmmap_find_range.
    destruct (Z.ltb_spec ((USER_MEM_HIGH - USER_MEM_LOW) / PAGE_SIZE) npages);
      [lia|].
    rewrite Z.eqb_refl.
    apply last_Some in Hlast as [front ->].
    rewrite rev_app_distr. cbn.
    assert (Hu : u64 (ADDR_TO_PN USER_MEM_HIGH - npages)
                 = ADDR_TO_PN USER_MEM_HIGH - npages).
    { unfold u64. apply Z.mod_small. lia. }
    rewrite Hu.
    destruct (Z.ltb_spec (ADDR_TO_PN USER_MEM_HIGH - npages) (vma_start top));
      [|lia].
    unfold s64. rewrite Z.mod_small by lia. lia. }
  split; [exact Hret|].
  rewrite Hret. intros (_ & _ & Hfree).
  apply (Hfree (vma_start top)); [lia|].
  exists top. split.
  - apply last_Some in Hlast as [front ->].
    apply elem_of_app. right. by apply list_elem_of_singleton.
  - unfold in_area. lia.
Qed.

(** In the [VMMAP_DIR_HILO] branch the scan ends on the start value or on
    one past the end of an area. *)
Lemma hilo_scan_nonneg (areas : list vmarea) (vfn : Z) :
  0 ≤ vfn → 0 ≤ hilo_scan areas vfn.
Proof.
  revert vfn. induction areas as [|vma rest IH]; intros vfn Hv; cbn;
    [assumption|].
  destruct (vfn <? vma_start vma); [assumption|].
  apply IH. unfold u64. apply Z.mod_pos_bound. lia.
Qed.

Lemma hilo_scan_bound (areas : list vmarea) (vfn : Z) :
  vfn < 2 ^ 63 →
  Forall (λ vma, 0 ≤ vma_end vma < 2 ^ 63 - 1) areas →
  hilo_scan areas vfn < 2 ^ 63.
Proof.
  revert vfn. induction areas as [|vma rest IH]; intros vfn Hv Hall; cbn;
    [assumption|].
  apply Forall_cons in Hall as [Hend Hall].
  destruct (vfn <? vma_start vma); [assumption|].
  apply IH; [|assumption]. unfold u64. rewrite Z.mod_small; lia.
Qed.

(** A [VMMAP_DIR_HILO] request that passes the size test is never answered
    with -1, whatever is mapped. *)
Lemma vmmap_find_range_hilo_never_fails
    (vmm_list : list vmarea) (npages : Z) :
  0 ≤ npages ≤ (USER_MEM_HIGH - USER_MEM_LOW) / PAGE_SIZE →
  Forall (λ vma, 0 ≤ vma_end vma < 2 ^ 63 - 1) vmm_list →
  0 ≤ vmmap_find_range vmm_list npages VMMAP_DIR_HILO.
Proof.
  intros Hn Hall.
  pose proof ADDR_TO_PN_HIGH_bounds as (Hb1 & Hb2).
  unfold vmmap_find_range.
  destruct (Z.ltb_spec ((USER_MEM_HIGH - USER_MEM_LOW) / PAGE_SIZE) npages);
    [lia|].
  rewrite Z.eqb_refl.
  assert (Hu : u64 (ADDR_TO_PN USER_MEM_HIGH - npages)
               = ADDR_TO_PN USER_MEM_HIGH - npages).
  { unfold u64. apply Z.mod_small. lia. }
  rewrite Hu.
  assert (Hrev : Forall (λ vma, 0 ≤ vma_end vma < 2 ^ 63 - 1) (rev vmm_list)).
  { by apply List.Forall_rev. }
  assert (H0 : 0 ≤ hilo_scan (rev vmm_list)
                     (ADDR_TO_PN USER_MEM_HIGH - npages))
    by (apply hilo_scan_nonneg; lia).
  assert (H1 : hilo_scan (rev vmm_list)
                 (ADDR_TO_PN USER_MEM_HIGH - npages) < 2 ^ 63)
    by (apply hilo_scan_bound; [lia | assumption]).
  unfold s64. rewrite Z.mod_small; lia.
Qed.

End vmmap_facts.

(** ** The VFS layer *)

Section vfs_facts.
Import Vfs.
Context {V : VfsHeader}.

(** C4. When the vnode's read operation returns a positive byte count,
    [do_read] takes the branch [ret != 0] that was written for errors: it
    returns the count and leaves the file position where it was. *)
Theorem do_read_leaves_position
    (st : vfs) (fd fp : Z) (fl : file) (vn : vnode) (ops : vnode_ops)
    (rd : Z → Z → Z * list Z) (buf : list Z) (len n : Z) (data : list Z) :
  0 ≤ fd < NFILES →
  p_files st !! Z.to_nat fd = Some (Some fp) →
  vfs_files st !! fp = Some fl →
  Z.land (f_mode fl) FMODE_READ ≠ 0 →
  vfs_vnodes st !! f_vnode fl = Some vn →
  S_ISDIR (vn_mode vn) = false →
  f_vnode fl ∉ vfs_locked st →
  vn_ops vn = Some ops →
  read ops = Some rd →
  rd (f_pos fl) len = (n, data) →
  0 < n < 2 ^ 31 →
  ∃ st', do_read fd buf len st = Ret ((n, data), st')
    ∧ vfs_files st' !! fp = Some fl
    ∧ vfs_locked st' = vfs_locked st.
Proof.
  intros Hfd Hpf Hfl Hmode Hvn Hdir Hlock Hops Hrd Hres Hn.
  assert (Hs32 : s32 n = n).
  { unfold s32. rewrite Z.mod_small by lia. lia. }
  unfold do_read, fget, fput, file_deref, deref, vlock, vunlock, ptr.
  kunfold.
  destruct (Z.ltb_spec fd 0); [lia|].
  destruct (Z.leb_spec NFILES fd); [lia|]. cbn.
  rewrite Hpf. cbn. rewrite Hfl. cbn.
  rewrite lookup_insert_eq. cbn.
  destruct (Z.eqb_spec (Z.land (f_mode fl) FMODE_READ) 0); [done|]. cbn.
  rewrite Hvn. cbn. rewrite Hdir. cbn.
  rewrite bool_decide_eq_false_2 by done. cbn.
  rewrite Hops. cbn. rewrite Hrd. cbn. rewrite Hres. cbn.
  rewrite Hs32.
  destruct (Z.eqb_spec n 0); [lia|]. cbn.
  rewrite bool_decide_eq_true_2
    by (apply elem_of_union; right; by apply elem_of_singleton).
  cbn. rewrite lookup_insert_eq. cbn.
  eexists. split; [reflexivity|]. cbn. split.
  - rewrite insert_insert_eq, lookup_insert_eq.
    f_equal. destruct fl; unfold file_add_ref; cbn. f_equal. lia.
  - apply set_eq. intros x.
    rewrite elem_of_difference, elem_of_union, elem_of_singleton.
    split; [tauto|]. intros Hx. split; [by left|]. by intros ->.
Qed.


(** *** The tokenizer and the components of a path *)

Lemma skip_slashes_components (s : string) :
  components (skip_slashes s) = components s.
Proof.
  induction s as [|c s IH]; cbn; [reflexivity|].
  destruct (Ascii.eqb c "/") eqn:E; [exact IH | cbn; by rewrite E].
Qed.

Lemma skip_slashes_start (s : string) :
  starts_with_slash (skip_slashes s) = false.
Proof.
  induction s as [|c s IH]; cbn; [reflexivity|].
  destruct (Ascii.eqb c "/") eqn:E; [exact IH | cbn; exact E].
Qed.

Lemma token_end_components (b : string) :
  ∀ n r, token_end b = (n, r) →
    (r = EmptyString ∨ starts_with_slash r = true)
    ∧ match n with
      | O => r = b
      | S _ => components b = String.substring 0 n b :: components r
      end
    ∧ String.length (String.substring 0 n b) = n.
Proof.
  induction b as [|c b IH]; cbn; intros n r.
  - intros [= <- <-]. auto.
  - destruct (Ascii.eqb c "/") eqn:Ec.
    + intros [= <- <-]. cbn. rewrite Ec. auto.
    + destruct (token_end b) as [n' r'] eqn:Et.
      intros [= <- <-].
      destruct (IH n' r' eq_refl) as (Hr & Hn & Hlen).
      split; [exact Hr|]. split; [|cbn; by rewrite Hlen].
      destruct n' as [|n'].
      * subst r'. destruct Hr as [-> | Hs].
        -- reflexivity.
        -- rewrite Hs. by destruct b.
      * assert (Hns : starts_with_slash b = false).
        { destruct b as [|c' b']; [reflexivity|]. cbn in Et |- *.
          destruct (Ascii.eqb c' "/"); [discriminate | reflexivity]. }
        rewrite Hns, Hn. reflexivity.
Qed.

(** One call of the tokenizer returns the next component, or length 0 when
    none is left. *)
Lemma namev_tokenize_next (search : option string) :
  ∀ b n search', namev_tokenize search = (b, n, search') →
    match rest search with
    | [] => n = 0 ∧ rest search' = []
    | c :: cs =>
        ∃ b', b = Some b'
          ∧ String.substring 0 (Z.to_nat n) b' = c
          ∧ n = Z.of_nat (String.length c) ∧ 0 < n
          ∧ rest search' = cs
    end.
Proof.
  intros b n search'. destruct search as [s|]; cbn.
  2: { intros [= <- <- <-]. auto. }
  destruct (token_end (skip_slashes s)) as [m r] eqn:Et.
  intros [= <- <- <-].
  destruct (token_end_components _ _ _ Et) as (Hr & Hm & Hlen).
  rewrite <- (skip_slashes_components s).
  destruct m as [|m].
  - subst r. destruct Hr as [He | Hs].
    + rewrite He. cbn. auto.
    + by rewrite skip_slashes_start in Hs.
  - rewrite Hm, Nat2Z.id.
    eexists. split; [reflexivity|]. split; [reflexivity|].
    split; [by rewrite Hlen|]. split; [lia|].
    destruct r; reflexivity.
Qed.

Lemma components_length (s : string) :
  (length (components s) ≤ String.length s)%nat.
Proof.
  induction s as [|c s IH]; cbn; [lia|].
  destruct (Ascii.eqb c "/"); [lia|].
  destruct (starts_with_slash s); [cbn; lia|].
  destruct (components s); cbn in *; lia.
Qed.

(** *** The primitives on a known state *)

Lemma walk_vnodes (st st' : vfs) (dir : Z) (names : list string) :
  vfs_vnodes st' = vfs_vnodes st → walk st' dir names = walk st dir names.
Proof.
  intros Hv. revert dir. induction names as [|n ns IH]; intros dir; cbn;
    [reflexivity|].
  unfold lookup_step. rewrite Hv.
  destruct (vfs_vnodes st !! dir) as [d|]; [|reflexivity].
  destruct (vn_ops d) as [ops|]; [|reflexivity].
  destruct (S_ISDIR (vn_mode d)); [|reflexivity].
  destruct (lookup ops) as [f|]; [|reflexivity].
  destruct (f n); [reflexivity | apply IH].
Qed.

Lemma gset_singleton_difference (x : Z) : ({[x]} : gset Z) ∖ {[x]} = ∅.
Proof.
  apply set_eq. intros y.
  rewrite elem_of_difference, elem_of_singleton, elem_of_empty. tauto.
Qed.

Lemma gset_empty_union (x : Z) : (∅ : gset Z) ∪ {[x]} = {[x]}.
Proof.
  apply set_eq. intros y.
  rewrite elem_of_union, elem_of_singleton, elem_of_empty. tauto.
Qed.

(** A successful lookup of a non-empty name in a directory. *)
Lemma namev_lookup_step (st : vfs) (dir v : Z) (nb : string) (n : Z) :
  0 < n →
  lookup_step st dir (String.substring 0 (Z.to_nat n) nb) = Some v →
  namev_lookup dir (Some nb) n st
    = Ret ((0, Some v), set_refcount <[v := refs st v + 1]> st).
Proof.
  intros Hn. unfold lookup_step, namev_lookup, deref, ptr, vref. kunfold.
  destruct (vfs_vnodes st !! dir) as [d|]; [|done].
  destruct (vn_ops d) as [ops|]; [|done].
  destruct (S_ISDIR (vn_mode d)); [|done]. cbn.
  destruct (Z.eqb_spec n 0); [lia|].
  destruct (lookup ops) as [f|]; [|done].
  destruct (f _); [done|]. by intros [= ->].
Qed.

Lemma s32_0 : s32 0 = 0.
Proof. reflexivity. Qed.

(** One turn of the loop of [namev_dir]: the current component is found in
    the locked directory [basenode] as [v]; the loop goes on with [v] locked
    instead. *)
Lemma namev_dir_loop_turn (fuel : nat) (basenode v : Z) (cb : string)
    (cur_n : Z) (nextname nn : option string) (next_n nl : Z)
    (search search' : option string) (st : vfs) :
  next_n ≠ 0 →
  0 < cur_n →
  vfs_locked st = {[basenode]} →
  lookup_step st basenode (String.substring 0 (Z.to_nat cur_n) cb) = Some v →
  namev_tokenize search = (nn, nl, search') →
  ∃ st1,
    namev_dir_loop (S fuel) basenode (Some cb) cur_n nextname next_n search st
      = namev_dir_loop fuel v nextname next_n nn nl search' st1
    ∧ vfs_locked st1 = {[v]}
    ∧ vfs_vnodes st1 = vfs_vnodes st
    ∧ vfs_root st1 = vfs_root st.
Proof.
  intros Hnext Hcur Hlock Hstep Htok.
  cbn [namev_dir_loop].
  destruct (Z.eqb_spec next_n 0); [done|].
  kunfold. rewrite (namev_lookup_step _ _ _ _ _ Hcur Hstep).
  rewrite s32_0. cbn. rewrite Htok.
  destruct (Z.eqb_spec basenode v) as [<-|Hne].
  - unfold vput. kunfold. cbn.
    eexists. split; [reflexivity|]. cbn. done.
  - unfold vput_locked, vunlock, vput, vlock. kunfold. cbn.
    rewrite Hlock.
    rewrite bool_decide_eq_true_2 by by apply elem_of_singleton.
    cbn. rewrite Hlock, gset_singleton_difference.
    rewrite bool_decide_eq_false_2 by apply not_elem_of_empty.
    cbn. eexists. split; [reflexivity|]. cbn.
    by rewrite Hlock, gset_singleton_difference, gset_empty_union.
Qed.

(** The loop of [namev_dir]: with the current component, the components
    [cs] after it and the directory [basenode] locked, it walks through all
    but the last of them and returns the directory reached together with the
    last component. *)
Lemma namev_dir_loop_walk (cs : list string) :
  ∀ (fuel : nat) (basenode : Z) (cb : string) (cur_n : Z)
    (nextname : option string) (next_n : Z) (search : option string)
    (st : vfs) (dirnode : Z),
  (length cs ≤ fuel)%nat →
  vfs_locked st = {[basenode]} →
  0 < cur_n →
  cur_n = Z.of_nat (String.length (String.substring 0 (Z.to_nat cur_n) cb)) →
  match cs with
  | [] => next_n = 0
  | c :: cs' =>
      ∃ nb, nextname = Some nb
        ∧ String.substring 0 (Z.to_nat next_n) nb = c
        ∧ next_n = Z.of_nat (String.length c)
        ∧ 0 < next_n
        ∧ rest search = cs'
  end →
  walk st basenode
    (removelast (String.substring 0 (Z.to_nat cur_n) cb :: cs)) = Some dirnode →
  ∃ st' nameb namelen,
    namev_dir_loop fuel basenode (Some cb) cur_n nextname next_n search st
      = Ret ((0, Some (dirnode, Some nameb, namelen)), st')
    ∧ String.substring 0 (Z.to_nat namelen) nameb
        = List.last (String.substring 0 (Z.to_nat cur_n) cb :: cs) EmptyString
    ∧ namelen
        = Z.of_nat (String.length
            (List.last (String.substring 0 (Z.to_nat cur_n) cb :: cs)
                       EmptyString))
    ∧ vfs_locked st' = ∅
    ∧ vfs_vnodes st' = vfs_vnodes st
    ∧ vfs_root st' = vfs_root st.
Proof.
  induction cs as [|c cs IH];
    intros fuel basenode cb cur_n nextname next_n search st dirnode
      Hfuel Hlock Hcur Hcurlen Hnext Hwalk.
  - subst next_n. cbn in Hwalk. injection Hwalk as <-.
    assert (Hrun : namev_dir_loop fuel basenode (Some cb) cur_n nextname 0
                     search st
                   = Ret ((0, Some (basenode, Some cb, cur_n)),
                          set_locked (λ l, l ∖ {[basenode]}) st)).
    { destruct fuel; cbn; unfold vunlock; kunfold; cbn; rewrite Hlock;
        (rewrite bool_decide_eq_true_2 by by apply elem_of_singleton);
        reflexivity. }
    rewrite Hrun. eexists _, cb, cur_n. split; [reflexivity|]. cbn.
    rewrite Hlock, gset_singleton_difference. done.
  - destruct Hnext as (nb & -> & Hnb & Hnlen & Hpos & Hrest).
    destruct fuel as [|fuel]; [cbn in Hfuel; lia|].
    change (removelast (String.substring 0 (Z.to_nat cur_n) cb :: c :: cs))
      with (String.substring 0 (Z.to_nat cur_n) cb :: removelast (c :: cs))
      in Hwalk.
    cbn [walk] in Hwalk.
    destruct (lookup_step st basenode
                (String.substring 0 (Z.to_nat cur_n) cb)) as [v|] eqn:Hstep;
      [|done].
    destruct (namev_tokenize search) as [[nn nl] search'] eqn:Etok.
    pose proof (namev_tokenize_next _ _ _ _ Etok) as Htok.
    rewrite Hrest in Htok.
    destruct (namev_dir_loop_turn fuel basenode v cb cur_n (Some nb) nn
                next_n nl search search' st)
      as (st1 & -> & Hlock1 & Hv1 & Hr1);
      [lia | done | done | done | done |].
    rewrite <- Hnb in Hwalk.
    destruct (IH fuel v nb next_n nn nl search' st1 dirnode) as
      (st' & nameb & namelen & Hrun & Hname & Hnl & Hl & Hv & Hr).
    + cbn in Hfuel. lia.
    + exact Hlock1.
    + exact Hpos.
    + by rewrite Hnb.
    + destruct cs as [|c' cs']; [tauto | exact Htok].
    + rewrite <- Hwalk. by apply walk_vnodes.
    + exists st', nameb, namelen.
      split; [exact Hrun|]. split.
      { rewrite Hname, Hnb. reflexivity. }
      split.
      { rewrite Hnl, Hnb. reflexivity. }
      split; [exact Hl|]. split; [by rewrite Hv | by rewrite Hr].
Qed.

Lemma starts_with_slash_first (c : ascii) (s : string) :
  starts_with_slash (String c s) = Ascii.eqb c "/".
Proof. reflexivity. Qed.

(** [namev_dir] on a path with at least one component, entered with no
    vnode locked: when every component but the last resolves, the result is
    the directory reached and the basename, and no vnode is left locked. *)
Lemma namev_dir_walk (st : vfs) (base : Z) (p : string) (dirnode : Z) :
  vfs_locked st = ∅ →
  components p ≠ [] →
  walk st (start_node st base p) (removelast (components p)) = Some dirnode →
  ∃ st' nameb namelen,
    namev_dir base (Some p) st
      = Ret ((0, Some (dirnode, Some nameb, namelen)), st')
    ∧ String.substring 0 (Z.to_nat namelen) nameb = basename p
    ∧ namelen = Z.of_nat (String.length (basename p))
    ∧ vfs_locked st' = ∅
    ∧ vfs_vnodes st' = vfs_vnodes st.
Proof.
  intros Hlock Hcomp Hwalk.
  destruct p as [|c p']; [done|].
  unfold namev_dir, start_node in *.
  rewrite starts_with_slash_first in Hwalk.
  remember (String c p') as p eqn:Hp.
  remember (String.length p) as fuel eqn:Hfuel.
  destruct (namev_tokenize (Some p)) as [[curname cur_n] search1] eqn:Et1.
  destruct (namev_tokenize search1) as [[nextname next_n] search2] eqn:Et2.
  pose proof (namev_tokenize_next _ _ _ _ Et1) as H1.
  pose proof (namev_tokenize_next _ _ _ _ Et2) as H2.
  cbn [rest] in H1.
  destruct (components p) as [|cur cs] eqn:Ecs; [done|].
  destruct H1 as (cb & -> & Hcb & Hcn & Hcpos & Hrest1).
  rewrite Hrest1 in H2.
  unfold vlock, vref. kunfold. cbn.
  remember (if Ascii.eqb c "/" then vfs_root st else base) as basenode.
  rewrite Hlock.
  rewrite bool_decide_eq_false_2 by apply not_elem_of_empty.
  cbn. rewrite <- Hcb in Hwalk.
  match goal with
  | |- context [namev_dir_loop _ _ _ _ _ _ _ ?s] =>
      destruct (namev_dir_loop_walk cs fuel basenode cb cur_n
                  nextname next_n search2 s dirnode)
        as (st' & nameb & namelen & Hrun & Hname & Hnl & Hl & Hv & _)
  end.
  - pose proof (components_length p) as Hle. rewrite Ecs in Hle.
    cbn in Hle. lia.
  - cbn. rewrite Hlock. apply gset_empty_union.
  - exact Hcpos.
  - by rewrite Hcb.
  - destruct cs as [|c' cs']; [tauto | exact H2].
  - rewrite <- Hwalk. by apply walk_vnodes.
  - exists st', nameb, namelen. split; [exact Hrun|].
    unfold basename. rewrite Ecs. rewrite ?Hcb in Hname, Hnl.
    split; [exact Hname|]. split; [exact Hnl|]. split; [exact Hl|].
    by rewrite Hv.
Qed.

Lemma last_char_nonempty (c : ascii) (s : string) :
  ∃ d, last_char (String c s) = Some d.
Proof.
  revert c. induction s as [|c' s IH]; intros c; cbn; [by eexists|].
  apply IH.
Qed.

(** A directory component that its directory's lookup does not find: the
    error of the lookup is what [namev_open] returns, however long the
    component and the basename are. *)
Lemma namev_open_directory_lookup_error
    (st : vfs) (base : Z) (p : string) (oflags mode devid : Z)
    (first second : string) (more : list string)
    (d : vnode) (ops : vnode_ops) (f : string → Z + Z) (e : Z) :
  vfs_locked st = ∅ →
  Z.land oflags O_CREAT = 0 ∨ last_char p ≠ Some "/"%char →
  components p = first :: second :: more →
  vfs_vnodes st !! start_node st base p = Some d →
  vn_ops d = Some ops →
  S_ISDIR (vn_mode d) = true →
  lookup ops = Some f →
  f first = inl e →
  s32 e ≠ 0 →
  ∃ st', namev_open base (Some p) oflags mode devid st
           = Ret ((s32 e, None), st')
    ∧ vfs_locked st' = ∅.
Proof.
  intros Hlock Hcreat Hcomp Hd Hops Hdir Hlk Hf He.
  assert (Hfirst :
    (if Z.land oflags O_CREAT =? 0 then (kret false : K vfs bool)
     else ends_in_slash (Some p)) st = Ret (false, st)).
  { destruct (Z.eqb_spec (Z.land oflags O_CREAT) 0) as [|Hne];
      [reflexivity|].
    destruct Hcreat as [|Hlast]; [done|].
    destruct p as [|c p']; [done|].
    destruct (last_char_nonempty c p') as (x & Hx).
    unfold ends_in_slash, ptr. kunfold. rewrite Hx.
    destruct (Ascii.eqb_spec x "/") as [->|]; [done | reflexivity]. }
  unfold namev_open. kunfold. rewrite Hfirst. cbn -[namev_dir].
  destruct p as [|c p']; [done|].
  unfold namev_dir, start_node in *.
  rewrite starts_with_slash_first in Hd.
  remember (String c p') as p eqn:Hp.
  pose proof (components_length p) as Hle. rewrite Hcomp in Hle.
  destruct (String.length p) as [|fuel] eqn:Hfuel; [cbn in Hle; lia|].
  destruct (namev_tokenize (Some p)) as [[curname cur_n] search1] eqn:Et1.
  destruct (namev_tokenize search1) as [[nextname next_n] search2] eqn:Et2.
  pose proof (namev_tokenize_next _ _ _ _ Et1) as H1.
  pose proof (namev_tokenize_next _ _ _ _ Et2) as H2.
  cbn [rest] in H1. rewrite Hcomp in H1.
  destruct H1 as (cb & -> & Hcb & Hcn & Hcpos & Hrest1).
  rewrite Hrest1 in H2.
  destruct H2 as (nb & -> & Hnb & Hnn & Hnpos & _).
  cbn [namev_dir_loop].
  destruct (Z.eqb_spec next_n 0); [lia|].
  unfold vlock, vref, namev_lookup, deref, ptr, vput_locked, vunlock, vput.
  kunfold. cbn.
  remember (if Ascii.eqb c "/" then vfs_root st else base) as basenode.
  rewrite Hlock.
  rewrite bool_decide_eq_false_2 by apply not_elem_of_empty.
  cbn. rewrite Hd. cbn. rewrite Hops, Hdir. cbn.
  destruct (Z.eqb_spec cur_n 0); [lia|].
  rewrite Hlk. cbn. rewrite Hcb, Hf. cbn.
  destruct (Z.eqb_spec (s32 e) 0); [done|]. cbn.
  rewrite Hlock.
  rewrite bool_decide_eq_true_2
    by (apply elem_of_union; right; by apply elem_of_singleton).
  cbn. destruct (Z.eqb_spec (s32 e) 0); [done|]. cbn.
  eexists. split; [reflexivity|]. cbn.
  rewrite Hlock. apply set_eq. intros x.
  rewrite elem_of_difference, elem_of_union, elem_of_singleton,
    elem_of_empty. tauto.
Qed.

(** C8, as amended. When the basename of the path (its last component) is
    longer than [NAME_LEN], every component before it resolves, no vnode is
    locked on entry and the path does not end in [/] with [O_CREAT] set,
    [namev_open] returns [-ENAMETOOLONG]; nothing is returned through
    [res_vnode] and no vnode is left locked. *)
Theorem namev_open_basename_too_long
    (st : vfs) (base : Z) (p : string) (oflags mode devid : Z)
    (dirnode : Z) :
  vfs_locked st = ∅ →
  Z.land oflags O_CREAT = 0 ∨ last_char p ≠ Some "/"%char →
  walk st (start_node st base p) (removelast (components p)) = Some dirnode →
  NAME_LEN < Z.of_nat (String.length (basename p)) →
  ∃ st', namev_open base (Some p) oflags mode devid st
           = Ret ((- ENAMETOOLONG, None), st')
    ∧ vfs_locked st' = ∅
    ∧ vfs_vnodes st' = vfs_vnodes st.
Proof.
  intros Hlock Hcreat Hwalk Hlong.
  pose proof NAME_LEN_nonneg as Hnn.
  assert (Hcomp : components p ≠ []).
  { intros He. unfold basename in Hlong. rewrite He in Hlong.
    cbn in Hlong. lia. }
  destruct (namev_dir_walk st base p dirnode Hlock Hcomp Hwalk)
    as (st' & nameb & namelen & Hrun & Hname & Hnl & Hl & Hv).
  assert (Hfirst :
    (if Z.land oflags O_CREAT =? 0 then (kret false : K vfs bool)
     else ends_in_slash (Some p)) st = Ret (false, st)).
  { destruct (Z.eqb_spec (Z.land oflags O_CREAT) 0) as [|Hne];
      [reflexivity|].
    destruct Hcreat as [|Hlast]; [done|].
    destruct p as [|c p']; [done|].
    destruct (last_char_nonempty c p') as (d & Hd).
    unfold ends_in_slash, ptr. kunfold. rewrite Hd.
    destruct (Ascii.eqb_spec d "/") as [->|]; [done | reflexivity]. }
  unfold namev_open. kunfold. rewrite Hfirst. cbn -[namev_dir].
  rewrite Hrun. cbn.
  destruct (Z.ltb_spec NAME_LEN namelen); [|lia].
  unfold vput. kunfold. cbn.
  eexists. split; [reflexivity|]. cbn. split; [exact Hl | exact Hv].
Qed.

End vfs_facts.

(* ===================================================================== *)
(** * Part III: the theorems on the example file system                   *)
(* ===================================================================== *)

Section examples.
Import Vfs Vmmap.

(** C6 on the example: block 77 is pushed into slot 3 of the array. *)
Lemma s5_free_block_push_or_flush_witness :
  ∃ fs', s5_free_block 77 ex_fs = Ret (tt, fs')
    ∧ s5s_nfree (s5f_super fs') = 4
    ∧ s5s_free_blocks (s5f_super fs') !! 3%nat = Some 77.
Proof.
  destruct (s5_free_block_push_or_flush ex_fs 77 (replicate 1024 0))
    as (fs' & Hrun & _ & _ & Hpush & _).
  - reflexivity.
  - discriminate.
  - cbn. lia.
  - reflexivity.
  - reflexivity.
  - exists fs'. split; [exact Hrun|].
    destruct Hpush as (_ & Hslot & Hn & _); [cbn; lia|].
    split; [exact Hn | exact Hslot].
Defined.

(** C10 on the example: freeing the character device (inode 3, device id
    513) makes it the head of the free-inode list and leaves the free-block
    array alone. *)
Lemma s5_free_inode_device_frees_no_block_witness :
  ∃ fs', s5_free_inode 3 ex_fs = Ret (tt, fs')
    ∧ s5s_free_inode (s5f_super fs') = 3
    ∧ s5s_free_blocks (s5f_super fs') = ex_free_blocks
    ∧ s5s_nfree (s5f_super fs') = 3
    ∧ s5f_blocks fs' = ex_blocks.
Proof.
  destruct (s5_free_inode_device_frees_no_block ex_fs 3 ex_chr_inode)
    as (fs' & Hrun & Hhead & _ & Hfree & Hn & Hblocks & _).
  - reflexivity.
  - reflexivity.
  - reflexivity.
  - left. reflexivity.
  - exists fs'. repeat split; assumption.
Defined.

(** C1 on the example: a write to page 0 of the one-page file. *)
Lemma s5fs_get_pframe_write_trips_assertion_witness :
  s5fs_get_pframe 2 0 1 ex_kernel = Panic.
Proof.
  apply (s5fs_get_pframe_write_trips_assertion ex_kernel 2
           (ex_vnode S_IFREG 4096 ex_file_inode) 0 1).
  - reflexivity.
  - reflexivity.
  - discriminate.
Defined.

(** C5 on the example: [mkdir d] in the root of a file system without a
    free inode. *)
Lemma s5fs_mkdir_trips_type_assertion_witness :
  s5s_free_inode (s5f_super (k_s5fs ex_kernel)) = u32 (-1)
  ∧ s5fs_mkdir ex_vget_locked ex_vput_locked 0 "d" 1 ex_kernel = Panic.
Proof.
  split; [reflexivity|].
  apply (s5fs_mkdir_trips_type_assertion ex_vget_locked ex_vput_locked
           ex_kernel 0 (ex_vnode S_IFDIR 96 (ex_dir_inode 0 96 60)) "d" 1).
  - reflexivity.
  - reflexivity.
  - unfold valid_inode_type. cbn. intros [?|[?|[?|?]]]; discriminate.
Defined.

(** With a type tag that [s5_alloc_inode] accepts, the same file system
    answers [-ENOSPC] and is unchanged. *)
Example s5_alloc_inode_enospc_example :
  s5_alloc_inode S5_TYPE_DIR 0 ex_fs = Ret (- ENOSPC, ex_fs).
Proof.
  apply s5_alloc_inode_enospc; [| reflexivity | reflexivity].
  right. left. reflexivity.
Qed.

(** C2 and C3 on the example file (inode 2, one page long). *)
Example s5_write_file_beyond_max :
  s5_write_file 2 (S5_MAX_FILE_SIZE + 1) [104] 1 ex_kernel
  = Ret (-1, ex_kernel).
Proof. reflexivity. Qed.

Example s5_write_file_at_start :
  s5_write_file 2 0 [104] 1 ex_kernel = Ret (-1, ex_kernel).
Proof. reflexivity. Qed.

Example s5_read_file_at_eof :
  s5_read_file 2 4096 [] 16 ex_kernel = Ret ((-1, []), ex_kernel).
Proof. reflexivity. Qed.

(** C7 on the example: directory [d] (inode 1) holds three entries. *)
Example s5fs_rmdir_nonempty :
  s5fs_rmdir ex_vget_locked ex_vput_locked 0 "d" 1 ex_kernel
  = Ret (-1, ex_kernel).
Proof. reflexivity. Qed.

(** C4 on the example: five bytes are read through descriptor 0 and the
    file position is still 0. *)
Lemma do_read_leaves_position_witness :
  ∃ st', do_read 0 [] 16 ex_vfs = Ret ((5, [104; 101; 108; 108; 111]), st')
    ∧ vfs_files st' !! 10 = Some (mk_file 2 1 0 1).
Proof.
  destruct (do_read_leaves_position ex_vfs 0 10 (mk_file 2 1 0 1)
              (mk_vnode S_IFREG 5 (Some (mk_ops None None (Some ex_hello_read))))
              (mk_ops None None (Some ex_hello_read)) ex_hello_read
              [] 16 5 [104; 101; 108; 108; 111])
    as (st' & Hrun & Hfile & _).
  - cbn. lia.
  - reflexivity.
  - reflexivity.
  - discriminate.
  - reflexivity.
  - reflexivity.
  - cbn. apply not_elem_of_empty.
  - reflexivity.
  - reflexivity.
  - reflexivity.
  - lia.
  - exists st'. split; assumption.
Defined.

(** C9 on the example: with only the top page of user memory mapped, a
    request for two pages is answered with the range that contains it. *)
Lemma vmmap_find_range_hilo_returns_mapped_range_witness :
  vmmap_find_range ex_top_page 2 VMMAP_DIR_HILO = 786430
  ∧ mapped ex_top_page 786431.
Proof.
  destruct (vmmap_find_range_hilo_returns_mapped_range ex_top_page
              (mk_vmarea 786431 786432 0 3 2) 2) as (Hret & _).
  - reflexivity.
  - zdecide.
  - zdecide.
  - zdecide.
  - split; [exact Hret|].
    exists (mk_vmarea 786431 786432 0 3 2). split.
    + apply list_elem_of_here.
    + zdecide.
Defined.

(** With all of user memory mapped the answer is a page above user memory,
    not -1. *)
Example vmmap_find_range_hilo_full :
  vmmap_find_range ex_all_mapped 1 VMMAP_DIR_HILO = 786433.
Proof. reflexivity. Qed.

(** C8 as stated fails: the first component of the path has 29 characters,
    one more than [NAME_LEN], and the root directory has no such entry;
    [namev_open] returns what the lookup returned, [-ENOENT]. *)
Lemma namev_open_long_component_counterexample :
  ex_long_name ∈ components (ex_long_name +:+ "/b")
  ∧ NAME_LEN < Z.of_nat (String.length ex_long_name)
  ∧ ∃ st', namev_open 0 (Some (ex_long_name +:+ "/b")) 0 0 0 ex_vfs
             = Ret ((- ENOENT, None), st')
  ∧ - ENOENT ≠ - ENAMETOOLONG.
Proof.
  split; [apply list_elem_of_here|].
  split; [zdecide|].
  eexists. split; [vm_compute; reflexivity | discriminate].
Qed.

(** C8 as amended, on the example: the basename has 29 characters and its
    directory [/tmp] resolves. *)
Lemma namev_open_basename_too_long_witness :
  ∃ st', namev_open 0 (Some ("/tmp/" +:+ ex_long_name)) 0 0 0 ex_vfs
           = Ret ((- ENAMETOOLONG, None), st')
    ∧ vfs_locked st' = ∅.
Proof.
  destruct (namev_open_basename_too_long ex_vfs 0 ("/tmp/" +:+ ex_long_name)
              0 0 0 1) as (st' & Hrun & Hl & _).
  - reflexivity.
  - left. reflexivity.
  - reflexivity.
  - zdecide.
  - exists st'. split; assumption.
Defined.

End examples.

(* ===================================================================== *)
(** * Part IV: further properties of the code                             *)
(* ===================================================================== *)

(** ** Free lists of S5FS *)

Section s5_free_lists.
Context {H : S5Header}.

(** The push case of [s5_free_block], as a state. *)
Lemma s5_free_block_pushed (fs : s5fs) (b : Z) :
  s5f_mutex fs = false →
  b ≠ 0 →
  0 ≤ s5s_nfree (s5f_super fs) < S5_NBLKS_PER_FNODE - 1 →
  length (s5s_free_blocks (s5f_super fs)) = Z.to_nat S5_NBLKS_PER_FNODE →
  is_Some (s5f_blocks fs !! b) →
  s5_free_block b fs = Ret (tt, pushed [b] fs).
Proof.
  intros Hmx Hb Hn Hlen [page Hpg].
  pose proof S5_NBLKS_PER_FNODE_range as HN.
  unfold s5_free_block, s5_lock_super, s5_unlock_super, s5_get_disk_block,
    s5_release_disk_block.
  kunfold. cbn. rewrite Hmx. cbn.
  destruct (Z.eqb_spec b 0) as [|_]; [done|]. cbn.
  destruct (Z.ltb_spec (s5s_nfree (s5f_super fs)) S5_NBLKS_PER_FNODE);
    [|lia]. cbn.
  rewrite Hpg. cbn.
  destruct (Z.eqb_spec (s5s_nfree (s5f_super fs)) (S5_NBLKS_PER_FNODE - 1));
    [lia|]. cbn.
  do 2 f_equal. unfold pushed. cbn.
  destruct fs as [s mx inodes blocks dirty]; cbn in *. subst mx.
  assert (Hfb : <[Z.to_nat (s5s_nfree s) := b]> (s5s_free_blocks s)
                = take (Z.to_nat (s5s_nfree s)) (s5s_free_blocks s)
                  ++ b :: drop (Z.to_nat (s5s_nfree s) + 1)
                               (s5s_free_blocks s)).
  { rewrite insert_take_drop by lia. do 3 f_equal. lia. }
  assert (Hu : u32 (s5s_nfree s + 1) = s5s_nfree s + Z.of_nat 1).
  { rewrite u32_small by lia. lia. }
  assert (Hd : (dirty ∪ {[b]}) ∖ {[b]} = dirty ∖ ({[b]} ∪ ∅)).
  { apply set_eq. intros x.
    rewrite !elem_of_difference, !elem_of_union, elem_of_singleton,
      elem_of_empty.
    tauto. }
  unfold set_mutex, set_dirty, set_super, super_set_free_blocks,
    super_set_nfree.
  cbn. by rewrite Hfb, Hu, Hd.
Qed.

Lemma pushed_nil (fs : s5fs) :
  0 ≤ s5s_nfree (s5f_super fs) → pushed [] fs = fs.
Proof.
  intros Hn. destruct fs as [s mx inodes blocks dirty].
  destruct s as [mg ver fi fb nf root num]. unfold pushed. cbn in *.
  rewrite Nat.add_0_r, take_drop, Z.add_0_r.
  by rewrite difference_empty_L.
Qed.

Lemma pushed_length (bs : list Z) (fs : s5fs) :
  (Z.to_nat (s5s_nfree (s5f_super fs)) + length bs
   ≤ length (s5s_free_blocks (s5f_super fs)))%nat →
  length (s5s_free_blocks (s5f_super (pushed bs fs)))
  = length (s5s_free_blocks (s5f_super fs)).
Proof.
  intros Hn. unfold pushed. cbn.
  rewrite !length_app, length_take, length_drop. lia.
Qed.

Lemma pushed_cons (b : Z) (bs : list Z) (fs : s5fs) :
  0 ≤ s5s_nfree (s5f_super fs) →
  (Z.to_nat (s5s_nfree (s5f_super fs))
   < length (s5s_free_blocks (s5f_super fs)))%nat →
  pushed bs (pushed [b] fs) = pushed (b :: bs) fs.
Proof.
  intros Hn Hlen. destruct fs as [s mx inodes blocks dirty].
  destruct s as [mg ver fi fb nf root num]. unfold pushed. cbn in *.
  assert (Hfb :
    take (Z.to_nat (nf + 1)) (take (Z.to_nat nf) fb
                              ++ b :: drop (Z.to_nat nf + 1) fb)
    ++ bs ++ drop (Z.to_nat (nf + 1) + length bs)
                  (take (Z.to_nat nf) fb ++ b :: drop (Z.to_nat nf + 1) fb)
    = take (Z.to_nat nf) fb
      ++ b :: bs ++ drop (Z.to_nat nf + S (length bs)) fb).
  { replace (Z.to_nat (nf + 1)) with (S (Z.to_nat nf)) by lia.
    assert (Hl : length (take (Z.to_nat nf) fb ++ [b]) = S (Z.to_nat nf)).
    { rewrite length_app, length_take. cbn. lia. }
    replace (take (Z.to_nat nf) fb ++ b :: drop (Z.to_nat nf + 1) fb)
      with ((take (Z.to_nat nf) fb ++ [b]) ++ drop (Z.to_nat nf + 1) fb)
      by (by rewrite <- app_assoc).
    rewrite take_app_length' by (by rewrite Hl).
    rewrite <- Hl. rewrite drop_app_add, drop_drop.
    rewrite <- app_assoc. cbn.
    by replace (Z.to_nat nf + 1 + length bs)%nat
      with (Z.to_nat nf + S (length bs))%nat by lia. }
  assert (Hd : dirty ∖ ({[b]} ∪ ∅) ∖ list_to_set bs
               = dirty ∖ ({[b]} ∪ list_to_set bs)).
  { apply set_eq. intros x.
    rewrite !elem_of_difference, !elem_of_union, elem_of_empty. tauto. }
  unfold super_set_nfree, super_set_free_blocks. cbn.
  change (Z.of_nat 1) with 1. rewrite Hfb, Hd.
  by replace (nf + 1 + Z.of_nat (length bs))
    with (nf + Z.of_nat (S (length bs))) by lia.
Qed.

(** Freeing the entries of a block-pointer array, with room in the
    superblock's array for those that are set: they are pushed in the order
    of the array. *)
Lemma for_each_free_pushed (l : list Z) :
  ∀ fs : s5fs,
  s5f_mutex fs = false →
  0 ≤ s5s_nfree (s5f_super fs) →
  s5s_nfree (s5f_super fs) + Z.of_nat (length (set_blocks l))
    ≤ S5_NBLKS_PER_FNODE - 1 →
  length (s5s_free_blocks (s5f_super fs)) = Z.to_nat S5_NBLKS_PER_FNODE →
  Forall (λ b, is_Some (s5f_blocks fs !! b)) (set_blocks l) →
  for_each l free_if_set fs = Ret (tt, pushed (set_blocks l) fs).
Proof.
  pose proof S5_NBLKS_PER_FNODE_range as HN.
  induction l as [|b l IH]; intros fs Hmx Hn Hroom Hlen Hall.
  - cbn. by rewrite pushed_nil.
  - cbn [for_each]. unfold kbind, free_if_set at 1.
    destruct (Z.eqb_spec b 0) as [->|Hb].
    + cbn. unfold set_blocks in *. rewrite filter_cons_False in * by tauto.
      by apply IH.
    + unfold set_blocks in *. rewrite filter_cons_True in * by assumption.
      cbn [length] in Hroom. apply Forall_cons in Hall as [Hhere Hall].
      rewrite s5_free_block_pushed by (try done; lia).
      rewrite IH.
      * rewrite pushed_cons; [reflexivity | assumption | lia].
      * exact Hmx.
      * cbn. lia.
      * cbn. lia.
      * rewrite pushed_length; [assumption | cbn; lia].
      * exact Hall.
Qed.

(** [s5_free_inode] on an inode without indirect block: the inode goes to
    the head of the free-inode list, then its direct blocks are pushed. *)
Lemma s5_free_inode_direct_only (fs : s5fs) (ino : Z) (inode : s5_inode) :
  s5f_mutex fs = false →
  s5f_inodes fs !! ino = Some inode →
  s5_number inode = ino →
  direct_only inode →
  0 ≤ s5s_nfree (s5f_super fs) →
  s5s_nfree (s5f_super fs) + Z.of_nat (length (direct_blocks_of inode))
    ≤ S5_NBLKS_PER_FNODE - 1 →
  length (s5s_free_blocks (s5f_super fs)) = Z.to_nat S5_NBLKS_PER_FNODE →
  Forall (λ b, is_Some (s5f_blocks fs !! b)) (direct_blocks_of inode) →
  s5_free_inode ino fs
  = Ret (tt, pushed (direct_blocks_of inode) (inode_freed ino inode fs)).
Proof.
  intros Hmx Hino Hnum Hty Hn Hroom Hlen Hall.
  destruct S5_TYPE_device_tags as (Hcd & Hcr & Hbd & Hbr).
  assert (Hfs1 :
    set_mutex false
      (set_super (super_set_free_inode ino)
         (set_inode ino
            (mk_inode (s5s_free_inode (s5f_super fs)) ino
               S5_TYPE_FREE (s5_linkcount inode) (s5_direct_blocks inode)
               (s5_indirect_block inode))
            (set_dirty (λ d, d ∪ {[S5_INODE_BLOCK ino]}) (set_mutex true fs))))
    = inode_freed ino inode fs).
  { destruct fs; cbn in *. subst. reflexivity. }
  unfold s5_free_inode, s5_lock_super, s5_unlock_super, s5_get_inode,
    s5_release_inode, s5_release_disk_block.
  kunfold. cbn. rewrite Hmx. cbn. rewrite Hino. cbn.
  rewrite Hnum, Z.eqb_refl. cbn.
  unfold direct_blocks_of in *.
  destruct ((s5_type inode =? S5_TYPE_DATA) || (s5_type inode =? S5_TYPE_DIR))
    eqn:Ety; cbn.
  - assert (Hind : s5_indirect_block inode = 0).
    { destruct Hty as [Hc | [Hb | [_ Hi]]]; [| |exact Hi];
        apply orb_true_iff in Ety; rewrite !Z.eqb_eq in Ety;
        destruct Ety; congruence. }
    rewrite !Hnum, Hfs1.
    rewrite for_each_free_pushed by (try assumption; cbn; assumption).
    by rewrite Hind.
  - assert (Hassert :
      (s5_type inode =? S5_TYPE_BLK) || (s5_type inode =? S5_TYPE_CHR) = true).
    { apply orb_false_iff in Ety. rewrite !Z.eqb_neq in Ety.
      apply orb_true_iff. rewrite !Z.eqb_eq.
      destruct Hty as [Hc | [Hb | [[Hd | Hd] _]]]; tauto. }
    rewrite Hassert. cbn. rewrite !Hnum, Hfs1, for_each_free_zeroes. cbn.
    rewrite pushed_nil by (cbn; assumption). reflexivity.
Qed.

Lemma set_blocks_zeroes (n : nat) : set_blocks (replicate n 0) = [].
Proof.
  induction n as [|n IH]; [reflexivity|].
  change (replicate (S n) 0) with (0 :: replicate n 0).
  unfold set_blocks in *. by rewrite filter_cons_False by tauto.
Qed.

(** X1. Freeing the inode of a file or directory that has direct blocks
    only, with room for them in the superblock's array: the inode becomes
    the head of the free-inode list and the direct blocks that are set are
    pushed on the free-block array in the order of their slots; no disk
    block changes. *)
Theorem s5_free_inode_returns_direct_blocks
    (fs : s5fs) (ino : Z) (inode : s5_inode) :
  s5f_mutex fs = false →
  s5f_inodes fs !! ino = Some inode →
  s5_number inode = ino →
  s5_type inode = S5_TYPE_DATA ∨ s5_type inode = S5_TYPE_DIR →
  s5_indirect_block inode = 0 →
  0 ≤ s5s_nfree (s5f_super fs) →
  s5s_nfree (s5f_super fs)
    + Z.of_nat (length (set_blocks (take S5_NDIRECT_BLOCKS
                                      (s5_direct_blocks inode))))
    ≤ S5_NBLKS_PER_FNODE - 1 →
  length (s5s_free_blocks (s5f_super fs)) = Z.to_nat S5_NBLKS_PER_FNODE →
  Forall (λ b, is_Some (s5f_blocks fs !! b))
         (set_blocks (take S5_NDIRECT_BLOCKS (s5_direct_blocks inode))) →
  ∃ fs', s5_free_inode ino fs = Ret (tt, fs')
    ∧ s5s_free_inode (s5f_super fs') = ino
    ∧ s5s_nfree (s5f_super fs')
      = s5s_nfree (s5f_super fs)
        + Z.of_nat (length (set_blocks (take S5_NDIRECT_BLOCKS
                                          (s5_direct_blocks inode))))
    ∧ s5s_free_blocks (s5f_super fs')
      = take (Z.to_nat (s5s_nfree (s5f_super fs)))
             (s5s_free_blocks (s5f_super fs))
        ++ set_blocks (take S5_NDIRECT_BLOCKS (s5_direct_blocks inode))
        ++ drop (Z.to_nat (s5s_nfree (s5f_super fs))
                 + length (set_blocks (take S5_NDIRECT_BLOCKS
                                         (s5_direct_blocks inode))))
                (s5s_free_blocks (s5f_super fs))
    ∧ s5f_blocks fs' = s5f_blocks fs
    ∧ s5f_mutex fs' = false.
Proof.
  intros Hmx Hino Hnum Hty Hind Hn Hroom Hlen Hall.
  assert (Hbs : direct_blocks_of inode
                = set_blocks (take S5_NDIRECT_BLOCKS (s5_direct_blocks inode))).
  { unfold direct_blocks_of.
    destruct Hty as [-> | ->]; rewrite Z.eqb_refl;
      [reflexivity | by rewrite orb_true_r]. }
  exists (pushed (direct_blocks_of inode) (inode_freed ino inode fs)). split.
  - apply s5_free_inode_direct_only; try assumption.
    + right. right. by split.
    + by rewrite Hbs.
    + by rewrite Hbs.
  - rewrite Hbs. cbn. done.
Qed.

(** X2. Free then allocate: when an inode without indirect block is freed
    and an inode is allocated next, the allocation returns that very inode,
    initialised for its new type, and the head of the free-inode list is
    again what it was before the two calls. *)
Theorem s5_free_then_alloc_inode
    (fs : s5fs) (ino : Z) (inode : s5_inode) (type devid : Z) :
  s5f_mutex fs = false →
  s5f_inodes fs !! ino = Some inode →
  s5_number inode = ino →
  direct_only inode →
  0 ≤ s5s_nfree (s5f_super fs) →
  s5s_nfree (s5f_super fs) + Z.of_nat (length (direct_blocks_of inode))
    ≤ S5_NBLKS_PER_FNODE - 1 →
  length (s5s_free_blocks (s5f_super fs)) = Z.to_nat S5_NBLKS_PER_FNODE →
  Forall (λ b, is_Some (s5f_blocks fs !! b)) (direct_blocks_of inode) →
  valid_inode_type type →
  ino ≠ u32 (-1) →
  s5s_free_inode (s5f_super fs) ≠ ino →
  ∃ fs1 fs2,
    s5_free_inode ino fs = Ret (tt, fs1)
    ∧ s5_alloc_inode type devid fs1 = Ret (ino, fs2)
    ∧ s5s_free_inode (s5f_super fs2) = s5s_free_inode (s5f_super fs)
    ∧ s5f_inodes fs2
      = <[ino := mk_inode 0 ino type 0 (replicate S5_NDIRECT_BLOCKS 0)
                   (if (S5_TYPE_CHR =? type) || (S5_TYPE_BLK =? type)
                    then devid else 0)]> (s5f_inodes fs)
    ∧ s5s_nfree (s5f_super fs2)
      = s5s_nfree (s5f_super fs)
        + Z.of_nat (length (direct_blocks_of inode)).
Proof.
  intros Hmx Hino Hnum Hdo Hn Hroom Hlen Hall Hty Hino_ok Hhead.
  pose proof (s5_free_inode_direct_only fs ino inode Hmx Hino Hnum Hdo Hn
                Hroom Hlen Hall) as Hfree.
  set (fs1 := pushed (direct_blocks_of inode) (inode_freed ino inode fs))
    in *.
  destruct (s5_alloc_inode_pop type devid fs1
              (mk_inode (s5s_free_inode (s5f_super fs)) ino S5_TYPE_FREE
                 (s5_linkcount inode) (s5_direct_blocks inode)
                 (s5_indirect_block inode)))
    as (fs2 & Hrun & Hhd & Hin & _ & Hnf & _).
  - exact Hty.
  - exact Hmx.
  - exact Hino_ok.
  - cbn. apply lookup_insert_eq.
  - reflexivity.
  - exact Hhead.
  - exists fs1, fs2. split; [exact Hfree|]. split; [exact Hrun|].
    split; [exact Hhd|]. split; [|exact Hnf].
    rewrite Hin. cbn. by rewrite insert_insert_eq.
Qed.

(** X3. Allocate then free: the inode popped from the free-inode list and
    freed again is the head of the list as before, with the link to the
    next free inode it had; the free-block array is not touched. *)
Theorem s5_alloc_then_free_inode
    (fs : s5fs) (inode : s5_inode) (type devid : Z) :
  valid_inode_type type →
  s5f_mutex fs = false →
  s5s_free_inode (s5f_super fs) ≠ u32 (-1) →
  s5f_inodes fs !! s5s_free_inode (s5f_super fs) = Some inode →
  s5_number inode = s5s_free_inode (s5f_super fs) →
  s5_un inode ≠ s5_number inode →
  0 ≤ s5s_nfree (s5f_super fs) ≤ S5_NBLKS_PER_FNODE - 1 →
  length (s5s_free_blocks (s5f_super fs)) = Z.to_nat S5_NBLKS_PER_FNODE →
  ∃ fs1 fs2,
    s5_alloc_inode type devid fs = Ret (s5s_free_inode (s5f_super fs), fs1)
    ∧ s5_free_inode (s5s_free_inode (s5f_super fs)) fs1 = Ret (tt, fs2)
    ∧ s5s_free_inode (s5f_super fs2) = s5s_free_inode (s5f_super fs)
    ∧ (∃ i, s5f_inodes fs2 !! s5s_free_inode (s5f_super fs) = Some i
         ∧ s5_un i = s5_un inode
         ∧ s5_number i = s5_number inode
         ∧ s5_type i = S5_TYPE_FREE)
    ∧ (∀ j, j ≠ s5s_free_inode (s5f_super fs) →
         s5f_inodes fs2 !! j = s5f_inodes fs !! j)
    ∧ s5s_free_blocks (s5f_super fs2) = s5s_free_blocks (s5f_super fs)
    ∧ s5s_nfree (s5f_super fs2) = s5s_nfree (s5f_super fs)
    ∧ s5f_blocks fs2 = s5f_blocks fs.
Proof.
  intros Hty Hmx Hhead Hino Hnum Hnext Hn Hlen.
  destruct (s5_alloc_inode_pop type devid fs inode Hty Hmx Hhead Hino Hnum
              Hnext) as (fs1 & Hrun & Hhd & Hin & Hfb & Hnf & Hbl & Hmx1).
  set (h := s5s_free_inode (s5f_super fs)) in *.
  assert (Hnone : direct_blocks_of (inode_init type devid inode) = []).
  { unfold direct_blocks_of, inode_init. cbn.
    rewrite firstn_all2 by (rewrite length_replicate; lia).
    rewrite set_blocks_zeroes. by destruct (_ || _). }
  assert (Hdo : direct_only (inode_init type devid inode)).
  { unfold direct_only, inode_init. cbn.
    destruct Hty as [-> | [-> | [-> | ->]]]; [| |tauto|tauto].
    - right. right. split; [by left|].
      destruct S5_TYPE_device_tags as (Hcd & Hcr & Hbd & Hbr).
      destruct (Z.eqb_spec S5_TYPE_CHR S5_TYPE_DATA); [done|].
      destruct (Z.eqb_spec S5_TYPE_BLK S5_TYPE_DATA); done.
    - right. right. split; [by right|].
      destruct S5_TYPE_device_tags as (Hcd & Hcr & Hbd & Hbr).
      destruct (Z.eqb_spec S5_TYPE_CHR S5_TYPE_DIR); [done|].
      destruct (Z.eqb_spec S5_TYPE_BLK S5_TYPE_DIR); done. }
  pose proof (s5_free_inode_direct_only fs1 h (inode_init type devid inode))
    as Hfree.
  rewrite Hnone in Hfree. rewrite Hin, Hnf, Hfb in Hfree.
  rewrite pushed_nil in Hfree by (cbn; rewrite Hnf; lia).
  exists fs1. eexists. split; [exact Hrun|]. split.
  - apply Hfree; try done.
    + apply lookup_insert_eq.
    + lia.
    + cbn. lia.
  - cbn. rewrite Hhd, Hin, Hfb, Hnf, Hbl. split; [reflexivity|]. split.
    + eexists. split; [apply lookup_insert_eq|]. cbn. done.
    + split; [|done]. intros j Hj.
      by rewrite !lookup_insert_ne.
Qed.

End s5_free_lists.

(** ** The superblock check as an invariant of the inode allocator *)

Section s5_super_facts.
Context {H : S5Header} {M : S5SuperHeader}.

Lemma s5_check_super_header (s s' : s5_super) :
  super_header s' = super_header s → s5_check_super s' = s5_check_super s.
Proof.
  unfold super_header, s5_check_super. intros [= -> -> -> -> ->]. reflexivity.
Qed.

(** [s5_free_block] writes the free-block array and its count only. *)
Lemma s5_free_block_super (b : Z) (fs fs' : s5fs) :
  s5_free_block b fs = Ret (tt, fs') →
  super_header (s5f_super fs') = super_header (s5f_super fs).
Proof.
  unfold s5_free_block, s5_lock_super, s5_unlock_super, s5_get_disk_block,
    s5_release_disk_block.
  kunfold. cbn.
  destruct (s5f_mutex fs); [discriminate|]. cbn.
  destruct (b =? 0); cbn; [discriminate|].
  destruct (s5s_nfree (s5f_super fs) <? S5_NBLKS_PER_FNODE); cbn;
    [|discriminate].
  destruct (s5f_blocks fs !! b); cbn; [|discriminate].
  destruct (s5s_nfree (s5f_super fs) =? S5_NBLKS_PER_FNODE - 1); cbn;
    intros [= <-]; reflexivity.
Qed.

Lemma for_each_free_super (l : list Z) :
  ∀ fs fs', for_each l free_if_set fs = Ret (tt, fs') →
    super_header (s5f_super fs') = super_header (s5f_super fs).
Proof.
  induction l as [|b l IH]; intros fs fs'; cbn.
  - by intros [= <-].
  - unfold kbind, free_if_set at 1.
    destruct (b =? 0); cbn; [apply IH|].
    destruct (s5_free_block b fs) as [[[] fs1]| | |] eqn:E; try discriminate.
    intros Hrest. apply IH in Hrest. apply s5_free_block_super in E.
    congruence.
Qed.

Lemma s5_check_super_free_inode (s : s5_super) (ino : Z) :
  s5_check_super s = 0 →
  ino < s5s_num_inodes s →
  s5_check_super (super_set_free_inode ino s) = 0.
Proof.
  unfold s5_check_super. cbn. intros Hok Hino.
  destruct (s5s_magic s =? S5_MAGIC); [|done].
  destruct (Z.ltb_spec ino (s5s_num_inodes s)); [|lia].
  cbn. destruct ((_ <? _) || _); done.
Qed.

(** X4. Whatever blocks it frees, a run of [s5_free_inode] that returns
    leaves the superblock one that [s5_check_super] accepts, when it was
    one and the inode number is below the number of inodes. *)
Theorem s5_free_inode_keeps_super_valid (fs fs' : s5fs) (ino : Z) :
  s5_check_super (s5f_super fs) = 0 →
  ino < s5s_num_inodes (s5f_super fs) →
  s5_free_inode ino fs = Ret (tt, fs') →
  s5_check_super (s5f_super fs') = 0.
Proof.
  intros Hok Hino.
  pose proof (s5_check_super_free_inode _ _ Hok Hino) as Hfs1.
  unfold s5_free_inode, s5_lock_super, s5_unlock_super, s5_get_inode,
    s5_release_inode, s5_release_disk_block, s5_get_disk_block.
  kunfold. cbn.
  destruct (s5f_mutex fs); [discriminate|]. cbn.
  destruct (s5f_inodes fs !! ino) as [inode|]; cbn; [|discriminate].
  destruct (Z.eqb_spec (s5_number inode) ino) as [Hnum|]; cbn; [|discriminate].
  rewrite Hnum.
  destruct ((s5_type inode =? S5_TYPE_DATA) || (s5_type inode =? S5_TYPE_DIR));
    cbn.
  - destruct (for_each _ free_if_set _) as [[[] fs2]| | |] eqn:E1;
      try discriminate.
    apply for_each_free_super in E1. cbn in E1.
    destruct (s5_indirect_block inode =? 0).
    { intros [= <-]. by rewrite (s5_check_super_header _ _ E1). }
    destruct (s5f_blocks fs2 !! s5_indirect_block inode) as [pf|]; cbn;
      [|discriminate].
    destruct (S5_BLOCK_SIZE =? PAGE_SIZE); cbn; [|discriminate].
    destruct (for_each _ free_if_set fs2) as [[[] fs3]| | |] eqn:E2;
      try discriminate.
    apply for_each_free_super in E2.
    intros E3. apply s5_free_block_super in E3.
    rewrite (s5_check_super_header
               (super_set_free_inode ino (s5f_super fs)) (s5f_super fs'));
      [exact Hfs1|].
    congruence.
  - destruct ((s5_type inode =? S5_TYPE_BLK) || (s5_type inode =? S5_TYPE_CHR));
      cbn; [|discriminate].
    rewrite for_each_free_zeroes. cbn. intros [= <-]. exact Hfs1.
Qed.

(** A run of [s5_alloc_inode] that returns leaves the superblock one
    that [s5_check_super] accepts, when it was one and the link of the
    inode at the head of the free list is an inode number or the end
    marker. *)
Theorem s5_alloc_inode_keeps_super_valid
    (fs fs' : s5fs) (type devid r : Z) :
  s5_check_super (s5f_super fs) = 0 →
  (∀ inode, s5f_inodes fs !! s5s_free_inode (s5f_super fs) = Some inode →
     s5_un inode < s5s_num_inodes (s5f_super fs) ∨ s5_un inode = u32 (-1)) →
  s5_alloc_inode type devid fs = Ret (r, fs') →
  s5_check_super (s5f_super fs') = 0.
Proof.
  intros Hok Hlink.
  unfold s5_alloc_inode, s5_lock_super, s5_unlock_super, s5_get_inode,
    s5_release_inode, s5_release_disk_block.
  kunfold.
  destruct ((S5_TYPE_DATA =? type) || (S5_TYPE_DIR =? type)
            || (S5_TYPE_CHR =? type) || (S5_TYPE_BLK =? type));
    cbn; [|discriminate].
  destruct (s5f_mutex fs); [discriminate|]. cbn.
  destruct (s5s_free_inode (s5f_super fs) =? u32 (-1)); cbn.
  { intros [= _ <-]. exact Hok. }
  destruct (s5f_inodes fs !! s5s_free_inode (s5f_super fs)) as [inode|] eqn:Ei;
    cbn; [|discriminate].
  destruct (s5_number inode =? s5s_free_inode (s5f_super fs)); cbn;
    [|discriminate].
  destruct (s5_un inode =? s5_number inode); cbn; [discriminate|].
  intros [= _ <-]. cbn.
  revert Hok. unfold s5_check_super. cbn.
  destruct (s5s_magic (s5f_super fs) =? S5_MAGIC); [|done].
  intros Hok.
  assert (Hl : (s5_un inode <? s5s_num_inodes (s5f_super fs))
               || (s5_un inode =? u32 (-1)) = true).
  { apply orb_true_iff. rewrite Z.ltb_lt, Z.eqb_eq. by apply Hlink. }
  rewrite Hl. cbn.
  destruct ((_ <? _) || _); [exact Hok|].
  cbn in Hok. done.
Qed.

End s5_super_facts.

(** ** [s5_remove_blocks] and [s5fs_get_pframe] *)

Section s5_node_blocks.
Context {H : S5Header}.

(** X6. [s5_remove_blocks] on a node that has direct blocks only, with room
    for them in the superblock's array: the direct blocks that are set are
    pushed on the free-block array in the order of their slots, every direct
    slot of the node's inode is cleared, and no other vnode changes. *)
Theorem s5_remove_blocks_direct (k : kernel) (sn : Z) (v : vnode) :
  k_vnodes k !! sn = Some v →
  s5f_mutex (k_s5fs k) = false →
  s5_indirect_block (sn_inode v) = 0 →
  0 ≤ s5s_nfree (s5f_super (k_s5fs k)) →
  s5s_nfree (s5f_super (k_s5fs k))
    + Z.of_nat (length (set_blocks (take S5_NDIRECT_BLOCKS
                                      (s5_direct_blocks (sn_inode v)))))
    ≤ S5_NBLKS_PER_FNODE - 1 →
  length (s5s_free_blocks (s5f_super (k_s5fs k)))
    = Z.to_nat S5_NBLKS_PER_FNODE →
  Forall (λ b, is_Some (s5f_blocks (k_s5fs k) !! b))
         (set_blocks (take S5_NDIRECT_BLOCKS (s5_direct_blocks (sn_inode v)))) →
  ∃ k', s5_remove_blocks sn k = Ret (tt, k')
    ∧ k_s5fs k'
      = pushed (set_blocks (take S5_NDIRECT_BLOCKS
                              (s5_direct_blocks (sn_inode v))))
               (k_s5fs k)
    ∧ (∃ v', k_vnodes k' !! sn = Some v'
         ∧ s5_direct_blocks (sn_inode v') = replicate S5_NDIRECT_BLOCKS 0
         ∧ s5_indirect_block (sn_inode v') = 0
         ∧ set_blocks (s5_direct_blocks (sn_inode v')) = [])
    ∧ (∀ vn, vn ≠ sn → k_vnodes k' !! vn = k_vnodes k !! vn).
Proof.
  intros Hv Hmx Hind Hn Hroom Hlen Hall.
  unfold s5_remove_blocks, sn_update_inode, vnode_deref, on_fs. kunfold.
  rewrite Hv. cbn.
  rewrite for_each_free_pushed by assumption.
  cbn. rewrite Hv. cbn. rewrite Hind. cbn.
  eexists. split; [reflexivity|]. cbn. split; [reflexivity|]. split.
  - eexists. split; [apply lookup_insert_eq|]. cbn.
    split; [reflexivity|]. split; [reflexivity|]. apply set_blocks_zeroes.
  - intros vn Hne. by rewrite lookup_insert_ne.
Qed.


(** *** [s5fs_mknod] *)

Lemma land_le (a b : Z) : 0 ≤ a → Z.land a b ≤ a.
Proof.
  intros Ha.
  assert (Hd : Z.ldiff (Z.land a b) a = 0).
  { apply Z.bits_inj'. intros n Hn.
    rewrite Z.ldiff_spec, Z.land_spec, Z.bits_0.
    by destruct (Z.testbit a n), (Z.testbit b n). }
  pose proof (Z.sub_nocarry_ldiff a (Z.land a b) Hd) as Hs.
  assert (0 ≤ Z.ldiff a (Z.land a b)) by (apply Z.ldiff_nonneg; by left).
  lia.
Qed.

(** A mode that passes one of the three tests of [s5fs_mknod] is, as a
    [uint16_t], at least [0x100]. *)
Lemma supported_mode_u16 (mode : Z) :
  S_ISCHR mode || S_ISBLK mode || S_ISREG mode = true → 0x100 ≤ u16 mode.
Proof.
  unfold S_ISCHR, S_ISBLK, S_ISREG, _S_TYPE, S_IFCHR, S_IFBLK, S_IFREG, u16.
  rewrite !orb_true_iff, !Z.eqb_eq. intros Hm.
  assert (Hl : Z.land (mode mod 2 ^ 16) 0xFF00 = Z.land mode 0xFF00).
  { rewrite <- (Z.land_ones mode 16) by lia.
    by rewrite <- Z.land_assoc. }
  assert (Hle : Z.land (mode mod 2 ^ 16) 0xFF00 ≤ mode mod 2 ^ 16).
  { apply land_le. apply Z.mod_pos_bound. lia. }
  lia.
Qed.

(** X5. [s5fs_mknod] never makes a node.  A mode that is none of
    character device, block device and regular file gets [-ENOTSUP] and
    nothing changes.  For the three supported modes the call of
    [s5_alloc_inode] is passed the mode and not the S5 type chosen from it;
    the S5 type tags being below [0x100], no such mode is one of them and
    the opening assertion of [s5_alloc_inode] fails, before the vnode cache
    is asked for anything. *)
Theorem s5fs_mknod_never_creates
    (vget : Z → K kernel (option Z)) (vput : Z → K kernel unit)
    (dir : Z) (name : string) (namelen mode devid : Z) (k : kernel) :
  S5_TYPE_DATA < 0x100 → S5_TYPE_DIR < 0x100 →
  S5_TYPE_CHR < 0x100 → S5_TYPE_BLK < 0x100 →
  s5fs_mknod vget vput dir name namelen mode devid k
  = if S_ISCHR mode || S_ISBLK mode || S_ISREG mode
    then Panic else Ret ((- ENOTSUP, None), k).
Proof.
  intros Hdata Hdir Hchr Hblk. unfold s5fs_mknod.
  destruct (S_ISCHR mode || S_ISBLK mode || S_ISREG mode) eqn:Hm;
    [|reflexivity].
  apply supported_mode_u16 in Hm.
  cbn. unfold on_fs. kunfold.
  rewrite s5_alloc_inode_bad_type; [reflexivity|].
  unfold valid_inode_type. lia.
Qed.

End s5_node_blocks.

(** ** The address-space map: insertion, lookup, the ascending search *)

Section vmmap_ops_facts.
Import Vmmap VmmapOps.
Context {M : VmHeader}.

Lemma sorted_areas_cons (a : vmarea) (l : list vmarea) :
  sorted_areas (a :: l) ↔
  vma_start a < vma_end a ∧ below_first (vma_end a) l ∧ sorted_areas l.
Proof. destruct l; reflexivity. Qed.

(** In a sorted map every area after the first starts at or above the end
    of the first. *)
Lemma sorted_areas_above (a : vmarea) (l : list vmarea) :
  sorted_areas (a :: l) → Forall (λ b, vma_end a ≤ vma_start b) l.
Proof.
  revert a. induction l as [|b l IH]; intros a Hs; [constructor|].
  apply sorted_areas_cons in Hs as (Ha & Hab & Hs). cbn in Hab.
  constructor; [exact Hab|].
  pose proof (IH b Hs) as Hl.
  apply sorted_areas_cons in Hs as (Hb & _ & _).
  eapply Forall_impl; [exact Hl|]. cbn. intros c Hc. lia.
Qed.

Lemma vmmap_insert_head (l : list vmarea) (new : vmarea) (lo : Z) :
  below_first lo l → lo ≤ vma_start new → below_first lo (vmmap_insert l new).
Proof.
  destruct l as [|a l]; cbn; [done|].
  intros Ha Hn. by destruct (vma_start new <? vma_start a).
Qed.

(** X9. [vmmap_insert] keeps the map sorted: when the areas are non-empty,
    ascending and disjoint and the new area is non-empty and overlaps none
    of them, the same holds of the map after the insertion, which consists
    of the old areas and the new one. *)
Theorem vmmap_insert_sorted (vmm_list : list vmarea) (new_vma : vmarea) :
  sorted_areas vmm_list →
  vma_start new_vma < vma_end new_vma →
  Forall (λ a, vma_end a ≤ vma_start new_vma
               ∨ vma_end new_vma ≤ vma_start a) vmm_list →
  sorted_areas (vmmap_insert vmm_list new_vma)
  ∧ vmmap_insert vmm_list new_vma ≡ₚ new_vma :: vmm_list.
Proof.
  intros Hs Hnew Hdis.
  induction vmm_list as [|a l IH]; [by cbn|].
  apply Forall_cons in Hdis as [Ha Hdis].
  apply sorted_areas_cons in Hs as (Hane & Hab & Hs).
  cbn [vmmap_insert].
  destruct (Z.ltb_spec (vma_start new_vma) (vma_start a)) as [Hlt|Hge].
  - split; [|reflexivity].
    apply sorted_areas_cons. split; [exact Hnew|]. split; [cbn; lia|].
    by apply sorted_areas_cons.
  - destruct (IH Hs Hdis) as [IHs IHp]. split.
    + apply sorted_areas_cons. split; [exact Hane|]. split; [|exact IHs].
      apply vmmap_insert_head; [exact Hab | lia].
    + rewrite IHp. apply Permutation_swap.
Qed.

Lemma lookup_scan_Some (l : list vmarea) (vfn : Z) (vma : vmarea) :
  lookup_scan l vfn = Some vma →
  vma ∈ l ∧ vma_start vma ≤ vfn ≤ vma_end vma.
Proof.
  induction l as [|a l IH]; cbn; [done|].
  destruct (Z.leb_spec (vma_start a) vfn); cbn.
  - destruct (Z.leb_spec vfn (vma_end a)).
    + intros [= <-]. split; [apply list_elem_of_here | lia].
    + intros Hl. destruct (IH Hl). split; [by apply list_elem_of_further|done].
  - intros Hl. destruct (IH Hl). split; [by apply list_elem_of_further|done].
Qed.

Lemma lookup_scan_is_Some (l : list vmarea) (vfn : Z) :
  is_Some (lookup_scan l vfn) ↔
  ∃ vma, vma ∈ l ∧ vma_start vma ≤ vfn ≤ vma_end vma.
Proof.
  split.
  - intros [vma Hl]. exists vma. by apply lookup_scan_Some.
  - intros (vma & Hin & Hr).
    induction l as [|a l IH]; [by apply elem_of_nil in Hin|]. cbn.
    destruct (Z.leb_spec (vma_start a) vfn); cbn.
    + destruct (Z.leb_spec vfn (vma_end a)); [by eexists|].
      apply IH. apply elem_of_cons in Hin as [->|]; [lia|done].
    + apply IH. apply elem_of_cons in Hin as [->|]; [lia|done].
Qed.

(** X10. [vmmap_lookup] answers with an area exactly for the page numbers
    of user memory that lie between the start and the end of some area, the
    end included: the area returned is in the map and [vma_start ≤ vfn ≤
    vma_end] holds of it.  So every mapped page of user memory is found,
    and so is the page at [vma_end], the first one past an area. *)
Theorem vmmap_lookup_closed_range (vmm_list : list vmarea) (vfn : Z) :
  (∀ vma, vmmap_lookup vmm_list vfn = Some vma →
     vma ∈ vmm_list ∧ vma_start vma ≤ vfn ≤ vma_end vma)
  ∧ (is_Some (vmmap_lookup vmm_list vfn) ↔
     ADDR_TO_PN USER_MEM_LOW ≤ vfn ≤ ADDR_TO_PN USER_MEM_HIGH
     ∧ ∃ vma, vma ∈ vmm_list ∧ vma_start vma ≤ vfn ≤ vma_end vma)
  ∧ (ADDR_TO_PN USER_MEM_LOW ≤ vfn ≤ ADDR_TO_PN USER_MEM_HIGH →
     mapped vmm_list vfn → is_Some (vmmap_lookup vmm_list vfn))
  ∧ (∀ vma, vma ∈ vmm_list →
     ADDR_TO_PN USER_MEM_LOW ≤ vma_end vma ≤ ADDR_TO_PN USER_MEM_HIGH →
     vma_start vma ≤ vma_end vma →
     is_Some (vmmap_lookup vmm_list (vma_end vma))).
Proof.
  assert (Hiff : ∀ v, is_Some (vmmap_lookup vmm_list v) ↔
     ADDR_TO_PN USER_MEM_LOW ≤ v ≤ ADDR_TO_PN USER_MEM_HIGH
     ∧ ∃ vma, vma ∈ vmm_list ∧ vma_start vma ≤ v ≤ vma_end vma).
  { intros v. unfold vmmap_lookup.
    destruct (Z.ltb_spec v (ADDR_TO_PN USER_MEM_LOW)); cbn.
    { split; [by intros [? ?] | lia]. }
    destruct (Z.ltb_spec (ADDR_TO_PN USER_MEM_HIGH) v); cbn.
    { split; [by intros [? ?] | lia]. }
    rewrite lookup_scan_is_Some. split; [intros ?; split; [lia|done] | tauto]. }
  split; [|split; [apply Hiff|split]].
  - intros vma. unfold vmmap_lookup.
    destruct (_ || _); [done|]. apply lookup_scan_Some.
  - intros Hr (vma & Hin & Ha). apply Hiff. split; [exact Hr|].
    exists vma. split; [exact Hin|]. unfold in_area in Ha. lia.
  - intros vma Hin Hr Hne. apply Hiff. split; [exact Hr|].
    exists vma. split; [exact Hin|]. lia.
Qed.

(** The ascending scan: the result is a first fit above [vfn]. *)
Lemma lohi_scan_first_fit (npages : Z) (areas : list vmarea) :
  ∀ vfn,
  0 < npages →
  sorted_areas areas →
  below_first vfn areas →
  0 ≤ vfn < 2 ^ 63 →
  Forall (λ a, vma_end a < 2 ^ 63) areas →
  vfn ≤ lohi_scan npages areas vfn < 2 ^ 63
  ∧ (∀ p, lohi_scan npages areas vfn ≤ p < lohi_scan npages areas vfn + npages →
       ¬ mapped areas p)
  ∧ (∀ r, vfn ≤ r < lohi_scan npages areas vfn →
       ∃ p, r ≤ p < r + npages ∧ mapped areas p).
Proof.
  induction areas as [|a l IH]; intros vfn Hn Hs Hlow Hv Hall.
  - cbn. split; [lia|]. split; [|lia].
    intros p _ (vma & Hin & _). by apply elem_of_nil in Hin.
  - pose proof (sorted_areas_above a l Hs) as Habove.
    apply sorted_areas_cons in Hs as (Hane & Hab & Hs).
    apply Forall_cons in Hall as [Hae Hall]. cbn in Hlow.
    cbn [lohi_scan].
    assert (Hu : u64 (vma_start a - vfn) = vma_start a - vfn).
    { unfold u64. apply Z.mod_small. lia. }
    rewrite Hu.
    destruct (Z.leb_spec npages (vma_start a - vfn)) as [Hfit|Hno].
    + split; [lia|]. split; [|lia].
      intros p Hp (vma & Hin & Hpa). unfold in_area in Hpa.
      apply elem_of_cons in Hin as [->|Hin]; [lia|].
      rewrite Forall_forall in Habove. specialize (Habove _ Hin). lia.
    + destruct (IH (vma_end a) Hn Hs Hab ltac:(lia) Hall)
        as (Hr & Hfree & Hmin).
      split; [lia|]. split.
      * intros p Hp (vma & Hin & Hpa).
        apply elem_of_cons in Hin as [->|Hin].
        -- unfold in_area in Hpa. lia.
        -- apply (Hfree p Hp). by exists vma.
      * intros r Hrr.
        destruct (Z.lt_ge_cases r (vma_start a)) as [Hlt|Hge].
        { exists (vma_start a). split; [lia|].
          exists a. split; [apply list_elem_of_here | unfold in_area; lia]. }
        destruct (Z.lt_ge_cases r (vma_end a)) as [Hlt'|Hge'].
        { exists r. split; [lia|].
          exists a. split; [apply list_elem_of_here | unfold in_area; lia]. }
        destruct (Hmin r ltac:(lia)) as (p & Hp & vma & Hin & Hpa).
        exists p. split; [exact Hp|].
        exists vma. split; [by apply list_elem_of_further | exact Hpa].
Qed.

(** X11. With [VMMAP_DIR_LOHI] on a sorted map of areas in user memory,
    [vmmap_find_range] is a first fit from the bottom: the range it returns
    starts at or above the lowest user page and contains no mapped page,
    and every lower start gives a range that does contain one. *)
Theorem vmmap_find_range_lohi_first_fit
    (vmm_list : list vmarea) (npages : Z) :
  VMMAP_DIR_LOHI ≠ VMMAP_DIR_HILO →
  0 < npages ≤ (USER_MEM_HIGH - USER_MEM_LOW) / PAGE_SIZE →
  sorted_areas vmm_list →
  below_first (ADDR_TO_PN USER_MEM_LOW) vmm_list →
  Forall (λ a, vma_end a < 2 ^ 63) vmm_list →
  ADDR_TO_PN USER_MEM_LOW ≤ vmmap_find_range vmm_list npages VMMAP_DIR_LOHI
  ∧ (∀ p, vmmap_find_range vmm_list npages VMMAP_DIR_LOHI ≤ p
          < vmmap_find_range vmm_list npages VMMAP_DIR_LOHI + npages →
       ¬ mapped vmm_list p)
  ∧ (∀ r, ADDR_TO_PN USER_MEM_LOW ≤ r
          < vmmap_find_range vmm_list npages VMMAP_DIR_LOHI →
       ∃ p, r ≤ p < r + npages ∧ mapped vmm_list p).
Proof.
  intros Hdir Hn Hs Hlow Hall.
  pose proof ADDR_TO_PN_HIGH_bounds as (Hb1 & Hb2).
  pose proof USER_MEM_range as (Hm1 & Hm2).
  pose proof PAGE_SHIFT_nonneg as Hsh.
  assert (Hlo : 0 ≤ ADDR_TO_PN USER_MEM_LOW < 2 ^ 63).
  { unfold ADDR_TO_PN in *. rewrite !Z.shiftr_div_pow2 in * by assumption.
    assert (0 < 2 ^ PAGE_SHIFT) by (apply Z.pow_pos_nonneg; lia).
    split; [apply Z.div_pos; lia|].
    apply Z.le_lt_trans with (USER_MEM_HIGH / 2 ^ PAGE_SHIFT); [|lia].
    apply Z.div_le_mono; lia. }
  destruct (lohi_scan_first_fit npages vmm_list (ADDR_TO_PN USER_MEM_LOW))
    as (Hr & Hfree & Hmin); try assumption; [lia|].
  assert (Hret : vmmap_find_range vmm_list npages VMMAP_DIR_LOHI
                 = lohi_scan npages vmm_list (ADDR_TO_PN USER_MEM_LOW)).
  { unfold vmmap_find_range.
    destruct (Z.ltb_spec ((USER_MEM_HIGH - USER_MEM_LOW) / PAGE_SIZE) npages);
      [lia|].
    destruct (Z.eqb_spec VMMAP_DIR_LOHI VMMAP_DIR_HILO); [done|].
    rewrite Z.eqb_refl. unfold s64. rewrite Z.mod_small; lia. }
  rewrite Hret. split; [lia|]. split; assumption.
Qed.

End vmmap_ops_facts.

(** ** The line discipline *)

Section ldisc_facts.
Import Ldisc.
Context {L : LdiscHeader}.

Lemma set_cooked_same (l : ldisc) : set_cooked (ldisc_cooked l) l = l.
Proof. by destruct l. Qed.

Lemma set_tail_same (l : ldisc) : set_tail (ldisc_tail l) l = l.
Proof. by destruct l. Qed.

Lemma ring_buffer (l l' : ldisc) (from : Z) (n : nat) :
  ldisc_buffer l' = ldisc_buffer l → ring l' from n = ring l from n.
Proof.
  intros Hb. revert from. induction n as [|n IH]; intros from; cbn;
    [reflexivity|].
  by rewrite Hb, IH.
Qed.

Lemma ring_length (l : ldisc) (from : Z) (n : nat) :
  length (ring l from n) = n.
Proof.
  revert from. induction n as [|n IH]; intros from; cbn; [reflexivity|].
  by rewrite IH.
Qed.

Lemma buffer_at_in_range (l : ldisc) (i : Z) :
  length (ldisc_buffer l) = Z.to_nat LDISC_BUFFER_SIZE →
  0 ≤ i < LDISC_BUFFER_SIZE →
  ∃ c, ldisc_buffer l !! Z.to_nat i = Some c
       ∧ buffer_at i l = Ret (c, l).
Proof.
  intros Hlen Hi.
  destruct (lookup_lt_is_Some_2 (ldisc_buffer l) (Z.to_nat i)) as [c Hc];
    [lia|].
  exists c. split; [exact Hc|].
  unfold buffer_at. kunfold.
  destruct (Z.ltb_spec i 0); [lia|]. by rewrite Hc.
Qed.

Lemma index_step (i : Z) :
  0 ≤ (i + 1) mod LDISC_BUFFER_SIZE < LDISC_BUFFER_SIZE.
Proof. apply Z.mod_pos_bound. apply LDISC_BUFFER_SIZE_pos. Qed.

Lemma store_take_drop (buf : list Z) (i : nat) (c : Z) (n : nat) :
  (i < length buf)%nat →
  take (S i) (<[i := c]> buf) = take i buf ++ [c]
  ∧ drop (S i + n) (<[i := c]> buf) = drop (S i + n) buf.
Proof.
  intros Hi. split.
  - rewrite insert_take_drop by exact Hi.
    replace (take i buf ++ c :: drop (S i) buf)
      with ((take i buf ++ [c]) ++ drop (S i) buf) by (by rewrite <- app_assoc).
    apply take_app_length'. rewrite length_app, length_take. cbn. lia.
  - apply drop_insert_lt. lia.
Qed.

(** The loop of [ldisc_read]: [n] characters are copied from the cooked
    index on, none of them a newline or [EOT]. *)
Lemma ldisc_read_loop_spec (left : nat) :
  ∀ (buf : list Z) (i : nat) (l : ldisc),
  length (ldisc_buffer l) = Z.to_nat LDISC_BUFFER_SIZE →
  0 ≤ ldisc_cooked l < LDISC_BUFFER_SIZE →
  (i + left ≤ length buf)%nat →
  ∃ n : nat,
    ldisc_read_loop left buf i l
    = Ret (((i + n)%nat,
            take i buf ++ ring l (ldisc_cooked l) n ++ drop (i + n) buf),
           set_cooked ((ldisc_cooked l + Z.of_nat n) mod LDISC_BUFFER_SIZE) l)
    ∧ (n ≤ left)%nat
    ∧ Forall (λ c, c ≠ 10 ∧ c ≠ EOT) (ring l (ldisc_cooked l) n)
    ∧ ((n < left)%nat →
       read_stop
         (set_cooked ((ldisc_cooked l + Z.of_nat n) mod LDISC_BUFFER_SIZE) l)).
Proof.
  pose proof LDISC_BUFFER_SIZE_pos as Hpos.
  induction left as [|left IH]; intros buf i l Hlen Hc Hbuf.
  - exists O. cbn -[Z.of_nat]. rewrite Nat.add_0_r, Z.add_0_r.
    rewrite Z.mod_small by exact Hc. rewrite set_cooked_same, take_drop.
    split; [reflexivity|]. split; [lia|]. split; [constructor | lia].
  - cbn [ldisc_read_loop]. kunfold.
    destruct (Z.eqb_spec (ldisc_cooked l) (ldisc_tail l)) as [Heq|Hne].
    { exists O. cbn -[Z.of_nat]. rewrite Nat.add_0_r, Z.add_0_r.
      rewrite Z.mod_small by exact Hc. rewrite set_cooked_same, take_drop.
      split; [reflexivity|]. split; [lia|]. split; [constructor|].
      intros _. by left. }
    destruct (buffer_at_in_range l (ldisc_cooked l) Hlen Hc) as (c & Hbc & ->).
    destruct (Z.eqb_spec c 10) as [->|H10].
    { exists O. cbn -[Z.of_nat]. rewrite Nat.add_0_r, Z.add_0_r.
      rewrite Z.mod_small by exact Hc. rewrite set_cooked_same, take_drop.
      split; [reflexivity|]. split; [lia|]. split; [constructor|].
      intros _. right. by left. }
    destruct (Z.eqb_spec c EOT) as [->|Heot].
    { exists O. cbn -[Z.of_nat]. rewrite Nat.add_0_r, Z.add_0_r.
      rewrite Z.mod_small by exact Hc. rewrite set_cooked_same, take_drop.
      split; [reflexivity|]. split; [lia|]. split; [constructor|].
      intros _. right. by right. }
    unfold store. kunfold.
    rewrite bool_decide_eq_true_2 by lia.
    destruct (IH (<[i := c]> buf) (S i)
                (set_cooked ((ldisc_cooked l + 1) mod LDISC_BUFFER_SIZE) l))
      as (n & Hrun & Hn & Hall & Hstop).
    { exact Hlen. }
    { cbn. apply index_step. }
    { rewrite length_insert. lia. }
    exists (S n).
    assert (Hidx :
      ((ldisc_cooked l + 1) mod LDISC_BUFFER_SIZE + Z.of_nat n)
        mod LDISC_BUFFER_SIZE
      = (ldisc_cooked l + Z.of_nat (S n)) mod LDISC_BUFFER_SIZE).
    { rewrite Zplus_mod_idemp_l. f_equal. lia. }
    assert (Hst :
      set_cooked
        ((ldisc_cooked
            (set_cooked ((ldisc_cooked l + 1) mod LDISC_BUFFER_SIZE) l)
          + Z.of_nat n) mod LDISC_BUFFER_SIZE)
        (set_cooked ((ldisc_cooked l + 1) mod LDISC_BUFFER_SIZE) l)
      = set_cooked ((ldisc_cooked l + Z.of_nat (S n)) mod LDISC_BUFFER_SIZE) l).
    { unfold set_cooked. cbn -[Z.of_nat]. by rewrite Hidx. }
    rewrite Hst in Hrun, Hstop.
    rewrite (ring_buffer l) in Hrun, Hall by reflexivity.
    cbn [ldisc_cooked set_cooked] in Hrun, Hall.
    destruct (store_take_drop buf i c n) as [Htk Hdr]; [lia|].
    rewrite Htk, Hdr in Hrun.
    split.
    { rewrite Hrun. cbn [ring]. rewrite Hbc. cbn [default].
      rewrite <- app_assoc. cbn.
      by replace (i + S n)%nat with (S (i + n)) by lia. }
    split; [lia|]. split.
    { cbn [ring]. rewrite Hbc. cbn [default]. by constructor. }
    intros Hlt. apply Hstop. lia.
Qed.

(** X12. [ldisc_read] with indices inside the buffer and a caller's buffer
    of at least [count] bytes: it copies [r ≤ count] characters, those at
    the cooked index and after it around the end of the buffer, none of
    which is a newline or [EOT]; the cooked index advances by [r] and
    nothing else of the line discipline changes; when [r < count] the
    cooked index is left at the tail or on a newline or [EOT]. *)
Theorem ldisc_read_copies (l : ldisc) (buf : list Z) (count : Z) :
  length (ldisc_buffer l) = Z.to_nat LDISC_BUFFER_SIZE →
  0 ≤ ldisc_cooked l < LDISC_BUFFER_SIZE →
  0 ≤ count ≤ Z.of_nat (length buf) →
  ∃ r : nat,
    ldisc_read buf count l
    = Ret ((Z.of_nat r, ring l (ldisc_cooked l) r ++ drop r buf),
           set_cooked ((ldisc_cooked l + Z.of_nat r) mod LDISC_BUFFER_SIZE) l)
    ∧ Z.of_nat r ≤ count
    ∧ length (ring l (ldisc_cooked l) r) = r
    ∧ Forall (λ c, c ≠ 10 ∧ c ≠ EOT) (ring l (ldisc_cooked l) r)
    ∧ (Z.of_nat r < count →
       read_stop
         (set_cooked ((ldisc_cooked l + Z.of_nat r) mod LDISC_BUFFER_SIZE) l)).
Proof.
  intros Hlen Hc Hcount.
  destruct (ldisc_read_loop_spec (Z.to_nat count) buf 0 l Hlen Hc)
    as (n & Hrun & Hn & Hall & Hstop); [lia|].
  exists n. unfold ldisc_read. kunfold. rewrite Hrun. cbn.
  split; [reflexivity|]. split; [lia|]. split; [apply ring_length|].
  split; [exact Hall|]. intros Hlt. apply Hstop. lia.
Qed.

(** A read that starts where a read stops returns 0 bytes. *)
Lemma ldisc_read_at_stop (l : ldisc) (buf : list Z) (count : Z) :
  length (ldisc_buffer l) = Z.to_nat LDISC_BUFFER_SIZE →
  0 ≤ ldisc_cooked l < LDISC_BUFFER_SIZE →
  read_stop l →
  ldisc_read buf count l = Ret ((0, buf), l).
Proof.
  intros Hlen Hc Hstop. unfold ldisc_read. kunfold.
  destruct (Z.to_nat count) as [|left]; [reflexivity|].
  cbn [ldisc_read_loop]. kunfold.
  destruct (Z.eqb_spec (ldisc_cooked l) (ldisc_tail l)) as [Heq|Hne];
    [reflexivity|].
  destruct (buffer_at_in_range l (ldisc_cooked l) Hlen Hc) as (c & Hbc & ->).
  destruct Hstop as [Heq | [H10 | Heot]]; [done| |].
  - rewrite Hbc in H10. injection H10 as ->. reflexivity.
  - rewrite Hbc in Heot. injection Heot as ->.
    destruct (EOT =? 10); [reflexivity|]. by rewrite Z.eqb_refl.
Qed.

(** X13. A short read is final: when [ldisc_read] returns fewer bytes than
    were asked for, the next [ldisc_read], whatever its buffer and count,
    returns 0 and changes nothing.  The newline or [EOT] that ended the
    line is not stepped over by either call. *)
Theorem ldisc_read_short_then_zero
    (l l' : ldisc) (buf buf' buf2 : list Z) (count r count2 : Z) :
  length (ldisc_buffer l) = Z.to_nat LDISC_BUFFER_SIZE →
  0 ≤ ldisc_cooked l < LDISC_BUFFER_SIZE →
  0 ≤ count ≤ Z.of_nat (length buf) →
  ldisc_read buf count l = Ret ((r, buf'), l') →
  r < count →
  ldisc_read buf2 count2 l' = Ret ((0, buf2), l').
Proof.
  intros Hlen Hc Hcount Hrun Hshort.
  destruct (ldisc_read_loop_spec (Z.to_nat count) buf 0 l Hlen Hc)
    as (n & Hloop & Hn & _ & Hstop); [lia|].
  unfold ldisc_read in Hrun. kunfold. rewrite Hloop in Hrun. cbn in Hrun.
  injection Hrun as <- _ <-.
  apply ldisc_read_at_stop.
  - exact Hlen.
  - cbn. apply Z.mod_pos_bound. apply LDISC_BUFFER_SIZE_pos.
  - apply Hstop. lia.
Qed.

(** One step of the tail towards the head shortens the raw part by one. *)
Lemma raw_distance_step (t h : Z) :
  0 ≤ t < LDISC_BUFFER_SIZE →
  0 ≤ h < LDISC_BUFFER_SIZE →
  t ≠ h →
  (h - (t + 1) mod LDISC_BUFFER_SIZE) mod LDISC_BUFFER_SIZE
  = (h - t) mod LDISC_BUFFER_SIZE - 1
  ∧ 0 < (h - t) mod LDISC_BUFFER_SIZE.
Proof.
  intros Ht Hh Hne.
  rewrite Zminus_mod_idemp_r.
  destruct (Z.lt_ge_cases t h) as [Hlt|Hge].
  - rewrite !Z.mod_small by lia. lia.
  - rewrite <- (Z.mod_unique (h - (t + 1)) LDISC_BUFFER_SIZE (-1)
                  (h - t - 1 + LDISC_BUFFER_SIZE)) by lia.
    rewrite <- (Z.mod_unique (h - t) LDISC_BUFFER_SIZE (-1)
                  (h - t + LDISC_BUFFER_SIZE)) by lia.
    lia.
Qed.

(** The loop of [ldisc_get_current_line_raw] copies the raw part, from the
    tail to the head, and ends with the tail on the head. *)
Lemma raw_loop_spec (d : nat) :
  ∀ (fuel : nat) (s : list Z) (i : nat) (l : ldisc),
  ldisc_wf l →
  Z.of_nat d = (ldisc_head l - ldisc_tail l) mod LDISC_BUFFER_SIZE →
  (d ≤ fuel)%nat →
  (i + d ≤ length s)%nat →
  raw_loop fuel s i l
  = Ret (((i + d)%nat,
          take i s ++ ring l (ldisc_tail l) d ++ drop (i + d) s),
         set_tail (ldisc_head l) l).
Proof.
  pose proof LDISC_BUFFER_SIZE_pos as Hpos.
  induction d as [|d IH]; intros fuel s i l (Hlen & Hc & Ht & Hh) Hd Hfuel Hs.
  - assert (Heq : ldisc_tail l = ldisc_head l).
    { destruct (Z.eq_dec (ldisc_tail l) (ldisc_head l)) as [|Hne];
        [assumption|].
      destruct (raw_distance_step _ _ Ht Hh Hne) as [_ Hp]. lia. }
    assert (Hrun : raw_loop fuel s i l = Ret ((i, s), l)).
    { destruct fuel; cbn; kunfold; by rewrite Heq, Z.eqb_refl. }
    rewrite Hrun. cbn. rewrite Nat.add_0_r, take_drop.
    by rewrite <- Heq, set_tail_same.
  - assert (Hne : ldisc_tail l ≠ ldisc_head l).
    { intros Heq. rewrite Heq, Z.sub_diag, Z.mod_0_l in Hd; lia. }
    destruct fuel as [|fuel]; [lia|].
    cbn [raw_loop]. kunfold.
    destruct (Z.eqb_spec (ldisc_tail l) (ldisc_head l)); [done|].
    destruct (buffer_at_in_range l (ldisc_tail l) Hlen Ht) as (c & Hbc & ->).
    unfold store. kunfold.
    rewrite bool_decide_eq_true_2 by lia.
    destruct (raw_distance_step _ _ Ht Hh Hne) as [Hstep _].
    rewrite (IH fuel (<[i := c]> s) (S i)
               (set_tail ((ldisc_tail l + 1) mod LDISC_BUFFER_SIZE) l)).
    + destruct (store_take_drop s i c d) as [Htk Hdr]; [lia|].
      rewrite Htk, Hdr. rewrite (ring_buffer l) by reflexivity.
      cbn [ring ldisc_tail ldisc_head set_tail]. rewrite Hbc. cbn [default].
      rewrite <- app_assoc. cbn.
      by replace (i + S d)%nat with (S (i + d)) by lia.
    + split; [exact Hlen|]. split; [exact Hc|]. split; [|exact Hh].
      cbn. apply index_step.
    + cbn [ldisc_tail ldisc_head set_tail]. rewrite Hstep. lia.
    + lia.
    + rewrite length_insert. lia.
Qed.

(** X14. [ldisc_get_current_line_raw] with indices inside the buffer and
    room in the caller's array: the raw characters, from the tail to the
    head around the end of the buffer, are copied to the front of the
    array and the tail is moved onto the head, yet the value returned is 0
    and not their number. *)
Theorem ldisc_get_current_line_raw_drains (l : ldisc) (s : list Z) :
  ldisc_wf l →
  (ldisc_head l - ldisc_tail l) mod LDISC_BUFFER_SIZE ≤ Z.of_nat (length s) →
  ldisc_get_current_line_raw s l
  = Ret ((0,
          ring l (ldisc_tail l)
            (Z.to_nat ((ldisc_head l - ldisc_tail l) mod LDISC_BUFFER_SIZE))
          ++ drop (Z.to_nat ((ldisc_head l - ldisc_tail l)
                             mod LDISC_BUFFER_SIZE)) s),
         set_tail (ldisc_head l) l).
Proof.
  intros Hwf Hs.
  pose proof LDISC_BUFFER_SIZE_pos as Hpos.
  pose proof (Z.mod_pos_bound (ldisc_head l - ldisc_tail l) LDISC_BUFFER_SIZE
                Hpos) as Hd.
  unfold ldisc_get_current_line_raw. kunfold.
  rewrite (raw_loop_spec
             (Z.to_nat ((ldisc_head l - ldisc_tail l) mod LDISC_BUFFER_SIZE)))
    by (try assumption; lia).
  reflexivity.
Qed.

End ldisc_facts.

(** ** Reference counts of vnodes and files *)

Section refs_facts.
Import Vfs Syscall.

Lemma refs_set_refcount (st : vfs) (v n x : Z) :
  refs (set_refcount <[v := n]> st) x
  = if bool_decide (x = v) then n else refs st x.
Proof.
  unfold refs. cbn. case_bool_decide as Hx.
  - subst. by rewrite lookup_insert_eq.
  - by rewrite lookup_insert_ne by done.
Qed.

Lemma refs_set_locked (st : vfs) (f : gset Z → gset Z) (x : Z) :
  refs (set_locked f st) x = refs st x.
Proof. reflexivity. Qed.

Lemma b2z_decide_eq (x : Z) : Z.b2z (bool_decide (x = x)) = 1.
Proof. by rewrite bool_decide_eq_true_2. Qed.

Lemma b2z_decide_ne (x y : Z) : x ≠ y → Z.b2z (bool_decide (x = y)) = 0.
Proof. intros. by rewrite bool_decide_eq_false_2. Qed.

Lemma file_add_ref_cancel (fl : file) :
  file_add_ref (-1) (file_add_ref 1 fl) = fl.
Proof.
  destruct fl. unfold file_add_ref. cbn. f_equal. lia.
Qed.

Lemma frefs_set_file (st : vfs) (fp : Z) (fl : file) (x : Z) :
  frefs (set_file fp fl st) x
  = if bool_decide (x = fp) then f_refcount fl else frefs st x.
Proof.
  unfold frefs. cbn. case_bool_decide as Hx.
  - subst. by rewrite lookup_insert_eq.
  - by rewrite lookup_insert_ne by done.
Qed.

Lemma frefs_set_p_files (st : vfs) (f : list (option Z) → list (option Z))
    (x : Z) :
  frefs (set_p_files f st) x = frefs st x.
Proof. reflexivity. Qed.

End refs_facts.

(** Reference counts after a sequence of [vref] and [vput], by cases on
    the vnodes involved. *)
Ltac refs_cases :=
  repeat (rewrite ?refs_set_locked, ?refs_set_refcount);
  repeat case_bool_decide; subst; cbn; try lia; try congruence.

(** The same for the reference counts of files. *)
Ltac frefs_cases :=
  repeat (rewrite ?frefs_set_p_files, ?frefs_set_file);
  unfold Syscall.frefs;
  repeat case_bool_decide; subst; cbn; try congruence; try lia.

(** ** Name resolution: tokens, references and locks *)

Section namev_facts.
Import Vfs Syscall.
Context {V : VfsHeader}.

Lemma tokens_rest (fuel : nat) :
  ∀ search, (length (rest search) < fuel)%nat → tokens fuel search = rest search.
Proof.
  induction fuel as [|fuel IH]; intros search Hlen; [lia|].
  cbn [tokens].
  destruct (namev_tokenize search) as [[b n] search'] eqn:Etok.
  pose proof (namev_tokenize_next _ _ _ _ Etok) as Hnext.
  destruct (rest search) as [|c cs] eqn:Hrest.
  - destruct Hnext as [-> _]. reflexivity.
  - destruct Hnext as (b' & -> & Hsub & Hn & Hpos & Hrest').
    destruct (Z.eqb_spec n 0); [lia|].
    rewrite Hsub. f_equal. rewrite <- Hrest'. apply IH.
    rewrite Hrest'. cbn in Hlen. lia.
Qed.

(** X15. Calling [namev_tokenize] again and again on a path, each time on
    the rest that the call before left, returns the components of the
    path one by one, each with its length, and then length 0: runs of [/]
    separate components and give none. *)
Theorem namev_tokenize_components (p : string) :
  tokens (S (String.length p)) (Some p) = components p.
Proof.
  rewrite tokens_rest; [reflexivity|].
  cbn [rest]. pose proof (components_length p). lia.
Qed.

(** One turn of the loop of [namev_dir] with the reference counts: the
    vnode found gains the reference that the directory left behind gives
    up. *)
Lemma namev_dir_loop_turn_refs (fuel : nat) (basenode v : Z) (cb : string)
    (cur_n : Z) (nextname nn : option string) (next_n nl : Z)
    (search search' : option string) (st : vfs) :
  next_n ≠ 0 →
  0 < cur_n →
  vfs_locked st = {[basenode]} →
  lookup_step st basenode (String.substring 0 (Z.to_nat cur_n) cb) = Some v →
  namev_tokenize search = (nn, nl, search') →
  ∃ st1,
    namev_dir_loop (S fuel) basenode (Some cb) cur_n nextname next_n search st
      = namev_dir_loop fuel v nextname next_n nn nl search' st1
    ∧ vfs_locked st1 = {[v]}
    ∧ vfs_vnodes st1 = vfs_vnodes st
    ∧ vfs_root st1 = vfs_root st
    ∧ vfs_files st1 = vfs_files st
    ∧ p_files st1 = p_files st
    ∧ ∀ x, refs st1 x = refs st x + Z.b2z (bool_decide (x = v))
                        - Z.b2z (bool_decide (x = basenode)).
Proof.
  intros Hnext Hcur Hlock Hstep Htok.
  cbn [namev_dir_loop].
  destruct (Z.eqb_spec next_n 0); [done|].
  kunfold. rewrite (namev_lookup_step _ _ _ _ _ Hcur Hstep).
  rewrite s32_0. cbn. rewrite Htok.
  destruct (Z.eqb_spec basenode v) as [<-|Hne].
  - unfold vput. kunfold. cbn.
    eexists. split; [reflexivity|]. cbn. repeat split; try done.
    intros x. refs_cases.
  - unfold vput_locked, vunlock, vput, vlock. kunfold. cbn.
    rewrite Hlock.
    rewrite bool_decide_eq_true_2 by by apply elem_of_singleton.
    cbn. rewrite Hlock, gset_singleton_difference.
    rewrite bool_decide_eq_false_2 by apply not_elem_of_empty.
    cbn. eexists. split; [reflexivity|]. cbn.
    rewrite Hlock, gset_singleton_difference, gset_empty_union.
    repeat split; try done.
    intros x. refs_cases.
Qed.

Lemma lookup_fail_vnodes (st st' : vfs) (dir : Z) (name : string) :
  vfs_vnodes st' = vfs_vnodes st →
  lookup_fail st' dir name = lookup_fail st dir name.
Proof. intros Hv. unfold lookup_fail. by rewrite Hv. Qed.

(** The loop of [namev_dir] when every lookup succeeds, with the reference
    counts: the directory returned has gained the reference that the
    directory of entry has given up. *)
Lemma namev_dir_loop_walk_refs (cs : list string) :
  ∀ (fuel : nat) (basenode : Z) (cb : string) (cur_n : Z)
    (nextname : option string) (next_n : Z) (search : option string)
    (st : vfs) (dirnode : Z),
  (length cs ≤ fuel)%nat →
  vfs_locked st = {[basenode]} →
  0 < cur_n →
  cur_n = Z.of_nat (String.length (String.substring 0 (Z.to_nat cur_n) cb)) →
  match cs with
  | [] => next_n = 0
  | c :: cs' =>
      ∃ nb, nextname = Some nb
        ∧ String.substring 0 (Z.to_nat next_n) nb = c
        ∧ next_n = Z.of_nat (String.length c)
        ∧ 0 < next_n
        ∧ rest search = cs'
  end →
  walk st basenode
    (removelast (String.substring 0 (Z.to_nat cur_n) cb :: cs)) = Some dirnode →
  ∃ st' nameb namelen,
    namev_dir_loop fuel basenode (Some cb) cur_n nextname next_n search st
      = Ret ((0, Some (dirnode, Some nameb, namelen)), st')
    ∧ String.substring 0 (Z.to_nat namelen) nameb
        = List.last (String.substring 0 (Z.to_nat cur_n) cb :: cs) EmptyString
    ∧ namelen
        = Z.of_nat (String.length
            (List.last (String.substring 0 (Z.to_nat cur_n) cb :: cs)
                       EmptyString))
    ∧ (cs = [] → nameb = cb)
    ∧ 0 < namelen
    ∧ vfs_locked st' = ∅
    ∧ vfs_vnodes st' = vfs_vnodes st
    ∧ vfs_root st' = vfs_root st
    ∧ vfs_files st' = vfs_files st
    ∧ p_files st' = p_files st
    ∧ ∀ x, refs st' x = refs st x + Z.b2z (bool_decide (x = dirnode))
                        - Z.b2z (bool_decide (x = basenode)).
Proof.
  induction cs as [|c cs IH];
    intros fuel basenode cb cur_n nextname next_n search st dirnode
      Hfuel Hlock Hcur Hcurlen Hnext Hwalk.
  - subst next_n. cbn in Hwalk. injection Hwalk as <-.
    assert (Hrun : namev_dir_loop fuel basenode (Some cb) cur_n nextname 0
                     search st
                   = Ret ((0, Some (basenode, Some cb, cur_n)),
                          set_locked (λ l, l ∖ {[basenode]}) st)).
    { destruct fuel; cbn; unfold vunlock; kunfold; cbn; rewrite Hlock;
        (rewrite bool_decide_eq_true_2 by by apply elem_of_singleton);
        reflexivity. }
    rewrite Hrun. eexists _, cb, cur_n. split; [reflexivity|]. cbn.
    rewrite Hlock, gset_singleton_difference. repeat split; try done; try lia.
    intros x. refs_cases.
  - destruct Hnext as (nb & -> & Hnb & Hnlen & Hpos & Hrest).
    destruct fuel as [|fuel]; [cbn in Hfuel; lia|].
    change (removelast (String.substring 0 (Z.to_nat cur_n) cb :: c :: cs))
      with (String.substring 0 (Z.to_nat cur_n) cb :: removelast (c :: cs))
      in Hwalk.
    cbn [walk] in Hwalk.
    destruct (lookup_step st basenode
                (String.substring 0 (Z.to_nat cur_n) cb)) as [v|] eqn:Hstep;
      [|done].
    destruct (namev_tokenize search) as [[nn nl] search'] eqn:Etok.
    pose proof (namev_tokenize_next _ _ _ _ Etok) as Htok.
    rewrite Hrest in Htok.
    destruct (namev_dir_loop_turn_refs fuel basenode v cb cur_n (Some nb) nn
                next_n nl search search' st)
      as (st1 & -> & Hlock1 & Hv1 & Hr1 & Hf1 & Hp1 & Hrefs1);
      [lia | done | done | done | done |].
    rewrite <- Hnb in Hwalk.
    destruct (IH fuel v nb next_n nn nl search' st1 dirnode) as
      (st' & nameb & namelen & Hrun & Hname & Hnl & _ & Hnpos & Hl & Hv & Hr
       & Hf & Hp & Hrefs).
    + cbn in Hfuel. lia.
    + exact Hlock1.
    + exact Hpos.
    + by rewrite Hnb.
    + destruct cs as [|c' cs']; [tauto | exact Htok].
    + rewrite <- Hwalk. by apply walk_vnodes.
    + exists st', nameb, namelen.
      split; [exact Hrun|]. split.
      { rewrite Hname, Hnb. reflexivity. }
      split.
      { rewrite Hnl, Hnb. reflexivity. }
      split; [done|]. split; [exact Hnpos|].
      split; [exact Hl|]. split; [by rewrite Hv|]. split; [by rewrite Hr|].
      split; [by rewrite Hf|]. split; [by rewrite Hp|].
      intros x. rewrite Hrefs, Hrefs1. lia.
Qed.

(** A lookup that fails, in the locked directory [basenode]. *)
Lemma namev_lookup_fail (st : vfs) (dir : Z) (nb : string) (n e : Z) :
  0 < n →
  lookup_fail st dir (String.substring 0 (Z.to_nat n) nb) = Some e →
  namev_lookup dir (Some nb) n st = Ret ((e, None), st).
Proof.
  intros Hn. unfold lookup_fail, namev_lookup, deref, ptr, vref. kunfold.
  destruct (vfs_vnodes st !! dir) as [d|]; [|done].
  destruct (vn_ops d) as [ops|]; [|by intros [= <-]].
  destruct (S_ISDIR (vn_mode d)); [|by intros [= <-]]. cbn.
  destruct (Z.eqb_spec n 0); [lia|].
  destruct (lookup ops) as [f|]; [|done].
  destruct (f _); [|done]. by intros [= ->].
Qed.

(** The loop of [namev_dir] when a lookup fails after the components
    [pre] were found: the error is returned, no vnode is left locked and
    the reference held on entry is given up. *)
Lemma namev_dir_loop_fail (pre : list string) :
  ∀ (cs : list string) (fuel : nat) (basenode : Z) (cb : string) (cur_n : Z)
    (nextname : option string) (next_n : Z) (search : option string)
    (st : vfs) (c : string) (post : list string) (d e : Z),
  (length cs ≤ fuel)%nat →
  vfs_locked st = {[basenode]} →
  0 < cur_n →
  match cs with
  | [] => next_n = 0
  | c :: cs' =>
      ∃ nb, nextname = Some nb
        ∧ String.substring 0 (Z.to_nat next_n) nb = c
        ∧ next_n = Z.of_nat (String.length c)
        ∧ 0 < next_n
        ∧ rest search = cs'
  end →
  removelast (String.substring 0 (Z.to_nat cur_n) cb :: cs)
    = pre ++ c :: post →
  walk st basenode pre = Some d →
  lookup_fail st d c = Some e →
  s32 e ≠ 0 →
  ∃ st',
    namev_dir_loop fuel basenode (Some cb) cur_n nextname next_n search st
      = Ret ((s32 e, None), st')
    ∧ vfs_locked st' = ∅
    ∧ vfs_vnodes st' = vfs_vnodes st
    ∧ vfs_files st' = vfs_files st
    ∧ p_files st' = p_files st
    ∧ ∀ x, refs st' x = refs st x - Z.b2z (bool_decide (x = basenode)).
Proof.
  induction pre as [|a pre IH];
    intros cs fuel basenode cb cur_n nextname next_n search st c post d e
      Hfuel Hlock Hcur Hnext Hsplit Hwalk Hfail He.
  - destruct cs as [|c1 cs]; [done|].
    change (removelast (String.substring 0 (Z.to_nat cur_n) cb :: c1 :: cs))
      with (String.substring 0 (Z.to_nat cur_n) cb :: removelast (c1 :: cs))
      in Hsplit.
    cbn in Hsplit. injection Hsplit as Hc _.
    cbn in Hwalk. injection Hwalk as <-.
    destruct Hnext as (nb & -> & Hnb & Hnlen & Hpos & Hrest).
    destruct fuel as [|fuel]; [cbn in Hfuel; lia|].
    cbn [namev_dir_loop].
    destruct (Z.eqb_spec next_n 0); [lia|].
    kunfold. rewrite <- Hc in Hfail.
    rewrite (namev_lookup_fail _ _ _ _ _ Hcur Hfail).
    destruct (Z.eqb_spec (s32 e) 0); [done|]. cbn.
    unfold vput_locked, vunlock, vput. kunfold. cbn. rewrite Hlock.
    rewrite bool_decide_eq_true_2 by by apply elem_of_singleton.
    cbn. eexists. split; [reflexivity|]. cbn.
    rewrite Hlock, gset_singleton_difference. repeat split; try done.
    intros x. refs_cases.
  - destruct cs as [|c1 cs]; [done|].
    change (removelast (String.substring 0 (Z.to_nat cur_n) cb :: c1 :: cs))
      with (String.substring 0 (Z.to_nat cur_n) cb :: removelast (c1 :: cs))
      in Hsplit.
    cbn in Hsplit. injection Hsplit as Ha Hsplit.
    destruct Hnext as (nb & -> & Hnb & Hnlen & Hpos & Hrest).
    destruct fuel as [|fuel]; [cbn in Hfuel; lia|].
    cbn [walk] in Hwalk. rewrite <- Ha in Hwalk.
    destruct (lookup_step st basenode
                (String.substring 0 (Z.to_nat cur_n) cb)) as [v|] eqn:Hstep;
      [|done].
    destruct (namev_tokenize search) as [[nn nl] search'] eqn:Etok.
    pose proof (namev_tokenize_next _ _ _ _ Etok) as Htok.
    rewrite Hrest in Htok.
    destruct (namev_dir_loop_turn_refs fuel basenode v cb cur_n (Some nb) nn
                next_n nl search search' st)
      as (st1 & -> & Hlock1 & Hv1 & Hr1 & Hf1 & Hp1 & Hrefs1);
      [lia | done | done | done | done |].
    destruct (IH cs fuel v nb next_n nn nl search' st1 c post d e) as
      (st' & Hrun & Hl & Hv & Hf & Hp & Hrefs).
    + cbn in Hfuel. lia.
    + exact Hlock1.
    + exact Hpos.
    + destruct cs as [|c' cs']; [tauto | exact Htok].
    + by rewrite Hnb.
    + rewrite <- Hwalk. by apply walk_vnodes.
    + rewrite <- Hfail. by apply lookup_fail_vnodes.
    + exact He.
    + exists st'. split; [exact Hrun|]. split; [exact Hl|].
      split; [by rewrite Hv|]. split; [by rewrite Hf|].
      split; [by rewrite Hp|].
      intros x. rewrite Hrefs, Hrefs1. lia.
Qed.

Lemma namev_tokenize_begin (s : string) (b : option string) (n : Z)
    (search' : option string) :
  namev_tokenize (Some s) = (b, n, search') → b = Some (skip_slashes s).
Proof.
  cbn. destruct (token_end (skip_slashes s)). by intros [= <- _ _].
Qed.

(** [namev_dir] when every component but the last resolves: besides what
    [namev_dir_walk] says, the directory returned has one reference more
    than on entry and no other count has changed; for a path of one
    component the name returned is the path without its leading [/]s. *)
Lemma namev_dir_walk_refs (st : vfs) (base : Z) (p : string) (dirnode : Z) :
  vfs_locked st = ∅ →
  components p ≠ [] →
  walk st (start_node st base p) (removelast (components p)) = Some dirnode →
  ∃ st' nameb namelen,
    namev_dir base (Some p) st
      = Ret ((0, Some (dirnode, Some nameb, namelen)), st')
    ∧ String.substring 0 (Z.to_nat namelen) nameb = basename p
    ∧ namelen = Z.of_nat (String.length (basename p))
    ∧ (length (components p) = 1%nat → nameb = skip_slashes p)
    ∧ 0 < namelen
    ∧ vfs_locked st' = ∅
    ∧ vfs_vnodes st' = vfs_vnodes st
    ∧ vfs_root st' = vfs_root st
    ∧ vfs_files st' = vfs_files st
    ∧ p_files st' = p_files st
    ∧ ∀ x, refs st' x = refs st x + Z.b2z (bool_decide (x = dirnode)).
Proof.
  intros Hlock Hcomp Hwalk.
  destruct p as [|c p']; [done|].
  unfold namev_dir, start_node in *.
  rewrite starts_with_slash_first in Hwalk.
  remember (String c p') as p eqn:Hp.
  remember (String.length p) as fuel eqn:Hfuel.
  destruct (namev_tokenize (Some p)) as [[curname cur_n] search1] eqn:Et1.
  destruct (namev_tokenize search1) as [[nextname next_n] search2] eqn:Et2.
  pose proof (namev_tokenize_next _ _ _ _ Et1) as H1.
  pose proof (namev_tokenize_next _ _ _ _ Et2) as H2.
  pose proof (namev_tokenize_begin _ _ _ _ Et1) as Hbegin.
  cbn [rest] in H1.
  destruct (components p) as [|cur cs] eqn:Ecs; [done|].
  destruct H1 as (cb & -> & Hcb & Hcn & Hcpos & Hrest1).
  injection Hbegin as Hbegin.
  rewrite Hrest1 in H2.
  unfold vlock, vref. kunfold. cbn.
  remember (if Ascii.eqb c "/" then vfs_root st else base) as basenode.
  rewrite Hlock.
  rewrite bool_decide_eq_false_2 by apply not_elem_of_empty.
  cbn. rewrite <- Hcb in Hwalk.
  match goal with
  | |- context [namev_dir_loop _ _ _ _ _ _ _ ?s] =>
      destruct (namev_dir_loop_walk_refs cs fuel basenode cb cur_n
                  nextname next_n search2 s dirnode)
        as (st' & nameb & namelen & Hrun & Hname & Hnl & Hone & Hnpos & Hl
            & Hv & Hr & Hf & Hpf & Hrefs)
  end.
  - pose proof (components_length p) as Hle. rewrite Ecs in Hle.
    cbn in Hle. lia.
  - cbn. rewrite Hlock. apply gset_empty_union.
  - exact Hcpos.
  - by rewrite Hcb.
  - destruct cs as [|c' cs']; [tauto | exact H2].
  - rewrite <- Hwalk. by apply walk_vnodes.
  - exists st', nameb, namelen. split; [exact Hrun|].
    unfold basename. rewrite Ecs. rewrite ?Hcb in Hname, Hnl.
    split; [exact Hname|]. split; [exact Hnl|]. split.
    { intros Hlen1. destruct cs; [|cbn in Hlen1; lia].
      rewrite Hone by reflexivity. exact Hbegin. }
    split; [exact Hnpos|]. split; [exact Hl|]. split; [by rewrite Hv|]. split; [by rewrite Hr|].
    split; [by rewrite Hf|]. split; [by rewrite Hpf|].
    intros x. rewrite Hrefs. refs_cases.
Qed.

(** [namev_dir] when the lookup of a component fails after the components
    [pre] were found. *)
Lemma namev_dir_fail (st : vfs) (base : Z) (p : string)
    (pre : list string) (c : string) (post : list string) (d e : Z) :
  vfs_locked st = ∅ →
  removelast (components p) = pre ++ c :: post →
  walk st (start_node st base p) pre = Some d →
  lookup_fail st d c = Some e →
  s32 e ≠ 0 →
  ∃ st',
    namev_dir base (Some p) st = Ret ((s32 e, None), st')
    ∧ vfs_locked st' = ∅
    ∧ vfs_vnodes st' = vfs_vnodes st
    ∧ vfs_files st' = vfs_files st
    ∧ p_files st' = p_files st
    ∧ ∀ x, refs st' x = refs st x.
Proof.
  intros Hlock Hsplit Hwalk Hfail He.
  destruct p as [|c0 p']; [by destruct pre|].
  unfold namev_dir, start_node in *.
  rewrite starts_with_slash_first in Hwalk.
  remember (String c0 p') as p eqn:Hp.
  remember (String.length p) as fuel eqn:Hfuel.
  destruct (namev_tokenize (Some p)) as [[curname cur_n] search1] eqn:Et1.
  destruct (namev_tokenize search1) as [[nextname next_n] search2] eqn:Et2.
  pose proof (namev_tokenize_next _ _ _ _ Et1) as H1.
  pose proof (namev_tokenize_next _ _ _ _ Et2) as H2.
  cbn [rest] in H1.
  destruct (components p) as [|cur cs] eqn:Ecs; [by destruct pre|].
  destruct H1 as (cb & -> & Hcb & Hcn & Hcpos & Hrest1).
  rewrite Hrest1 in H2.
  unfold vlock, vref. kunfold. cbn.
  remember (if Ascii.eqb c0 "/" then vfs_root st else base) as basenode.
  rewrite Hlock.
  rewrite bool_decide_eq_false_2 by apply not_elem_of_empty.
  cbn. rewrite <- Hcb in Hsplit.
  match goal with
  | |- context [namev_dir_loop _ _ _ _ _ _ _ ?s] =>
      destruct (namev_dir_loop_fail pre cs fuel basenode cb cur_n
                  nextname next_n search2 s c post d e)
        as (st' & Hrun & Hl & Hv & Hf & Hpf & Hrefs)
  end.
  - pose proof (components_length p) as Hle. rewrite Ecs in Hle.
    cbn in Hle. lia.
  - cbn. rewrite Hlock. apply gset_empty_union.
  - exact Hcpos.
  - destruct cs as [|c' cs']; [tauto | exact H2].
  - exact Hsplit.
  - rewrite <- Hwalk. by apply walk_vnodes.
  - rewrite <- Hfail. by apply lookup_fail_vnodes.
  - exact He.
  - exists st'. split; [exact Hrun|]. split; [exact Hl|].
    split; [by rewrite Hv|]. split; [by rewrite Hf|].
    split; [by rewrite Hpf|].
    intros x. rewrite Hrefs. refs_cases.
Qed.

(** X16. [namev_dir] entered with no vnode locked, on a path whose
    components before the last all resolve: it returns the directory
    reached and the last component with its length, leaves no vnode locked,
    and the reference counts are as on entry but for one more reference on
    the directory returned, whichever directories the walk went through
    ([.] and [..] included). *)
Theorem namev_dir_holds_one_reference
    (st : vfs) (base : Z) (p : string) (dirnode : Z) :
  vfs_locked st = ∅ →
  components p ≠ [] →
  walk st (start_node st base p) (removelast (components p)) = Some dirnode →
  ∃ st' nameb,
    namev_dir base (Some p) st
      = Ret ((0, Some (dirnode, Some nameb,
                       Z.of_nat (String.length (basename p)))), st')
    ∧ String.substring 0 (String.length (basename p)) nameb = basename p
    ∧ vfs_locked st' = ∅
    ∧ ∀ x, refs st' x = refs st x + Z.b2z (bool_decide (x = dirnode)).
Proof.
  intros Hlock Hcomp Hwalk.
  destruct (namev_dir_walk_refs st base p dirnode Hlock Hcomp Hwalk)
    as (st' & nameb & namelen & Hrun & Hname & -> & _ & _ & Hl & _ & _ & _
        & _ & Hrefs).
  exists st', nameb. rewrite Nat2Z.id in Hname. done.
Qed.

(** X17. [namev_dir] entered with no vnode locked, on a path in which the
    lookup of a component before the last fails after the components
    before it were found: the error of that lookup is returned (as an
    [int]), no vnode is left locked and every reference count is as on
    entry. *)
Theorem namev_dir_error_releases
    (st : vfs) (base : Z) (p : string)
    (pre : list string) (c : string) (post : list string) (d e : Z) :
  vfs_locked st = ∅ →
  removelast (components p) = pre ++ c :: post →
  walk st (start_node st base p) pre = Some d →
  lookup_fail st d c = Some e →
  s32 e ≠ 0 →
  ∃ st',
    namev_dir base (Some p) st = Ret ((s32 e, None), st')
    ∧ vfs_locked st' = ∅
    ∧ ∀ x, refs st' x = refs st x.
Proof.
  intros Hlock Hsplit Hwalk Hfail He.
  destruct (namev_dir_fail st base p pre c post d e Hlock Hsplit Hwalk Hfail
              He) as (st' & Hrun & Hl & _ & _ & _ & Hrefs).
  by exists st'.
Qed.

Lemma ends_in_slash_run (st : vfs) (p : string) :
  p ≠ EmptyString →
  ends_in_slash (Some p) st
  = Ret (bool_decide (last_char p = Some "/"%char), st).
Proof.
  intros Hp. destruct p as [|c p']; [done|].
  destruct (last_char_nonempty c p') as (x & Hx).
  unfold ends_in_slash, ptr. kunfold. rewrite Hx.
  destruct (Ascii.eqb_spec x "/") as [->|Hne].
  - by rewrite bool_decide_eq_true_2.
  - rewrite bool_decide_eq_false_2; [reflexivity|]. by intros [= ->].
Qed.

(** [namev_open] when the last component is found in its directory. *)
Lemma namev_open_found
    (st : vfs) (base : Z) (p : string) (oflags mode devid : Z)
    (dirnode fn : Z) (f : vnode) :
  vfs_locked st = ∅ →
  Z.land oflags O_CREAT = 0 ∨ last_char p ≠ Some "/"%char →
  components p ≠ [] →
  walk st (start_node st base p) (removelast (components p)) = Some dirnode →
  Z.of_nat (String.length (basename p)) ≤ NAME_LEN →
  lookup_step st dirnode (basename p) = Some fn →
  vfs_vnodes st !! fn = Some f →
  ∃ st',
    namev_open base (Some p) oflags mode devid st
    = Ret ((if S_ISDIR (vn_mode f)
               || negb (bool_decide (last_char p = Some "/"%char))
            then (0, Some fn) else (- ENOTDIR, None)), st')
    ∧ vfs_locked st' = ∅
    ∧ vfs_vnodes st' = vfs_vnodes st
    ∧ ∀ x, refs st' x
           = refs st x
             + (if S_ISDIR (vn_mode f)
                   || negb (bool_decide (last_char p = Some "/"%char))
                then Z.b2z (bool_decide (x = fn)) else 0).
Proof.
  intros Hlock Hcreat Hcomp Hwalk Hlen Hstep Hfn.
  assert (Hp : p ≠ EmptyString) by (by intros ->).
  destruct (namev_dir_walk_refs st base p dirnode Hlock Hcomp Hwalk)
    as (st1 & nameb & namelen & Hrun & Hname & Hnl & _ & Hnpos & Hl1 & Hv1
        & _ & _ & _ & Hrefs1).
  assert (Hfirst :
    (if Z.land oflags O_CREAT =? 0 then (kret false : K vfs bool)
     else ends_in_slash (Some p)) st = Ret (false, st)).
  { destruct (Z.eqb_spec (Z.land oflags O_CREAT) 0) as [|Hne];
      [reflexivity|].
    destruct Hcreat as [|Hlast]; [done|].
    rewrite ends_in_slash_run by exact Hp.
    by rewrite bool_decide_eq_false_2. }
  unfold namev_open. kunfold. rewrite Hfirst. cbn -[namev_dir].
  rewrite Hrun. cbn.
  destruct (Z.ltb_spec NAME_LEN namelen); [lia|].
  unfold vlock. kunfold. rewrite Hl1.
  rewrite bool_decide_eq_false_2 by apply not_elem_of_empty.
  cbn.
  assert (Hstep1 :
    lookup_step (set_locked (λ l, l ∪ {[dirnode]}) st1) dirnode
      (String.substring 0 (Z.to_nat namelen) nameb) = Some fn).
  { rewrite Hname. unfold lookup_step in *. cbn. by rewrite Hv1. }
  rewrite (namev_lookup_step _ _ _ _ _ Hnpos Hstep1).
  assert (Hno : (0 =? - ENOENT) = false) by reflexivity.
  rewrite Hno. cbn.
  unfold vunlock, vput, deref, ptr. kunfold. cbn. rewrite Hl1.
  rewrite bool_decide_eq_true_2
    by (apply elem_of_union; right; by apply elem_of_singleton).
  cbn. rewrite Hv1, Hfn. cbn.
  assert (Hlk : (∅ ∪ {[dirnode]}) ∖ {[dirnode]} = (∅ : gset Z)).
  { by rewrite gset_empty_union, gset_singleton_difference. }
  destruct (S_ISDIR (vn_mode f)); cbn.
  - eexists. split; [reflexivity|]. cbn. rewrite Hl1. split; [exact Hlk|].
    split; [exact Hv1|].
    intros x. refs_cases; rewrite Hrefs1; refs_cases.
  - destruct p as [|c p']; [done|].
    destruct (last_char_nonempty c p') as (y & Hy). rewrite Hy. cbn.
    destruct (Ascii.eqb_spec y "/") as [->|Hne].
    + rewrite bool_decide_eq_true_2 by reflexivity. cbn.
      eexists. split; [reflexivity|]. cbn. rewrite Hl1. split; [exact Hlk|].
      split; [exact Hv1|].
      intros x. refs_cases; rewrite ?Hrefs1; refs_cases.
    + rewrite bool_decide_eq_false_2 by congruence. cbn.
      eexists. split; [reflexivity|]. cbn. rewrite Hl1. split; [exact Hlk|].
      split; [exact Hv1|].
      intros x. refs_cases; rewrite Hrefs1; refs_cases.
Qed.


End namev_facts.

(** ** System calls on descriptors *)

Section descriptor_facts.
Import Vfs Syscall.
Context {V : VfsHeader} {Y : SysHeader}.

Lemma fget_open (st : vfs) (fd fp : Z) (fl : file) :
  0 ≤ fd < NFILES →
  p_files st !! Z.to_nat fd = Some (Some fp) →
  vfs_files st !! fp = Some fl →
  fget fd st = Ret (Some fp, set_file fp (file_add_ref 1 fl) st).
Proof.
  intros Hfd Hpf Hfl. unfold fget, file_deref. kunfold.
  destruct (Z.ltb_spec fd 0); [lia|].
  destruct (Z.leb_spec NFILES fd); [lia|]. cbn.
  rewrite Hpf. cbn. by rewrite Hfl.
Qed.

Lemma fput_run (st : vfs) (fp : Z) (fl : file) :
  vfs_files st !! fp = Some fl →
  fput fp st = Ret (tt, set_file fp (file_add_ref (-1) fl) st).
Proof. intros Hfl. unfold fput, file_deref. kunfold. by rewrite Hfl. Qed.

(** X19. [do_close] on an open descriptor returns 0, clears the slot and
    releases one reference of the file; closing the same descriptor again
    returns [-EBADF] and changes nothing. *)
Theorem do_close_then_again (st : vfs) (fd fp : Z) (fl : file) :
  0 ≤ fd < NFILES →
  p_files st !! Z.to_nat fd = Some (Some fp) →
  vfs_files st !! fp = Some fl →
  ∃ st',
    do_close fd st = Ret (0, st')
    ∧ p_files st' = <[Z.to_nat fd := None]> (p_files st)
    ∧ vfs_files st' = <[fp := file_add_ref (-1) fl]> (vfs_files st)
    ∧ do_close fd st' = Ret (- EBADF, st').
Proof.
  intros Hfd Hpf Hfl.
  assert (Hlt : (Z.to_nat fd < length (p_files st))%nat).
  { apply lookup_lt_is_Some. by eexists. }
  unfold do_close. kunfold.
  destruct (Z.ltb_spec fd 0); [lia|].
  destruct (Z.leb_spec NFILES fd); [lia|]. cbn.
  rewrite Hpf. rewrite (fput_run _ _ _ Hfl). cbn.
  eexists. split; [reflexivity|]. cbn. split; [reflexivity|].
  split; [reflexivity|].
  by rewrite list_lookup_insert_eq by exact Hlt.
Qed.

(** X20. [do_dup2] with both descriptors in range and the old one open:
    it does nothing when the two are equal; otherwise the new descriptor
    ends up on the file of the old one, that file gains a reference, and
    the file the new descriptor was open on, if any, loses one. *)
Theorem do_dup2_aliases (st : vfs) (ofd nfd fp : Z) (fl : file) :
  0 ≤ ofd < NFILES →
  0 ≤ nfd < NFILES →
  (Z.to_nat nfd < length (p_files st))%nat →
  p_files st !! Z.to_nat ofd = Some (Some fp) →
  vfs_files st !! fp = Some fl →
  (∀ fq, p_files st !! Z.to_nat nfd = Some (Some fq) →
         is_Some (vfs_files st !! fq)) →
  (ofd = nfd → do_dup2 ofd nfd st = Ret (nfd, st))
  ∧ (ofd ≠ nfd →
     ∃ st',
       do_dup2 ofd nfd st = Ret (nfd, st')
       ∧ p_files st' = <[Z.to_nat nfd := Some fp]> (p_files st)
       ∧ p_files st' !! Z.to_nat nfd = p_files st' !! Z.to_nat ofd
       ∧ ∀ f, frefs st' f
              = frefs st f + Z.b2z (bool_decide (f = fp))
                - Z.b2z (slot_holds st nfd f)).
Proof.
  intros Hofd Hnfd Hlt Hpf Hfl Hnew.
  unfold do_dup2. kunfold.
  destruct (Z.ltb_spec ofd 0); [lia|].
  destruct (Z.leb_spec NFILES ofd); [lia|].
  destruct (Z.ltb_spec nfd 0); [lia|].
  destruct (Z.leb_spec NFILES nfd); [lia|]. cbn.
  rewrite Hpf.
  split.
  - intros ->. by rewrite Z.eqb_refl.
  - intros Hne. destruct (Z.eqb_spec ofd nfd); [done|].
    assert (Hidx : Z.to_nat nfd ≠ Z.to_nat ofd) by lia.
    destruct (p_files st !! Z.to_nat nfd) as [[fq|]|] eqn:Hq.
    + destruct (Hnew fq eq_refl) as [flq Hflq].
      unfold do_close. kunfold.
      destruct (Z.ltb_spec nfd 0); [lia|].
      destruct (Z.leb_spec NFILES nfd); [lia|]. cbn.
      rewrite Hq. rewrite (fput_run _ _ _ Hflq). cbn.
      unfold fref, file_deref. kunfold. cbn.
      destruct (Z.eq_dec fq fp) as [->|Hfq].
      * rewrite lookup_insert_eq. cbn.
        eexists. split; [reflexivity|]. cbn.
        rewrite list_insert_insert_eq. split; [reflexivity|]. split.
        { rewrite list_lookup_insert_eq by exact Hlt.
          by rewrite list_lookup_insert_ne by exact Hidx. }
        intros f. unfold slot_holds. rewrite Hq.
        rewrite Hfl in Hflq. injection Hflq as <-.
        frefs_cases; rewrite ?Hfl; cbn; lia.
      * rewrite lookup_insert_ne by done. rewrite Hfl. cbn.
        eexists. split; [reflexivity|]. cbn.
        rewrite list_insert_insert_eq. split; [reflexivity|]. split.
        { rewrite list_lookup_insert_eq by exact Hlt.
          by rewrite list_lookup_insert_ne by exact Hidx. }
        intros f. unfold slot_holds. rewrite Hq.
        frefs_cases; rewrite ?Hfl, ?Hflq; cbn; lia.
    + cbn. unfold fref, file_deref. kunfold. cbn. rewrite Hfl. cbn.
      eexists. split; [reflexivity|]. cbn. split; [reflexivity|]. split.
      { rewrite list_lookup_insert_eq by exact Hlt.
        by rewrite list_lookup_insert_ne by exact Hidx. }
      intros f. unfold slot_holds. rewrite Hq.
      frefs_cases; rewrite ?Hfl; cbn; lia.
    + apply lookup_ge_None in Hq. lia.
Qed.

(** X21. [do_dup] on an open descriptor: the reference that [fget] adds
    to the file stays in either case.  With a free slot the lowest one is
    returned and holds the file; without one the result is what
    [get_empty_fd] returned, the table is unchanged and the reference is
    not given back. *)
Theorem do_dup_keeps_reference (st : vfs) (fd fp : Z) (fl : file) :
  0 ≤ fd < NFILES →
  p_files st !! Z.to_nat fd = Some (Some fp) →
  vfs_files st !! fp = Some fl →
  ∃ st',
    do_dup fd st
    = Ret (match first_free (take (Z.to_nat NFILES) (p_files st)) 0 with
           | Some i => Z.of_nat i
           | None => - EMFILE
           end, st')
    ∧ p_files st'
      = match first_free (take (Z.to_nat NFILES) (p_files st)) 0 with
        | Some i => <[i := Some fp]> (p_files st)
        | None => p_files st
        end
    ∧ ∀ f, frefs st' f = frefs st f + Z.b2z (bool_decide (f = fp)).
Proof.
  intros Hfd Hpf Hfl.
  unfold do_dup, get_empty_fd. kunfold.
  destruct (Z.ltb_spec fd 0); [lia|].
  destruct (Z.leb_spec NFILES fd); [lia|]. cbn.
  rewrite Hpf. rewrite (fget_open _ _ _ _ Hfd Hpf Hfl). cbn.
  destruct (first_free (take (Z.to_nat NFILES) (p_files st)) 0) as [i|]; cbn.
  - rewrite Nat2Z.id.
    eexists. split; [reflexivity|]. cbn. split; [reflexivity|].
    intros f. frefs_cases; rewrite ?Hfl; cbn; lia.
  - eexists. split; [reflexivity|]. cbn. split; [reflexivity|].
    intros f. frefs_cases; rewrite ?Hfl; cbn; lia.
Qed.

(** X22. [do_lseek] on an open descriptor returns [-EINVAL] and leaves the
    file as it was, position and reference count, when [whence] is none of
    the three constants, and when the new position, computed in an [int],
    is negative: the offset itself for [SEEK_SET], the position plus the
    offset for [SEEK_CUR], the length of the vnode plus the offset for
    [SEEK_END]. *)
Theorem do_lseek_einval
    (st : vfs) (fd fp : Z) (fl : file) (offset whence : Z) :
  0 ≤ fd < NFILES →
  p_files st !! Z.to_nat fd = Some (Some fp) →
  vfs_files st !! fp = Some fl →
  (whence ≠ SEEK_SET ∧ whence ≠ SEEK_CUR ∧ whence ≠ SEEK_END)
  ∨ (whence = SEEK_SET ∧ s32 offset < 0)
  ∨ (whence ≠ SEEK_SET ∧ whence = SEEK_CUR ∧ s32 (f_pos fl + offset) < 0)
  ∨ (whence ≠ SEEK_SET ∧ whence ≠ SEEK_CUR ∧ whence = SEEK_END
     ∧ (f_vnode fl ∉ vfs_locked st)
     ∧ ∃ vn, vfs_vnodes st !! f_vnode fl = Some vn
             ∧ s32 (vn_len vn + offset) < 0) →
  ∃ st',
    do_lseek fd offset whence st = Ret (- EINVAL, st')
    ∧ vfs_files st' = <[fp := fl]> (vfs_files st)
    ∧ vfs_locked st' = vfs_locked st
    ∧ p_files st' = p_files st.
Proof.
  intros Hfd Hpf Hfl Hcase.
  unfold do_lseek. kunfold.
  rewrite (fget_open _ _ _ _ Hfd Hpf Hfl).
  assert (Hput : ∀ (l : gset Z),
    fput fp (mk_vfs (vfs_root st) (vfs_vnodes st) (vfs_refcount st) l
               (<[fp := file_add_ref 1 fl]> (vfs_files st)) (p_files st))
    = Ret (tt, mk_vfs (vfs_root st) (vfs_vnodes st) (vfs_refcount st) l
                 (<[fp := fl]> (vfs_files st)) (p_files st))).
  { intros l. unfold fput, file_deref. kunfold. cbn.
    rewrite lookup_insert_eq. cbn. unfold set_file. cbn.
    by rewrite insert_insert_eq, file_add_ref_cancel. }
  destruct Hcase as [(H1 & H2 & H3) | [(-> & Hneg) | [(H1 & -> & Hneg)
    | (H1 & H2 & -> & Hlock & vn & Hvn & Hneg)]]].
  - destruct (Z.eqb_spec whence SEEK_SET); [done|].
    destruct (Z.eqb_spec whence SEEK_CUR); [done|].
    destruct (Z.eqb_spec whence SEEK_END); [done|]. cbn.
    unfold set_file at 1. rewrite Hput. cbn.
    eexists. split; [reflexivity|]. done.
  - rewrite Z.eqb_refl. cbn.
    unfold file_deref. kunfold. cbn. rewrite lookup_insert_eq. cbn.
    destruct (Z.ltb_spec (s32 offset) 0); [|lia].
    unfold set_file at 1. rewrite Hput. cbn.
    eexists. split; [reflexivity|]. done.
  - destruct (Z.eqb_spec SEEK_CUR SEEK_SET); [done|].
    rewrite Z.eqb_refl. cbn.
    unfold file_deref. kunfold. cbn. rewrite lookup_insert_eq. cbn.
    destruct (Z.ltb_spec (s32 (f_pos fl + offset)) 0); [|lia].
    unfold set_file at 1. rewrite Hput. cbn.
    eexists. split; [reflexivity|]. done.
  - destruct (Z.eqb_spec SEEK_END SEEK_SET); [done|].
    destruct (Z.eqb_spec SEEK_END SEEK_CUR); [done|].
    rewrite Z.eqb_refl. cbn.
    unfold file_deref, vlock, vunlock, deref. kunfold. cbn.
    rewrite lookup_insert_eq. cbn.
    rewrite bool_decide_eq_false_2 by exact Hlock. cbn.
    rewrite Hvn. cbn.
    rewrite bool_decide_eq_true_2
      by (apply elem_of_union; right; by apply elem_of_singleton).
    cbn.
    destruct (Z.ltb_spec (s32 (vn_len vn + offset)) 0); [|lia].
    unfold set_locked, set_file. cbn. rewrite Hput. cbn.
    eexists. split; [reflexivity|]. cbn. split; [reflexivity|].
    split; [|reflexivity].
    apply set_eq. intros x.
    rewrite elem_of_difference, elem_of_union, elem_of_singleton.
    split; [tauto|]. intros Hx. split; [by left|]. by intros ->.
Qed.

(** X23. [do_write] through a descriptor opened for appending: the write
    operation is called at the length of the vnode, whatever the position
    of the file was, and when it returns a positive count the same branch
    [ret != 0] as in [do_read] is taken: the count is returned and the
    position is left at the old end of the file, not after the bytes
    written. *)
Theorem do_write_append_position
    (vn_write : Z → option (Z → list Z → Z → Z))
    (st : vfs) (fd fp : Z) (fl : file) (vn : vnode) (ops : vnode_ops)
    (wr : Z → list Z → Z → Z) (buf : list Z) (len n : Z) :
  0 ≤ fd < NFILES →
  p_files st !! Z.to_nat fd = Some (Some fp) →
  vfs_files st !! fp = Some fl →
  Z.land (f_mode fl) FMODE_WRITE ≠ 0 →
  Z.land (f_mode fl) FMODE_APPEND ≠ 0 →
  vfs_vnodes st !! f_vnode fl = Some vn →
  f_vnode fl ∉ vfs_locked st →
  vn_ops vn = Some ops →
  vn_write (f_vnode fl) = Some wr →
  wr (vn_len vn) buf len = n →
  0 < n < 2 ^ 31 →
  ∃ st',
    do_write vn_write fd buf len st = Ret (n, st')
    ∧ vfs_files st' = <[fp := file_set_pos (vn_len vn) fl]> (vfs_files st)
    ∧ vfs_locked st' = vfs_locked st.
Proof.
  intros Hfd Hpf Hfl Hw Ha Hvn Hlock Hops Hwr Hres Hn.
  assert (Hs32 : s32 n = n).
  { unfold s32. rewrite Z.mod_small by lia. lia. }
  unfold do_write. kunfold.
  rewrite (fget_open _ _ _ _ Hfd Hpf Hfl).
  unfold fput, file_deref, deref, vlock, vunlock, ptr. kunfold. cbn.
  rewrite lookup_insert_eq. cbn.
  destruct (Z.eqb_spec (Z.land (f_mode fl) FMODE_WRITE) 0); [done|]. cbn.
  rewrite bool_decide_eq_false_2 by done. cbn.
  rewrite Hvn. cbn.
  destruct (Z.eqb_spec (Z.land (f_mode fl) FMODE_APPEND) 0); [done|]. cbn.
  rewrite lookup_insert_eq. cbn. rewrite Hops. cbn. rewrite Hwr. cbn.
  rewrite Hres, Hs32.
  destruct (Z.eqb_spec n 0); [lia|]. cbn.
  rewrite bool_decide_eq_true_2
    by (apply elem_of_union; right; by apply elem_of_singleton).
  cbn. rewrite lookup_insert_eq. cbn.
  eexists. split; [reflexivity|]. cbn. split.
  - rewrite !insert_insert_eq. f_equal.
    destruct fl; unfold file_add_ref, file_set_pos; cbn. f_equal. lia.
  - apply set_eq. intros x.
    rewrite elem_of_difference, elem_of_union, elem_of_singleton.
    split; [tauto|]. intros Hx. split; [by left|]. by intros ->.
Qed.

(** X24. [do_getdent] on a descriptor open on a directory: a result of the
    directory's [readdir] that is positive as an [int] moves the position
    of the file forward by that result, and [sizeof(dirent_t)] is
    returned; a result that is 0 or negative is returned as it is and the
    position stays.  The file and the vnode are as before otherwise. *)
Theorem do_getdent_advances
    (vn_readdir : Z → option (Z → Z * (Z * string)))
    (st : vfs) (fd fp : Z) (fl : file) (vn : vnode) (ops : vnode_ops)
    (rd : Z → Z * (Z * string)) (r : Z) (dirent : Z * string) :
  0 ≤ fd < NFILES →
  p_files st !! Z.to_nat fd = Some (Some fp) →
  vfs_files st !! fp = Some fl →
  vfs_vnodes st !! f_vnode fl = Some vn →
  S_ISDIR (vn_mode vn) = true →
  f_vnode fl ∉ vfs_locked st →
  vn_ops vn = Some ops →
  vn_readdir (f_vnode fl) = Some rd →
  rd (f_pos fl) = (r, dirent) →
  ∃ st',
    do_getdent vn_readdir fd st
    = Ret ((if s32 r <=? 0 then s32 r else DIRENT_SIZE, Some dirent), st')
    ∧ vfs_files st'
      = <[fp := if s32 r <=? 0 then fl
                else file_set_pos (u64 (f_pos fl + s32 r)) fl]> (vfs_files st)
    ∧ vfs_locked st' = vfs_locked st.
Proof.
  intros Hfd Hpf Hfl Hvn Hdir Hlock Hops Hrd Hres.
  assert (Hlk : (vfs_locked st ∪ {[f_vnode fl]}) ∖ {[f_vnode fl]}
                = vfs_locked st).
  { apply set_eq. intros x.
    rewrite elem_of_difference, elem_of_union, elem_of_singleton.
    split; [tauto|]. intros Hx. split; [by left|]. by intros ->. }
  unfold do_getdent. kunfold.
  rewrite (fget_open _ _ _ _ Hfd Hpf Hfl).
  unfold fput, file_deref, deref, vlock, vunlock, ptr. kunfold. cbn.
  rewrite lookup_insert_eq. cbn. rewrite Hvn. cbn. rewrite Hdir. cbn.
  rewrite bool_decide_eq_false_2 by done. cbn.
  rewrite Hops. cbn. rewrite Hrd. cbn. rewrite Hres.
  destruct (s32 r <=? 0); cbn.
  - rewrite bool_decide_eq_true_2
      by (apply elem_of_union; right; by apply elem_of_singleton).
    cbn. rewrite lookup_insert_eq. cbn.
    eexists. split; [reflexivity|]. cbn. split; [|exact Hlk].
    by rewrite insert_insert_eq, file_add_ref_cancel.
  - rewrite bool_decide_eq_true_2
      by (apply elem_of_union; right; by apply elem_of_singleton).
    cbn. rewrite lookup_insert_eq. cbn.
    eexists. split; [reflexivity|]. cbn. split; [|exact Hlk].
    rewrite !insert_insert_eq. f_equal.
    destruct fl; unfold file_add_ref, file_set_pos; cbn. f_equal. lia.
Qed.

End descriptor_facts.

(** ** System calls on directories *)

Section directory_facts.
Import Vfs Syscall.
Context {V : VfsHeader} {Y : SysHeader}.

Lemma lookup_step_directory (st : vfs) (dir v : Z) (name : string) :
  lookup_step st dir name = Some v →
  ∃ d ops, vfs_vnodes st !! dir = Some d ∧ vn_ops d = Some ops
           ∧ S_ISDIR (vn_mode d) = true.
Proof.
  unfold lookup_step.
  destruct (vfs_vnodes st !! dir) as [d|]; [|done].
  destruct (vn_ops d) as [ops|] eqn:Hops; [|done].
  destruct (S_ISDIR (vn_mode d)) eqn:Hdir; [|done].
  intros _. by exists d, ops.
Qed.

Lemma gset_lock_unlock (x : Z) : (∅ ∪ {[x]}) ∖ {[x]} = (∅ : gset Z).
Proof. by rewrite gset_empty_union, gset_singleton_difference. Qed.

(** X25. [do_mkdir] of a name that exists in its parent directory returns
    [-EEXIST]; no vnode is left locked and every reference count is as on
    entry: the references taken on the parent and on the vnode found are
    given back. *)
Theorem do_mkdir_existing
    (vn_mkdir : Z → option (string → Z + Z)) (p_cwd : Z)
    (st : vfs) (p : string) (parent v : Z) :
  vfs_locked st = ∅ →
  components p ≠ [] →
  walk st (start_node st p_cwd p) (removelast (components p)) = Some parent →
  Z.of_nat (String.length (basename p)) < NAME_LEN →
  lookup_step st parent (basename p) = Some v →
  ∃ st',
    do_mkdir vn_mkdir p_cwd (Some p) st = Ret (- EEXIST, st')
    ∧ vfs_locked st' = ∅
    ∧ ∀ x, refs st' x = refs st x.
Proof.
  intros Hlock Hcomp Hwalk Hlen Hstep.
  destruct (lookup_step_directory _ _ _ _ Hstep) as (pv & ops & Hpv & Hops & Hdir).
  destruct (namev_dir_walk_refs st p_cwd p parent Hlock Hcomp Hwalk)
    as (st1 & nameb & namelen & Hrun & Hname & Hnl & _ & Hnpos & Hl1 & Hv1
        & _ & _ & _ & Hrefs1).
  unfold do_mkdir. kunfold. rewrite Hrun. cbn.
  unfold deref. kunfold. rewrite Hv1, Hpv. cbn. rewrite Hdir. cbn.
  destruct (Z.leb_spec NAME_LEN namelen); [lia|].
  unfold vlock. kunfold. rewrite Hl1.
  rewrite bool_decide_eq_false_2 by apply not_elem_of_empty.
  cbn.
  assert (Hstep1 :
    lookup_step (set_locked (λ l, l ∪ {[parent]}) st1) parent
      (String.substring 0 (Z.to_nat namelen) nameb) = Some v).
  { rewrite Hname. unfold lookup_step in *. cbn. by rewrite Hv1. }
  rewrite (namev_lookup_step _ _ _ _ _ Hnpos Hstep1). cbn.
  unfold vput_locked, vunlock, vput, ptr. kunfold. cbn. rewrite Hl1.
  rewrite bool_decide_eq_true_2
    by (apply elem_of_union; right; by apply elem_of_singleton).
  cbn. eexists. split; [reflexivity|]. cbn. rewrite Hl1.
  split; [apply gset_lock_unlock|].
  intros x. refs_cases; rewrite ?Hrefs1; refs_cases.
Qed.

(** X26. [do_mkdir] refuses a last component of [NAME_LEN] characters or
    more with [-ENAMETOOLONG] before it looks it up, a limit one below
    that of [namev_open]; the reference on the parent is given back and no
    vnode is left locked. *)
Theorem do_mkdir_name_too_long
    (vn_mkdir : Z → option (string → Z + Z)) (p_cwd : Z)
    (st : vfs) (p : string) (parent : Z) (pv : vnode) :
  vfs_locked st = ∅ →
  components p ≠ [] →
  walk st (start_node st p_cwd p) (removelast (components p)) = Some parent →
  vfs_vnodes st !! parent = Some pv →
  S_ISDIR (vn_mode pv) = true →
  NAME_LEN ≤ Z.of_nat (String.length (basename p)) →
  ∃ st',
    do_mkdir vn_mkdir p_cwd (Some p) st = Ret (- ENAMETOOLONG, st')
    ∧ vfs_locked st' = ∅
    ∧ ∀ x, refs st' x = refs st x.
Proof.
  intros Hlock Hcomp Hwalk Hpv Hdir Hlen.
  destruct (namev_dir_walk_refs st p_cwd p parent Hlock Hcomp Hwalk)
    as (st1 & nameb & namelen & Hrun & Hname & Hnl & _ & Hnpos & Hl1 & Hv1
        & _ & _ & _ & Hrefs1).
  unfold do_mkdir. kunfold. rewrite Hrun. cbn.
  unfold deref. kunfold. rewrite Hv1, Hpv. cbn. rewrite Hdir. cbn.
  destruct (Z.leb_spec NAME_LEN namelen); [|lia].
  unfold vput. kunfold. cbn.
  eexists. split; [reflexivity|]. cbn. split; [exact Hl1|].
  intros x. refs_cases; rewrite ?Hrefs1; refs_cases.
Qed.

Lemma skip_slashes_dot (p : string) :
  components p = ["."] → skip_slashes p ≠ "..".
Proof.
  intros Hc Heq. rewrite <- skip_slashes_components, Heq in Hc.
  discriminate Hc.
Qed.

(** X27. [do_rmdir] on a path whose only component is [.]: the test for
    [.] compares the rest of the path with the string ".", so [-EINVAL] is
    returned only when nothing follows the component; when a [/] follows
    it, as in "./", the directory's [rmdir] operation is called with the
    name "." and its result is returned.  In both cases no vnode is left
    locked and every reference count is as on entry. *)
Theorem do_rmdir_dot_with_slash
    (vn_rmdir : Z → option (string → Z)) (p_cwd : Z)
    (st : vfs) (p : string) (pv : vnode) (ops : vnode_ops)
    (rm : string → Z) :
  vfs_locked st = ∅ →
  components p = ["."] →
  vfs_vnodes st !! start_node st p_cwd p = Some pv →
  S_ISDIR (vn_mode pv) = true →
  vn_ops pv = Some ops →
  vn_rmdir (start_node st p_cwd p) = Some rm →
  1 ≤ NAME_LEN →
  ∃ st',
    do_rmdir vn_rmdir p_cwd (Some p) st
    = Ret (if bool_decide (skip_slashes p = ".") then - EINVAL else rm ".", st')
    ∧ vfs_locked st' = ∅
    ∧ ∀ x, refs st' x = refs st x.
Proof.
  intros Hlock Hcomp Hpv Hdir Hops Hrm Hnl1.
  destruct (namev_dir_walk_refs st p_cwd p (start_node st p_cwd p))
    as (st1 & nameb & namelen & Hrun & Hname & Hnl & Hone & Hnpos & Hl1 & Hv1
        & _ & _ & _ & Hrefs1).
  { exact Hlock. }
  { by rewrite Hcomp. }
  { by rewrite Hcomp. }
  rewrite Hone in * by (by rewrite Hcomp).
  unfold basename in Hname, Hnl. rewrite Hcomp in Hname, Hnl. cbn in Hname, Hnl.
  unfold do_rmdir. kunfold. rewrite Hrun. cbn.
  unfold vput, deref, vlock, vunlock, ptr. kunfold. cbn.
  destruct (bool_decide (skip_slashes p = ".")); cbn.
  { eexists. split; [reflexivity|]. cbn. split; [exact Hl1|].
    intros x. refs_cases; rewrite ?Hrefs1; refs_cases. }
  rewrite bool_decide_eq_false_2 by (by apply skip_slashes_dot).
  cbn. rewrite Hv1, Hpv. cbn. rewrite Hdir. cbn.
  destruct (Z.ltb_spec NAME_LEN namelen); [lia|]. cbn.
  rewrite Hl1.
  rewrite bool_decide_eq_false_2 by apply not_elem_of_empty.
  cbn. rewrite Hops. cbn. rewrite Hrm. cbn.
  rewrite bool_decide_eq_true_2
    by (apply elem_of_union; right; by apply elem_of_singleton).
  cbn. rewrite Hname.
  eexists. split; [reflexivity|]. cbn. rewrite Hl1.
  split; [apply gset_lock_unlock|].
  intros x. refs_cases; rewrite ?Hrefs1; refs_cases.
Qed.

(** X28. [do_chdir] to a path that names an existing vnode: when it is a
    directory the result is 0, it becomes the working directory with one
    reference more than on entry, and the old working directory loses one;
    when it is not, the result is [-ENOTDIR], the working directory stays
    and every reference count is as on entry. *)
Theorem do_chdir_swaps_reference
    (p_cwd : Z) (st : vfs) (p : string) (dirnode fn : Z) (f : vnode) :
  vfs_locked st = ∅ →
  Z.land O_RDONLY O_CREAT = 0 →
  components p ≠ [] →
  walk st (start_node st p_cwd p) (removelast (components p)) = Some dirnode →
  Z.of_nat (String.length (basename p)) ≤ NAME_LEN →
  lookup_step st dirnode (basename p) = Some fn →
  vfs_vnodes st !! fn = Some f →
  ∃ st',
    do_chdir p_cwd (Some p) st
    = Ret (if S_ISDIR (vn_mode f) then (0, fn) else (- ENOTDIR, p_cwd), st')
    ∧ vfs_locked st' = ∅
    ∧ ∀ x, refs st' x
           = refs st x
             + (if S_ISDIR (vn_mode f)
                then Z.b2z (bool_decide (x = fn))
                     - Z.b2z (bool_decide (x = p_cwd))
                else 0).
Proof.
  intros Hlock Hrd Hcomp Hwalk Hlen Hstep Hfn.
  destruct (namev_open_found st p_cwd p O_RDONLY 0 0 dirnode fn f)
    as (st1 & Hrun & Hl1 & Hv1 & Hrefs1); try assumption; [by left|].
  unfold do_chdir, namev_resolve. kunfold. rewrite Hrun.
  destruct (S_ISDIR (vn_mode f)) eqn:Hdir; cbn.
  - unfold deref, vput. kunfold. cbn. rewrite Hv1, Hfn. cbn. rewrite Hdir.
    cbn. eexists. split; [reflexivity|]. cbn. split; [exact Hl1|].
    intros x. refs_cases; rewrite ?Hrefs1; refs_cases.
  - destruct (bool_decide (last_char p = Some "/"%char)); cbn in Hrefs1 |- *.
    + eexists. split; [reflexivity|]. split; [exact Hl1|].
      intros x. rewrite Hrefs1. lia.
    + unfold deref, vput. kunfold. cbn. rewrite Hv1, Hfn. cbn. rewrite Hdir.
      cbn. eexists. split; [reflexivity|]. cbn. split; [exact Hl1|].
      intros x. refs_cases; rewrite ?Hrefs1; refs_cases.
Qed.

(** X29. [do_mknod] of a name that exists already returns 0, as it does
    when it makes the node: [namev_open] finds the vnode and makes nothing.
    The reference [namev_open] returns is given back, so every reference
    count is as on entry, and no vnode is left locked. *)
Theorem do_mknod_existing
    (p_cwd : Z) (st : vfs) (p : string) (mode devid : Z)
    (dirnode fn : Z) (f : vnode) :
  vfs_locked st = ∅ →
  mode = S_IFCHR ∨ mode = S_IFBLK ∨ mode = S_IFREG →
  last_char p ≠ Some "/"%char →
  components p ≠ [] →
  walk st (start_node st p_cwd p) (removelast (components p)) = Some dirnode →
  Z.of_nat (String.length (basename p)) ≤ NAME_LEN →
  lookup_step st dirnode (basename p) = Some fn →
  vfs_vnodes st !! fn = Some f →
  ∃ st',
    do_mknod p_cwd (Some p) mode devid st = Ret (0, st')
    ∧ vfs_locked st' = ∅
    ∧ vfs_vnodes st' = vfs_vnodes st
    ∧ ∀ x, refs st' x = refs st x.
Proof.
  intros Hlock Hmode Hlast Hcomp Hwalk Hlen Hstep Hfn.
  destruct (namev_open_found st p_cwd p O_CREAT mode devid dirnode fn f)
    as (st1 & Hrun & Hl1 & Hv1 & Hrefs1); try assumption; [by right|].
  rewrite (bool_decide_eq_false_2 _ Hlast), orb_true_r in Hrun, Hrefs1.
  unfold do_mknod.
  assert (Hm : negb (mode =? S_IFCHR) && negb (mode =? S_IFBLK)
               && negb (mode =? S_IFREG) = false).
  { destruct Hmode as [->| [->| ->]]; reflexivity. }
  rewrite Hm. kunfold. rewrite Hrun. cbn.
  unfold vput. kunfold. cbn.
  eexists. split; [reflexivity|]. cbn. split; [exact Hl1|].
  split; [exact Hv1|].
  intros x. refs_cases; rewrite ?Hrefs1; refs_cases.
Qed.

(** X30. [do_unlink] of a name found in its parent directory: a directory
    is refused with [-EPERM] and the parent's [unlink] operation is not
    called; for anything else the result is that of the operation, called
    on the last component.  In both cases no vnode is left locked and every
    reference count is as on entry. *)
Theorem do_unlink_found
    (vn_unlink : Z → option (string → Z)) (p_cwd : Z)
    (st : vfs) (p : string) (parent v : Z) (f : vnode) (ul : string → Z) :
  vfs_locked st = ∅ →
  components p ≠ [] →
  walk st (start_node st p_cwd p) (removelast (components p)) = Some parent →
  Z.of_nat (String.length (basename p)) < NAME_LEN →
  lookup_step st parent (basename p) = Some v →
  vfs_vnodes st !! v = Some f →
  (S_ISDIR (vn_mode f) = false → vn_unlink parent = Some ul) →
  ∃ st',
    do_unlink vn_unlink p_cwd (Some p) st
    = Ret (if S_ISDIR (vn_mode f) then - EPERM else ul (basename p), st')
    ∧ vfs_locked st' = ∅
    ∧ ∀ x, refs st' x = refs st x.
Proof.
  intros Hlock Hcomp Hwalk Hlen Hstep Hf Hul.
  destruct (lookup_step_directory _ _ _ _ Hstep)
    as (pv & ops & Hpv & Hops & Hdir).
  destruct (namev_dir_walk_refs st p_cwd p parent Hlock Hcomp Hwalk)
    as (st1 & nameb & namelen & Hrun & Hname & Hnl & _ & Hnpos & Hl1 & Hv1
        & _ & _ & _ & Hrefs1).
  unfold do_unlink. kunfold. rewrite Hrun. cbn.
  unfold deref. kunfold. rewrite Hv1, Hpv. cbn. rewrite Hdir. cbn.
  destruct (Z.leb_spec NAME_LEN namelen); [lia|].
  unfold vlock. kunfold. rewrite Hl1.
  rewrite bool_decide_eq_false_2 by apply not_elem_of_empty.
  cbn.
  assert (Hstep1 :
    lookup_step (set_locked (λ l, l ∪ {[parent]}) st1) parent
      (String.substring 0 (Z.to_nat namelen) nameb) = Some v).
  { rewrite Hname. unfold lookup_step in *. cbn. by rewrite Hv1. }
  rewrite (namev_lookup_step _ _ _ _ _ Hnpos Hstep1). cbn.
  rewrite Hv1, Hf. cbn.
  destruct (S_ISDIR (vn_mode f)) eqn:Hfd; cbn.
  - unfold vput_locked, vunlock, vput. kunfold. cbn. rewrite Hl1.
    rewrite bool_decide_eq_true_2
      by (apply elem_of_union; right; by apply elem_of_singleton).
    cbn. eexists. split; [reflexivity|]. cbn. rewrite Hl1.
    split; [apply gset_lock_unlock|].
    intros x. refs_cases; rewrite ?Hrefs1; refs_cases.
  - unfold vput_locked, vunlock, vput, ptr. kunfold. cbn.
    rewrite Hops. cbn. rewrite (Hul eq_refl). cbn. rewrite Hl1.
    rewrite bool_decide_eq_true_2
      by (apply elem_of_union; right; by apply elem_of_singleton).
    cbn. rewrite Hname. eexists. split; [reflexivity|]. cbn. rewrite Hl1.
    split; [apply gset_lock_unlock|].
    intros x. refs_cases; rewrite ?Hrefs1; refs_cases.
Qed.

(** *** [namev_is_descendant] *)

Lemma last_cons_default (p v : Z) (l : list Z) :
  List.last (p :: l) v = List.last l p.
Proof.
  revert p v. induction l as [|a l IH]; intros p v; [reflexivity|].
  change (List.last (p :: a :: l) v) with (List.last (a :: l) v).
  by rewrite !IH.
Qed.

Lemma climbs_state (st st' : vfs) (b : Z) (l : list Z) :
  ∀ v,
  vfs_vnodes st' = vfs_vnodes st → vfs_root st' = vfs_root st →
  climbs st b v l → climbs st' b v l.
Proof.
  induction l as [|p l IH]; intros v Hv Hr; [done|].
  cbn. intros (Hb & Hroot & Hstep & Hrest).
  split; [done|]. split; [by rewrite Hr|]. split.
  - unfold lookup_step in *. by rewrite Hv.
  - by apply IH.
Qed.

(** [namev_get_parent] of a directory whose [..] is found: the parent is
    returned with one reference more, and the directory is unlocked
    again. *)
Lemma namev_get_parent_found (st : vfs) (dir p : Z) :
  vfs_locked st = ∅ →
  lookup_step st dir ".." = Some p →
  ∃ st',
    namev_get_parent dir st = Ret ((0, Some p), st')
    ∧ vfs_locked st' = ∅
    ∧ vfs_vnodes st' = vfs_vnodes st
    ∧ vfs_root st' = vfs_root st
    ∧ ∀ x, refs st' x = refs st x + Z.b2z (bool_decide (x = p)).
Proof.
  intros Hlock Hstep.
  unfold namev_get_parent, vlock. kunfold. rewrite Hlock.
  rewrite bool_decide_eq_false_2 by apply not_elem_of_empty.
  cbn.
  assert (Hstep1 :
    lookup_step (set_locked (λ l, l ∪ {[dir]}) st) dir
      (String.substring 0 (Z.to_nat 2) "..") = Some p).
  { unfold lookup_step in *. cbn. exact Hstep. }
  assert (H2 : 0 < 2) by lia.
  rewrite (namev_lookup_step _ _ _ _ _ H2 Hstep1). cbn.
  unfold vunlock. kunfold. cbn. rewrite Hlock.
  rewrite bool_decide_eq_true_2
    by (apply elem_of_union; right; by apply elem_of_singleton).
  cbn. eexists. split; [reflexivity|]. cbn. rewrite Hlock.
  split; [apply gset_lock_unlock|]. split; [done|]. split; [done|].
  intros x. refs_cases.
Qed.

(** The loop of [namev_is_descendant] along a chain of [..] links that ends
    at [b] or at the root: the reference held on [v] is used up. *)
Lemma namev_is_descendant_loop_climbs (b : Z) (l : list Z) :
  ∀ (fuel : nat) (v : Z) (next : option Z) (st : vfs),
  (length l ≤ fuel)%nat →
  vfs_locked st = ∅ →
  climbs st b v l →
  List.last l v = b ∨ List.last l v = vfs_root st →
  is_Some (vfs_vnodes st !! List.last l v) →
  is_Some (vfs_vnodes st !! b) →
  ∃ st',
    namev_is_descendant_loop fuel (Some v) next b st
    = Ret (Z.b2z (bool_decide (List.last l v = b)), st')
    ∧ vfs_locked st' = ∅
    ∧ ∀ x, refs st' x = refs st x - Z.b2z (bool_decide (x = v)).
Proof.
  induction l as [|p l IH]; intros fuel v next st Hfuel Hlock Hcl Hend Hv Hb.
  - cbn in Hend, Hv |- *.
    destruct Hv as (dv & Hdv). destruct Hb as (db & Hdb).
    assert (Hrun : ∀ fuel',
      namev_is_descendant_loop fuel' (Some v) next b st
      = Ret (Z.b2z (bool_decide (v = b)),
             set_refcount <[v := refs st v - 1]> st)).
    { intros fuel'.
      destruct fuel'; cbn; unfold deref, vput; kunfold; rewrite Hdv; cbn;
        rewrite Hdb; cbn.
      all: destruct (Z.eqb_spec v b) as [->|Hne];
        [by rewrite bool_decide_eq_true_2|].
      all: rewrite bool_decide_eq_false_2 by done.
      all: destruct Hend as [|Hroot]; [done|].
      all: destruct (Z.eqb_spec v (vfs_root st)); [reflexivity|done]. }
    rewrite Hrun. eexists. split; [reflexivity|]. cbn. split; [exact Hlock|].
    intros x. refs_cases.
  - rewrite last_cons_default in Hend, Hv |- *.
    destruct Hcl as (Hvb & Hvr & Hstep & Hrest).
    destruct fuel as [|fuel']; [cbn in Hfuel; lia|].
    destruct (lookup_step_directory _ _ _ _ Hstep)
      as (dv & ops & Hdv & _ & _).
    destruct Hb as (db & Hdb).
    destruct (namev_get_parent_found st v p Hlock Hstep)
      as (st1 & Hgp & Hl1 & Hv1 & Hr1 & Hrefs1).
    destruct (IH fuel' p (Some p)
                (set_refcount <[v := refs st1 v - 1]> st1))
      as (st2 & Hloop & Hl2 & Hrefs2).
    { cbn in Hfuel. lia. }
    { exact Hl1. }
    { apply (climbs_state st); [exact Hv1|exact Hr1|exact Hrest]. }
    { cbn. by rewrite Hr1. }
    { cbn. by rewrite Hv1. }
    { cbn. rewrite Hv1. by exists db. }
    cbn -[namev_get_parent]. unfold deref. kunfold. rewrite Hdv. cbn -[namev_get_parent].
    rewrite Hdb. cbn -[namev_get_parent].
    destruct (Z.eqb_spec v b); [done|].
    destruct (Z.eqb_spec v (vfs_root st)); [done|].
    rewrite Hgp. cbn.
    rewrite Hloop. eexists. split; [reflexivity|]. split; [exact Hl2|].
    intros x. rewrite Hrefs2. refs_cases; rewrite ?Hrefs1; refs_cases.
Qed.

(** X7. [namev_is_descendant] climbs from [a] through the [..] links.
    With the chain of parents [l] of [a] ending at [b] or at the root, none
    of the vnodes before the end being either, the result is 1 when the end
    is [b] and 0 otherwise; every reference taken on the way is given back
    and no vnode is left locked. *)
Theorem namev_is_descendant_climbs
    (st : vfs) (a b : Z) (l : list Z) (fuel : nat) :
  vfs_locked st = ∅ →
  climbs st b a l →
  List.last l a = b ∨ List.last l a = vfs_root st →
  is_Some (vfs_vnodes st !! List.last l a) →
  is_Some (vfs_vnodes st !! b) →
  (length l ≤ fuel)%nat →
  ∃ st',
    namev_is_descendant fuel a b st
    = Ret (Z.b2z (bool_decide (List.last l a = b)), st')
    ∧ vfs_locked st' = ∅
    ∧ ∀ x, refs st' x = refs st x.
Proof.
  intros Hlock Hcl Hend Hv Hb Hfuel.
  destruct (namev_is_descendant_loop_climbs b l fuel a None
              (set_refcount <[a := refs st a + 1]> st))
    as (st1 & Hloop & Hl1 & Hrefs1); try assumption.
  { by apply (climbs_state st). }
  unfold namev_is_descendant, vref. kunfold. cbn -[namev_is_descendant_loop].
  rewrite Hloop. eexists. split; [reflexivity|]. split; [exact Hl1|].
  intros x. rewrite Hrefs1. refs_cases.
Qed.

End directory_facts.

(* ===================================================================== *)
(** * Part V: the further properties on the examples                      *)
(* ===================================================================== *)

Section s5_examples.

(** X1 on the example: freeing directory [d] (inode 1) pushes its one
    block, 61, into slot 3 of the array. *)
Lemma s5_free_inode_returns_direct_blocks_witness :
  ∃ fs', s5_free_inode 1 ex_fs = Ret (tt, fs')
    ∧ s5s_free_inode (s5f_super fs') = 1
    ∧ s5s_nfree (s5f_super fs') = 4
    ∧ s5s_free_blocks (s5f_super fs') !! 3%nat = Some 61.
Proof.
  destruct (s5_free_inode_returns_direct_blocks ex_fs 1 (ex_dir_inode 1 96 61))
    as (fs' & Hrun & Hhead & Hn & Hfb & _).
  - reflexivity.
  - reflexivity.
  - reflexivity.
  - right. reflexivity.
  - reflexivity.
  - cbn. lia.
  - vm_compute. discriminate.
  - reflexivity.
  - vm_compute. repeat constructor. by eexists.
  - exists fs'. split; [exact Hrun|]. split; [exact Hhead|].
    split; [exact Hn|]. rewrite Hfb. reflexivity.
Defined.

(** X2 on the example: the character device (inode 3) is freed and the
    next allocation, of a directory, returns inode 3. *)
Lemma s5_free_then_alloc_inode_witness :
  ∃ fs1 fs2,
    s5_free_inode 3 ex_fs = Ret (tt, fs1)
    ∧ s5_alloc_inode S5_TYPE_DIR 0 fs1 = Ret (3, fs2)
    ∧ s5s_free_inode (s5f_super fs2) = u32 (-1).
Proof.
  destruct (s5_free_then_alloc_inode ex_fs 3 ex_chr_inode S5_TYPE_DIR 0)
    as (fs1 & fs2 & Hfree & Halloc & Hhead & _).
  - reflexivity.
  - reflexivity.
  - reflexivity.
  - left. reflexivity.
  - cbn. lia.
  - vm_compute. discriminate.
  - reflexivity.
  - constructor.
  - right. left. reflexivity.
  - vm_compute. discriminate.
  - vm_compute. discriminate.
  - exists fs1, fs2. split; [exact Hfree|]. split; [exact Halloc|].
    exact Hhead.
Defined.

(** X3 on the example: inode 3, the only free one, is allocated as a file
    and freed again. *)
Lemma s5_alloc_then_free_inode_witness :
  ∃ fs1 fs2,
    s5_alloc_inode S5_TYPE_DATA 0 ex_fs_one_free = Ret (3, fs1)
    ∧ s5_free_inode 3 fs1 = Ret (tt, fs2)
    ∧ s5s_free_inode (s5f_super fs2) = 3
    ∧ s5s_nfree (s5f_super fs2) = 3.
Proof.
  destruct (s5_alloc_then_free_inode ex_fs_one_free
              (mk_inode (u32 (-1)) 3 0 1 (replicate 28 0) 513) S5_TYPE_DATA 0)
    as (fs1 & fs2 & Halloc & Hfree & Hhead & _ & _ & _ & Hn & _).
  - left. reflexivity.
  - reflexivity.
  - vm_compute. discriminate.
  - reflexivity.
  - reflexivity.
  - vm_compute. discriminate.
  - cbn. lia.
  - reflexivity.
  - exists fs1, fs2. split; [exact Halloc|]. split; [exact Hfree|].
    split; [exact Hhead | exact Hn].
Defined.

(** X4 on the example: after the character device is freed the superblock
    still passes the check. *)
Lemma s5_free_inode_keeps_super_valid_witness :
  s5_check_super (s5f_super ex_fs) = 0
  ∧ ∃ fs', s5_free_inode 3 ex_fs = Ret (tt, fs')
           ∧ s5_check_super (s5f_super fs') = 0.
Proof.
  split; [reflexivity|].
  exists (pushed (direct_blocks_of ex_chr_inode) (inode_freed 3 ex_chr_inode ex_fs)).
  assert (Hrun : s5_free_inode 3 ex_fs
                 = Ret (tt, pushed (direct_blocks_of ex_chr_inode)
                              (inode_freed 3 ex_chr_inode ex_fs)))
    by reflexivity.
  split; [exact Hrun|].
  apply (s5_free_inode_keeps_super_valid ex_fs _ 3).
  - reflexivity.
  - cbn. lia.
  - exact Hrun.
Defined.

(** On the example: after the only free inode is allocated the
    superblock's list is empty and it still passes the check. *)
Lemma s5_alloc_inode_keeps_super_valid_witness :
  ∃ fs', s5_alloc_inode S5_TYPE_DATA 0 ex_fs_one_free = Ret (3, fs')
         ∧ s5_check_super (s5f_super fs') = 0.
Proof.
  eexists. split; [reflexivity|].
  apply (s5_alloc_inode_keeps_super_valid ex_fs_one_free _ S5_TYPE_DATA 0 3).
  - reflexivity.
  - intros inode Hi. right. vm_compute in Hi. injection Hi as <-. reflexivity.
  - reflexivity.
Defined.

(** X6 on the example: the blocks of directory [d] (vnode 1) are
    removed. *)
Lemma s5_remove_blocks_direct_witness :
  ∃ k', s5_remove_blocks 1 ex_kernel = Ret (tt, k')
    ∧ s5s_nfree (s5f_super (k_s5fs k')) = 4
    ∧ s5s_free_blocks (s5f_super (k_s5fs k')) !! 3%nat = Some 61.
Proof.
  destruct (s5_remove_blocks_direct ex_kernel 1
              (ex_vnode S_IFDIR 96 (ex_dir_inode 1 96 61)))
    as (k' & Hrun & Hfs & _).
  - reflexivity.
  - reflexivity.
  - reflexivity.
  - cbn. lia.
  - vm_compute. discriminate.
  - reflexivity.
  - vm_compute. repeat constructor. by eexists.
  - exists k'. split; [exact Hrun|]. rewrite Hfs. split; reflexivity.
Defined.


(** X5 on the example: making a regular file in the root directory stops
    at the assertion of [s5_alloc_inode], whatever the vnode cache does. *)
Lemma s5fs_mknod_never_creates_witness :
  s5fs_mknod (λ _, kret None) (λ _, kret tt) 0 "f" 1 S_IFREG 0 ex_kernel
  = Panic.
Proof.
  rewrite (s5fs_mknod_never_creates (λ _, kret None) (λ _, kret tt)
             0 "f" 1 S_IFREG 0 ex_kernel); [reflexivity|..]; zdecide.
Defined.

End s5_examples.

Section vmmap_examples.
Import Vmmap VmmapOps.

(** X9 on the example: an area for the gap of two pages goes between the
    first two areas. *)
Lemma vmmap_insert_sorted_witness :
  vmmap_insert ex_three_areas (mk_vmarea 1030 1032 0 3 2)
  = [mk_vmarea 1024 1030 0 3 2; mk_vmarea 1030 1032 0 3 2;
     mk_vmarea 1032 1040 0 3 2; mk_vmarea 1040 1050 0 3 2]
  ∧ sorted_areas (vmmap_insert ex_three_areas (mk_vmarea 1030 1032 0 3 2)).
Proof.
  split; [reflexivity|].
  apply (vmmap_insert_sorted ex_three_areas (mk_vmarea 1030 1032 0 3 2)).
  - cbn. lia.
  - cbn. lia.
  - repeat constructor; cbn; lia.
Defined.

(** X11 on the example: the first gap of two pages starts at page 1030. *)
Lemma vmmap_find_range_lohi_first_fit_witness :
  vmmap_find_range ex_three_areas 2 VMMAP_DIR_LOHI = 1030
  ∧ ¬ mapped ex_three_areas 1031.
Proof.
  destruct (vmmap_find_range_lohi_first_fit ex_three_areas 2)
    as (_ & Hfree & _).
  - discriminate.
  - zdecide.
  - cbn. lia.
  - zdecide.
  - repeat constructor; cbn; lia.
  - split; [reflexivity|]. apply Hfree. zdecide.
Defined.

End vmmap_examples.

Section ldisc_examples.
Import Ldisc.

(** X12 on the example: the two characters of the line are read, the
    newline is not. *)
Lemma ldisc_read_copies_witness :
  ∃ l', ldisc_read (replicate 8 0) 8 ex_ldisc
          = Ret ((2, [104; 105; 0; 0; 0; 0; 0; 0]), l')
        ∧ ldisc_cooked l' = 2.
Proof.
  destruct (ldisc_read_copies ex_ldisc (replicate 8 0) 8)
    as (r & Hrun & _).
  - reflexivity.
  - cbn. lia.
  - cbn. lia.
  - eexists. split; [reflexivity | reflexivity].
Defined.

(** X13 on the example: the read that follows returns nothing. *)
Lemma ldisc_read_short_then_zero_witness :
  ldisc_read (replicate 8 0) 8 (set_cooked 2 ex_ldisc)
  = Ret ((0, replicate 8 0), set_cooked 2 ex_ldisc).
Proof.
  apply (ldisc_read_short_then_zero ex_ldisc (set_cooked 2 ex_ldisc)
           (replicate 8 0) [104; 105; 0; 0; 0; 0; 0; 0] (replicate 8 0)
           8 2 8).
  - reflexivity.
  - cbn. lia.
  - cbn. lia.
  - reflexivity.
  - lia.
Defined.

(** X14 on the example: three raw characters are copied and 0 is
    returned. *)
Lemma ldisc_get_current_line_raw_drains_witness :
  ldisc_get_current_line_raw (replicate 4 0) ex_ldisc_raw
  = Ret ((0, [104; 105; 10; 0]), set_tail 3 ex_ldisc_raw).
Proof.
  rewrite (ldisc_get_current_line_raw_drains ex_ldisc_raw (replicate 4 0)).
  - reflexivity.
  - repeat split; cbn; lia.
  - vm_compute. discriminate.
Defined.

End ldisc_examples.

Section vfs_examples.
Import Vfs Syscall.

(** X16 on the example: the directory of [/tmp/x] is vnode 1, returned
    with a second reference; the root, walked through, keeps its two. *)
Lemma namev_dir_holds_one_reference_witness :
  ∃ st' nameb,
    namev_dir 0 (Some "/tmp/x") ex_vfs = Ret ((0, Some (1, Some nameb, 1)), st')
    ∧ refs st' 1 = 2 ∧ refs st' 0 = 2.
Proof.
  destruct (namev_dir_holds_one_reference ex_vfs 0 "/tmp/x" 1)
    as (st' & nameb & Hrun & _ & _ & Hrefs).
  - reflexivity.
  - discriminate.
  - reflexivity.
  - exists st', nameb. split; [exact Hrun|].
    rewrite !Hrefs. split; reflexivity.
Defined.

(** X17 on the example: the root has no entry [nope]. *)
Lemma namev_dir_error_releases_witness :
  ∃ st',
    namev_dir 0 (Some "/nope/x/y") ex_vfs = Ret ((- ENOENT, None), st')
    ∧ refs st' 0 = 2.
Proof.
  destruct (namev_dir_error_releases ex_vfs 0 "/nope/x/y" [] "nope" ["x"]
              0 (- ENOENT))
    as (st' & Hrun & _ & Hrefs).
  - reflexivity.
  - reflexivity.
  - reflexivity.
  - reflexivity.
  - vm_compute. discriminate.
  - exists st'. split; [exact Hrun|]. rewrite Hrefs. reflexivity.
Defined.


(** X19 on the example: descriptor 0 is closed twice. *)
Lemma do_close_then_again_witness :
  ∃ st', do_close 0 ex_sys = Ret (0, st')
         ∧ do_close 0 st' = Ret (- EBADF, st').
Proof.
  destruct (do_close_then_again ex_sys 0 10 (mk_file 2 1 0 1))
    as (st' & Hrun & _ & _ & Hagain).
  - zdecide.
  - reflexivity.
  - reflexivity.
  - exists st'. split; assumption.
Defined.

(** X20 on the example: descriptor 1 is made an alias of descriptor 0. *)
Lemma do_dup2_aliases_witness :
  ∃ st', do_dup2 0 1 ex_sys = Ret (1, st')
         ∧ p_files st' !! 1%nat = Some (Some 10)
         ∧ frefs st' 10 = 2 ∧ frefs st' 11 = 0.
Proof.
  destruct (do_dup2_aliases ex_sys 0 1 10 (mk_file 2 1 0 1)) as [_ Hne].
  - zdecide.
  - zdecide.
  - cbn. lia.
  - reflexivity.
  - reflexivity.
  - intros fq Hq. injection Hq as <-. by eexists.
  - destruct Hne as (st' & Hrun & Hpf & _ & Hrefs); [discriminate|].
    exists st'. split; [exact Hrun|]. rewrite Hpf, !Hrefs.
    repeat split; reflexivity.
Defined.

(** X21 on the example: descriptor 0 is duplicated into slot 2. *)
Lemma do_dup_keeps_reference_witness :
  ∃ st', do_dup 0 ex_sys = Ret (2, st')
         ∧ p_files st' !! 2%nat = Some (Some 10)
         ∧ frefs st' 10 = 2.
Proof.
  destruct (do_dup_keeps_reference ex_sys 0 10 (mk_file 2 1 0 1))
    as (st' & Hrun & Hpf & Hrefs).
  - zdecide.
  - reflexivity.
  - reflexivity.
  - exists st'. split; [exact Hrun|]. rewrite Hpf, Hrefs.
    split; reflexivity.
Defined.

(** X22 on the example: the offset [2^32 - 1] is -1 as an [int]. *)
Lemma do_lseek_einval_witness :
  ∃ st', do_lseek 0 4294967295 SEEK_SET ex_sys = Ret (- EINVAL, st')
         ∧ vfs_files st' !! 10 = Some (mk_file 2 1 0 1).
Proof.
  destruct (do_lseek_einval ex_sys 0 10 (mk_file 2 1 0 1) 4294967295 SEEK_SET)
    as (st' & Hrun & Hfiles & _).
  - zdecide.
  - reflexivity.
  - reflexivity.
  - right. left. split; [reflexivity | zdecide].
  - exists st'. split; [exact Hrun|]. rewrite Hfiles. reflexivity.
Defined.

(** X23 on the example: three bytes are appended through descriptor 1 to
    the file of length 5. *)
Lemma do_write_append_position_witness :
  ∃ st', do_write ex_vn_write 1 [33; 33; 33] 3 ex_sys = Ret (3, st')
         ∧ vfs_files st' !! 11 = Some (mk_file 2 6 5 1).
Proof.
  destruct (do_write_append_position ex_vn_write ex_sys 1 11 (mk_file 2 6 0 1)
              (mk_vnode S_IFREG 5 (Some (mk_ops None None (Some ex_hello_read))))
              (mk_ops None None (Some ex_hello_read))
              (λ pos buf len, len) [33; 33; 33] 3 3)
    as (st' & Hrun & Hfiles & _).
  - zdecide.
  - reflexivity.
  - reflexivity.
  - discriminate.
  - discriminate.
  - reflexivity.
  - cbn. apply not_elem_of_empty.
  - reflexivity.
  - reflexivity.
  - reflexivity.
  - lia.
  - exists st'. split; [exact Hrun|]. rewrite Hfiles. reflexivity.
Defined.

(** X24 on the example: the first entry of the root directory is read
    through descriptor 3. *)
Lemma do_getdent_advances_witness :
  ∃ st', do_getdent ex_vn_readdir 3 ex_sys
           = Ret ((DIRENT_SIZE, Some (1, "tmp")), st')
         ∧ vfs_files st' !! 12 = Some (mk_file 0 1 32 1).
Proof.
  destruct (do_getdent_advances ex_vn_readdir ex_sys 3 12 (mk_file 0 1 0 1)
              (mk_vnode S_IFDIR 0 (Some (ex_dir_ops ex_root_lookup)))
              (ex_dir_ops ex_root_lookup)
              (λ pos, if pos =? 0 then (32, (1, "tmp"))
                      else (0, (0, EmptyString)))
              32 (1, "tmp"))
    as (st' & Hrun & Hfiles & _).
  - zdecide.
  - reflexivity.
  - reflexivity.
  - reflexivity.
  - reflexivity.
  - cbn. apply not_elem_of_empty.
  - reflexivity.
  - reflexivity.
  - reflexivity.
  - exists st'. split; [exact Hrun|]. rewrite Hfiles. reflexivity.
Defined.

(** X25 on the example: [tmp] exists in the root. *)
Lemma do_mkdir_existing_witness :
  ∃ st', do_mkdir ex_vn_mkdir 0 (Some "tmp") ex_sys = Ret (- EEXIST, st')
         ∧ refs st' 0 = 3 ∧ refs st' 1 = 1.
Proof.
  destruct (do_mkdir_existing ex_vn_mkdir 0 ex_sys "tmp" 0 1)
    as (st' & Hrun & _ & Hrefs).
  - reflexivity.
  - discriminate.
  - reflexivity.
  - zdecide.
  - reflexivity.
  - exists st'. split; [exact Hrun|]. rewrite !Hrefs. split; reflexivity.
Defined.

(** X26 on the example: a name of 29 characters in [/tmp]. *)
Lemma do_mkdir_name_too_long_witness :
  ∃ st', do_mkdir ex_vn_mkdir 0 (Some ("/tmp/" +:+ ex_long_name)) ex_sys
           = Ret (- ENAMETOOLONG, st')
         ∧ refs st' 1 = 1.
Proof.
  destruct (do_mkdir_name_too_long ex_vn_mkdir 0 ex_sys
              ("/tmp/" +:+ ex_long_name) 1
              (mk_vnode S_IFDIR 0 (Some (ex_dir_ops ex_tmp_lookup))))
    as (st' & Hrun & _ & Hrefs).
  - reflexivity.
  - discriminate.
  - reflexivity.
  - reflexivity.
  - reflexivity.
  - zdecide.
  - exists st'. split; [exact Hrun|]. rewrite Hrefs. reflexivity.
Defined.

(** X27 on the example: [rmdir] of "./" reaches the directory's operation,
    which answers [-ENOTDIR]; [rmdir] of "." would be [-EINVAL]. *)
Lemma do_rmdir_dot_with_slash_witness :
  ∃ st', do_rmdir ex_vn_rmdir 0 (Some "./") ex_sys = Ret (- ENOTDIR, st')
         ∧ refs st' 0 = 3.
Proof.
  destruct (do_rmdir_dot_with_slash ex_vn_rmdir 0 ex_sys "./"
              (mk_vnode S_IFDIR 0 (Some (ex_dir_ops ex_root_lookup)))
              (ex_dir_ops ex_root_lookup)
              (λ name, if bool_decide (name = ".") then - ENOTDIR else -1))
    as (st' & Hrun & _ & Hrefs).
  - reflexivity.
  - reflexivity.
  - reflexivity.
  - reflexivity.
  - reflexivity.
  - reflexivity.
  - zdecide.
  - exists st'. split; [exact Hrun|]. rewrite Hrefs. reflexivity.
Defined.

(** X28 on the example: the working directory moves from the root to
    [tmp]. *)
Lemma do_chdir_swaps_reference_witness :
  ∃ st', do_chdir 0 (Some "tmp") ex_sys = Ret ((0, 1), st')
         ∧ refs st' 1 = 2 ∧ refs st' 0 = 2.
Proof.
  destruct (do_chdir_swaps_reference 0 ex_sys "tmp" 0 1
              (mk_vnode S_IFDIR 0 (Some (ex_dir_ops ex_tmp_lookup))))
    as (st' & Hrun & _ & Hrefs).
  - reflexivity.
  - reflexivity.
  - discriminate.
  - reflexivity.
  - zdecide.
  - reflexivity.
  - reflexivity.
  - exists st'. split; [exact Hrun|]. rewrite !Hrefs. split; reflexivity.
Defined.

(** X29 on the example: [/hello] exists; the result is 0 and the file
    has its two references as before. *)
Lemma do_mknod_existing_witness :
  ∃ st', do_mknod 0 (Some "/hello") S_IFREG 0 ex_sys_linked = Ret (0, st')
         ∧ refs st' 2 = 2 ∧ refs st' 0 = 3.
Proof.
  destruct (do_mknod_existing 0 ex_sys_linked "/hello" S_IFREG 0 0 2
              (mk_vnode S_IFREG 5 (Some (mk_ops None None (Some ex_hello_read)))))
    as (st' & Hrun & _ & _ & Hrefs).
  - reflexivity.
  - right. right. reflexivity.
  - discriminate.
  - discriminate.
  - reflexivity.
  - zdecide.
  - reflexivity.
  - reflexivity.
  - exists st'. split; [exact Hrun|]. rewrite !Hrefs. split; reflexivity.
Defined.

(** X30 on the example: [/hello] is a file and is unlinked through the
    operation of the root directory. *)
Lemma do_unlink_found_witness :
  ∃ st', do_unlink ex_vn_unlink 0 (Some "/hello") ex_sys_linked
           = Ret (0, st')
         ∧ refs st' 2 = 2 ∧ refs st' 0 = 3.
Proof.
  destruct (do_unlink_found ex_vn_unlink 0 ex_sys_linked "/hello" 0 2
              (mk_vnode S_IFREG 5 (Some (mk_ops None None (Some ex_hello_read))))
              (λ _, 0))
    as (st' & Hrun & _ & Hrefs).
  - reflexivity.
  - discriminate.
  - reflexivity.
  - zdecide.
  - reflexivity.
  - reflexivity.
  - reflexivity.
  - exists st'. split; [exact Hrun|]. rewrite !Hrefs. split; reflexivity.
Defined.

(** X7 on the example: [tmp] is a descendant of the root, one [..] link
    away. *)
Lemma namev_is_descendant_climbs_witness :
  ∃ st', namev_is_descendant 1 1 0 ex_sys = Ret (1, st')
         ∧ refs st' 0 = 3 ∧ refs st' 1 = 1.
Proof.
  destruct (namev_is_descendant_climbs ex_sys 1 0 [0] 1)
    as (st' & Hrun & _ & Hrefs).
  - reflexivity.
  - repeat split; discriminate.
  - left. reflexivity.
  - eexists. reflexivity.
  - eexists. reflexivity.
  - cbn. lia.
  - exists st'. split; [exact Hrun|]. rewrite !Hrefs. split; reflexivity.
Defined.

End vfs_examples.
